(** * Fluidkeys team rosters: update validation and synchronisation

    A shallow embedding of the parts of the Fluidkeys client that decide
    how a team roster is validated ([team.ValidateUpdate]) and how the
    local copy of a roster is synchronised with the server ([fk team
    fetch]: [teamFetch], [doUpdateTeam], [fetchAndUpdateRoster],
    [fetchTeamKeys], [processRequestsToJoinTeam], [fetchAdminPublicKeys],
    [discoverPublicKey]).

    Go values are modelled as follows.
    - [error] values: the three sentinel errors of package [api], which
      the code compares by identity, and errors built by [fmt.Errorf],
      which carry their message.
    - a Go result pair [(v, err)] is a [result]; a lone [error] return is
      an [option error], [None] being [nil].
    - UUIDs and fingerprints are their stable string forms.
    - effects: every function of package [fk] runs in a monad that threads
      the mutable local state (trusted roster store and join-request
      database) and records each call to an external collaborator as an
      [Event]. *)

From Stdlib Require Import ZArith String List Bool Lia.
From stdpp Require Import base option list strings gmap pretty.
Import ListNotations.

Local Open Scope string_scope.
Local Open Scope list_scope.
Local Open Scope Z_scope.

(** ** Go errors and results *)

Inductive error : Type :=
| ErrPublicKeyNotFound
| ErrTeamNotFound
| ErrForbidden
| Errorf (msg : string).

(** [err.Error()], as used by the [%v] verb of [fmt.Errorf]. *)
Definition Error (e : error) : string :=
  match e with
  | ErrPublicKeyNotFound => "Public key not found"
  | ErrTeamNotFound => "Team not found"
  | ErrForbidden => "Forbidden"
  | Errorf msg => msg
  end.

#[global] Instance error_eq_dec : EqDecision error.
Proof. solve_decision. Defined.

Inductive result (A : Type) : Type :=
| Ok (a : A)
| Err (e : error).
Arguments Ok {A} a.
Arguments Err {A} e.

Definition is_err {A} (r : result A) : bool :=
  match r with Ok _ => false | Err _ => true end.

Definition UUID := string.
Definition Fingerprint := string.

(** ** Package [team] *)

Module team.

(** Modelled from the spec: the [Person] and [Team] structs of package
    [team], with the fields the code reads. *)
Record Person : Type := mkPerson {
  Email : string;
  PersonFingerprint : Fingerprint;
  IsAdmin : bool
}.

(** A team carries the roster text and detached signature it was loaded
    from; [Roster] hands both back. *)
Record Team : Type := mkTeam {
  TeamUUID : UUID;
  Name : string;
  People : list Person;
  roster : string;
  signature : string
}.

(** Modelled from the spec: [Team.Roster] returns the roster text and the
    signature. *)
Definition Roster (t : Team) : string * string := (roster t, signature t).

(** Modelled from the spec: [Team.Admins] are the people with the admin
    flag, in roster order. *)
Definition Admins (t : Team) : list Person := List.filter IsAdmin (People t).

(** Modelled from the spec: a stored request to join a team;
    [RequestedAt] counts nanoseconds. *)
Record RequestToJoinTeam : Type := mkRequest {
  RequestUUID : UUID;
  RequestTeamUUID : UUID;
  RequestTeamName : string;
  RequestFingerprint : Fingerprint;
  RequestEmail : string;
  RequestedAt : Z
}.

(** *** validate.go *)

Definition validateTeamUUID (before after : Team) : option error :=
  if decide (TeamUUID before <> TeamUUID after)
  then Some (Errorf "can't change team UUID")
  else None.

Definition validateTeamNameCantChange (before after : Team) : option error :=
  if decide (Name before <> Name after)
  then Some (Errorf "can't change team name")
  else None.

Definition validateIAmAdmin (before after : Team) (me : Person) : option error :=
  Some (Errorf "not implemented").

(** The three checks run in order and the first error is returned. *)
Definition ValidateUpdate (before after : Team) (me : Person) : option error :=
  match validateTeamUUID before after with
  | Some err => Some err
  | None =>
    match validateTeamNameCantChange before after with
    | Some err => Some err
    | None =>
      match validateIAmAdmin before after me with
      | Some err => Some err
      | None => None
      end
    end
  end.

End team.

(** ** Package [fk]: collaborators, local state and recorded calls *)

Module fk.
Import team.

(** Modelled from the spec: a key of package [pgpkey] is an opaque value
    identified by its fingerprint; locked and unlocked forms of one key
    differ in [KeyData]. *)
Record PgpKey : Type := mkKey {
  KeyFingerprint : Fingerprint;
  KeyData : string
}.

Record TeamMembership : Type := mkMembership {
  MembershipTeam : Team;
  Me : Person
}.

(** What is written to the terminal: the [ui.Format...] boxes keep their
    headline, extra lines and error. *)
Inductive Output : Type :=
| Text (s : string)
| Header (title : string)
| Failed (s : string)
| Checkbox (label : string) (err : option error)
| FormatFailure (headline : string) (extraLines : list string) (err : option error)
| FormatWarning (headline : string) (extraLines : list string) (err : option error)
| FormatInfo (headline : string) (extraLines : list string)
| FormatSuccess (headline : string) (extraLines : list string).

(** One entry per call that leaves the process: terminal and log output,
    the local keyring, the password prompt, the remote service, signature
    verification, the trusted roster store and the join-request database. *)
Inductive Event : Type :=
| EvPrint (o : Output)
| EvLog (msg : string)
| EvLoadPgpKey (fingerprint : Fingerprint)
| EvDecryptPrivateKey (key : PgpKey)
| EvGetTeamRoster (key : PgpKey) (teamUUID : UUID)
| EvGetPublicKeyByFingerprint (fingerprint : Fingerprint)
| EvVerifyRoster (roster signature : string) (adminKeys : list PgpKey)
| EvSave (directory roster signature : string)
| EvRequestsToJoinTeams
| EvDeleteRequestToJoinTeam (teamUUID : UUID) (fingerprint : Fingerprint)
| EvImportArmoredKey (armoredKey : string).

(** Kinds of recorded calls. *)
Definition isKeyResolution (ev : Event) : bool :=
  match ev with
  | EvLoadPgpKey _ | EvGetPublicKeyByFingerprint _ => true
  | _ => false
  end.

Definition isVerification (ev : Event) : bool :=
  match ev with EvVerifyRoster _ _ _ => true | _ => false end.

Definition isStoreWrite (ev : Event) : bool :=
  match ev with EvSave _ _ _ => true | _ => false end.

Definition isRosterFetch (ev : Event) : bool :=
  match ev with EvGetTeamRoster _ _ => true | _ => false end.

Definition isRequestDeletion (ev : Event) : bool :=
  match ev with EvDeleteRequestToJoinTeam _ _ => true | _ => false end.

(** What admin-key resolution may do: look keys up and log. *)
Definition isLookupOrLog (ev : Event) : bool :=
  match ev with
  | EvLoadPgpKey _ | EvGetPublicKeyByFingerprint _ | EvLog _ => true
  | _ => false
  end.

(** The mutable local state: the trusted roster store, one roster and
    signature per team directory, and the stored requests to join teams.
    The GnuPG keyring is not part of it: an import of a key is recorded
    as a call. *)
Record World : Type := mkWorld {
  store : gmap string (string * string);
  db : list RequestToJoinTeam
}.

(** The external collaborators of one run. Their code is outside this
    development, so each is a parameter: what it answers, or the error it
    fails with. *)
Record Collaborators : Type := mkCollaborators {
  api_GetTeamRoster : PgpKey -> UUID -> result (string * string);
  api_GetPublicKeyByFingerprint : Fingerprint -> result PgpKey;
  loadPgpKey : Fingerprint -> result PgpKey;
  getDecryptedPrivateKeyAndPassword : PgpKey -> result (PgpKey * string);
  team_VerifyRoster : string -> string -> list PgpKey -> option error;
  team_Load : string -> string -> result Team;
  team_Directory : Team -> result string;
  Save_error : string -> string -> string -> option error;
  RequestsToJoinTeams_error : option error;
  DeleteRequestToJoinTeam_error : UUID -> Fingerprint -> option error;
  user_Memberships : gmap string (string * string) -> result (list TeamMembership);
  key_Armor : PgpKey -> result string;
  gpg_ImportArmoredKey : string -> option error;
  time_Now : Z;
  humanize_RoughDuration : Z -> string;
  colour_Cmd : string -> string
}.

(** State and recorded calls are threaded through every function. *)
Definition M (A : Type) : Type := World -> A * World * list Event.

Definition ret {A : Type} (a : A) : M A := fun w => (a, w, []).

Definition bind {A B : Type} (m : M A) (k : A -> M B) : M B :=
  fun w =>
    let '(a, w1, evs1) := m w in
    let '(b, w2, evs2) := k a w1 in
    (b, w2, evs1 ++ evs2).

Definition emit (ev : Event) : M unit := fun w => (tt, w, [ev]).

Notation "'let*' x ':=' m 'in' k" := (bind m (fun x => k))
  (at level 10, x pattern, m at level 100, k at level 200).
Notation "m ';;;' k" := (bind m (fun _ => k))
  (at level 100, k at level 200, right associativity).

Definition returned {A : Type} (r : A * World * list Event) : A := fst (fst r).
Definition final {A : Type} (r : A * World * list Event) : World := snd (fst r).
Definition events {A : Type} (r : A * World * list Event) : list Event := snd r.

(** [time.Duration] is a signed 64-bit count of nanoseconds and
    [Time.Sub] saturates at its bounds. *)
Definition minDuration : Z := - 2 ^ 63.
Definition maxDuration : Z := 2 ^ 63 - 1.
Definition Hour : Z := 3600 * 1000000000.

Definition Sub (t u : Z) : Z :=
  let d := t - u in
  if d <? minDuration then minDuration
  else if maxDuration <? d then maxDuration
  else d.

Definition nl : string := String (Ascii.ascii_of_nat 10) EmptyString.

Definition successfullyFetchedKeysHeadline : string :=
  "Successfully fetched keys and imported them into GnuPG".

(** A call returns, or panics with a value; the panics of this code
    carry a message. *)
Inductive outcome (A : Type) : Type :=
| Returned (a : A)
| Panicked (msg : string).
Arguments Returned {A} a.
Arguments Panicked {A} msg.

Definition exitCode := Z.

Section Fetch.

Context (X : Collaborators).

(** *** Calls to the collaborators *)

Definition out_Print (o : Output) : M unit := emit (EvPrint o).

Definition log_Printf (msg : string) : M unit := emit (EvLog msg).

(** [log.Panic(err)]: the text of the error is written to the log and is
    the value of the panic that follows. *)
Definition log_Panic {A : Type} (err : error) : M (outcome A) :=
  let s := Error err in
  emit (EvLog s) ;;;
  ret (Panicked s).

Definition printHeader (title : string) : M unit := out_Print (Header title).

Definition printFailed (s : string) : M unit := out_Print (Failed s).

Definition gpg_loadPgpKey (fingerprint : Fingerprint) : M (result PgpKey) :=
  emit (EvLoadPgpKey fingerprint) ;;;
  ret (loadPgpKey X fingerprint).

Definition decryptPrivateKey (key : PgpKey) : M (result (PgpKey * string)) :=
  emit (EvDecryptPrivateKey key) ;;;
  ret (getDecryptedPrivateKeyAndPassword X key).

Definition client_GetTeamRoster (key : PgpKey) (teamUUID : UUID)
  : M (result (string * string)) :=
  emit (EvGetTeamRoster key teamUUID) ;;;
  ret (api_GetTeamRoster X key teamUUID).

Definition client_GetPublicKeyByFingerprint (fingerprint : Fingerprint)
  : M (result PgpKey) :=
  emit (EvGetPublicKeyByFingerprint fingerprint) ;;;
  ret (api_GetPublicKeyByFingerprint X fingerprint).

Definition VerifyRoster (roster signature : string) (adminKeys : list PgpKey)
  : M (option error) :=
  emit (EvVerifyRoster roster signature adminKeys) ;;;
  ret (team_VerifyRoster X roster signature adminKeys).

Definition ImportArmoredKey (armoredKey : string) : M (option error) :=
  emit (EvImportArmoredKey armoredKey) ;;;
  ret (gpg_ImportArmoredKey X armoredKey).

(** Modelled from the spec: [RosterSaver.Save] is the only writer of the
    trusted roster store; it replaces the roster and signature kept for
    the directory as one step, and a failed save leaves the store as it
    was. *)
Definition Save (directory roster signature : string) : M (option error) :=
  fun w =>
    match Save_error X directory roster signature with
    | Some err => (Some err, w, [EvSave directory roster signature])
    | None =>
      (None,
       mkWorld (<[directory := (roster, signature)]> (store w)) (db w),
       [EvSave directory roster signature])
    end.

(** Modelled from the spec: [user.RequestsToJoinTeams] lists the stored
    requests. *)
Definition RequestsToJoinTeams : M (result (list RequestToJoinTeam)) :=
  fun w =>
    match RequestsToJoinTeams_error X with
    | Some err => (Err err, w, [EvRequestsToJoinTeams])
    | None => (Ok (db w), w, [EvRequestsToJoinTeams])
    end.

Definition sameRequest (teamUUID : UUID) (fingerprint : Fingerprint)
  (r : RequestToJoinTeam) : bool :=
  bool_decide (RequestTeamUUID r = teamUUID) &&
  bool_decide (RequestFingerprint r = fingerprint).

(** Modelled from the spec: [db.DeleteRequestToJoinTeam] removes the
    stored requests of that requester for that team; a failed delete
    removes nothing. *)
Definition DeleteRequestToJoinTeam (teamUUID : UUID) (fingerprint : Fingerprint)
  : M (option error) :=
  fun w =>
    match DeleteRequestToJoinTeam_error X teamUUID fingerprint with
    | Some err => (Some err, w, [EvDeleteRequestToJoinTeam teamUUID fingerprint])
    | None =>
      (None,
       mkWorld (store w)
         (List.filter (fun r => negb (sameRequest teamUUID fingerprint r)) (db w)),
       [EvDeleteRequestToJoinTeam teamUUID fingerprint])
    end.

(** Modelled from the spec: [user.Memberships] reads the teams this user
    belongs to from the trusted roster store. *)
Definition Memberships : M (result (list TeamMembership)) :=
  fun w => (user_Memberships X (store w), w, []).

(** Modelled from the spec: [ui.RunWithCheckboxes] runs the function,
    prints a ticked or crossed line for the label, and returns the
    function's error. *)
Definition RunWithCheckboxes (label : string) (fn : M (option error))
  : M (option error) :=
  let* err := fn in
  out_Print (Checkbox label err) ;;;
  ret err.

(** *** teamfetch.go *)

Definition loadPrivateKeyFromFingerprint (fingerprint : Fingerprint)
  : M (result PgpKey) :=
  let* r := gpg_loadPgpKey fingerprint in
  match r with
  | Err err => ret (Err err)
  | Ok key =>
    let* r := decryptPrivateKey key in
    match r with
    | Err err => ret (Err err)
    | Ok (unlockedKey, _) => ret (Ok unlockedKey)
    end
  end.

Definition getAndImportKeyToGpg (fingerprint : Fingerprint) : M (option error) :=
  let* r := client_GetPublicKeyByFingerprint fingerprint in
  match r with
  | Err err =>
    if decide (err = ErrPublicKeyNotFound) then
      log_Printf (Error err) ;;;
      ret (Some (Errorf "Couldn't find key"))
    else
      log_Printf (Error err) ;;;
      ret (Some (Errorf "Got error from Fluidkeys server"))
  | Ok key =>
    match key_Armor X key with
    | Err err =>
      log_Printf (Error err) ;;;
      ret (Some (Errorf "failed to ASCII armor key"))
    | Ok armoredKey =>
      let* err := ImportArmoredKey armoredKey in
      match err with
      | Some err =>
        log_Printf (Error err) ;;;
        ret (Some (Errorf "Failed to import key into gpg"))
      | None => ret None
      end
    end
  end.

Definition discoverPublicKey (fingerprint : Fingerprint) : M (result PgpKey) :=
  let* r := gpg_loadPgpKey fingerprint in
  match r with
  | Ok key => ret (Ok key)
  | Err err =>
    log_Printf ("failed to find key " +:+ fingerprint +:+ " in GnuPG: " +:+ Error err) ;;;
    let* r := client_GetPublicKeyByFingerprint fingerprint in
    match r with
    | Ok key => ret (Ok key)
    | Err err =>
      log_Printf ("failed to find key " +:+ fingerprint +:+ " in API: " +:+ Error err) ;;;
      ret (Err (Errorf ("failed multiple attempts to find get public key for "
                        +:+ fingerprint)))
    end
  end.

(** The loop of [fetchAdminPublicKeys] over [t.Admins()], with the keys
    collected so far. *)
Fixpoint fetchAdminPublicKeys_range (admins : list Person) (adminKeys : list PgpKey)
  : M (result (list PgpKey)) :=
  match admins with
  | [] => ret (Ok adminKeys)
  | p :: rest =>
    let* r := discoverPublicKey (PersonFingerprint p) in
    match r with
    | Err err => ret (Err err)
    | Ok key => fetchAdminPublicKeys_range rest (adminKeys ++ [key])
    end
  end.

Definition fetchAdminPublicKeys (t : Team) : M (result (list PgpKey)) :=
  fetchAdminPublicKeys_range (Admins t) [].

Definition verifyBrandNewRoster (t : Team) (roster signature : string)
  : M (option error) :=
  let* r := fetchAdminPublicKeys t in
  match r with
  | Err err => ret (Some err)
  | Ok adminKeys => VerifyRoster roster signature adminKeys
  end.

Definition fetchAndUpdateRoster (t : Team) (unlockedKey : PgpKey) : M (result Team) :=
  let* r := client_GetTeamRoster unlockedKey (TeamUUID t) in
  match r with
  | Err err => ret (Err (Errorf ("error downloading team roster: " +:+ Error err)))
  | Ok (roster, signature) =>
    if decide (fst (Roster t) = roster) then
      log_Printf "no change to roster, nothing to do." ;;;
      ret (Ok t)
    else
      let* r := fetchAdminPublicKeys t in
      match r with
      | Err err =>
        ret (Err (Errorf ("error getting team admin public keys: " +:+ Error err)))
      | Ok adminKeys =>
        let* v := VerifyRoster roster signature adminKeys in
        match v with
        | Some err =>
          ret (Err (Errorf ("couldn't validate signature on updated roster: "
                            +:+ Error err)))
        | None =>
          log_Printf "new roster verified OK" ;;;
          match team_Directory X t with
          | Err err => ret (Err err)
          | Ok teamSubdir =>
            let* s := Save teamSubdir roster signature in
            match s with
            | Some err => ret (Err err)
            | None =>
              match team_Load X roster signature with
              | Err err => ret (Err err)
              | Ok updatedTeam => ret (Ok updatedTeam)
              end
            end
          end
        end
      end
  end.

(** The loop of [fetchTeamKeys]: [err] is assigned afresh for each
    person. *)
Fixpoint fetchTeamKeys_range (people : list Person) (err : option error)
  : M (option error) :=
  match people with
  | [] => ret err
  | person :: rest =>
    let* err := RunWithCheckboxes (Email person)
                  (getAndImportKeyToGpg (PersonFingerprint person)) in
    fetchTeamKeys_range rest err
  end.

Definition fetchTeamKeys (t : Team) : M (option error) :=
  out_Print (Text ("Fetching keys for other members of " +:+ Name t +:+ ":" +:+ nl +:+ nl)) ;;;
  let* err := fetchTeamKeys_range (People t) None in
  out_Print (Text nl) ;;;
  ret err.

Definition formatYouRequestedToJoin (request : RequestToJoinTeam) : string :=
  "You requested to join " +:+ RequestTeamName request +:+ " " +:+
  humanize_RoughDuration X (Sub (time_Now X) (RequestedAt request)) +:+ " ago.".

(** The body of the loop of [processRequestsToJoinTeam] for one request.
    [err] is the variable declared by the call to
    [user.RequestsToJoinTeams] at the top of the function: the loop body
    reads it in the expiry branch, before the body declares an [err] of
    its own. [returnError] is the named result as it stands when the
    iteration starts; the value returned is the named result when the
    iteration ends. The code reads the clock at the expiry test of each
    iteration and once more for the text of a message; [time_Now X]
    stands for the reading at the expiry test of the iteration at hand,
    and what is proved about an iteration leaves the text of its message
    open. *)
Definition processRequest (err returnError : option error)
  (request : RequestToJoinTeam) : M (option error) :=
  if Sub (time_Now X) (RequestedAt request) >? (7 * 24) * Hour then
    out_Print (FormatWarning
      ("Your request to join " +:+ RequestTeamName request +:+ " has expired")
      [ formatYouRequestedToJoin request +:+ " The admin hasn't approved the ";
        "request, so it has expired.";
        "";
        "You can request to join the team again by runnning ";
        colour_Cmd X ("fk team join " +:+ RequestTeamUUID request) ]
      None) ;;;
    DeleteRequestToJoinTeam (RequestTeamUUID request) (RequestFingerprint request) ;;;
    ret err
  else
    let* r := loadPrivateKeyFromFingerprint (RequestFingerprint request) in
    match r with
    | Err err =>
      out_Print (FormatFailure "Failed to load requesting key" [] (Some err)) ;;;
      ret (Some err)
    | Ok unlockedKey =>
      let* r := client_GetTeamRoster unlockedKey (RequestTeamUUID request) in
      match r with
      | Err err =>
        if decide (err = ErrForbidden) then
          out_Print (FormatInfo
            ("Your request to join " +:+ RequestTeamName request
             +:+ " hasn't been approved")
            [ formatYouRequestedToJoin request +:+ " The admin hasn't approved this";
              "request yet." ]) ;;;
          ret returnError
        else
          out_Print (FormatFailure "Failed to get team roster" [] (Some err)) ;;;
          ret (Some err)
      | Ok (roster, signature) =>
        match team_Load X roster signature with
        | Err err =>
          out_Print (FormatFailure "Failed to load team" [] (Some err)) ;;;
          ret (Some err)
        | Ok t =>
          let* v := verifyBrandNewRoster t roster signature in
          match v with
          | Some err =>
            out_Print (FormatFailure
              "Failed to verify team roster's cryptographic signature" []
              (Some err)) ;;;
            ret (Some err)
          | None =>
            match team_Directory X t with
            | Err err =>
              out_Print (FormatFailure "Failed to get team subdirectory" []
                           (Some err)) ;;;
              ret (Some err)
            | Ok teamSubdirectory =>
              let* s := Save teamSubdirectory roster signature in
              match s with
              | Some err =>
                out_Print (FormatFailure "Failed to save team roster" []
                             (Some err)) ;;;
                ret (Some err)
              | None =>
                out_Print (FormatSuccess
                  ("Your request to join " +:+ Name t +:+ " has been approved")
                  [ formatYouRequestedToJoin request
                    +:+ " The admin has approved this";
                    "request." ]) ;;;
                let* d := DeleteRequestToJoinTeam (RequestTeamUUID request)
                            (RequestFingerprint request) in
                match d with
                | Some err =>
                  out_Print (FormatFailure "Error deleting request to join team"
                               [] (Some err)) ;;;
                  ret (Some err)
                | None => ret returnError
                end
              end
            end
          end
        end
      end
    end.

Fixpoint processRequests_range (err returnError : option error)
  (requests : list RequestToJoinTeam) : M (option error) :=
  match requests with
  | [] => ret returnError
  | request :: rest =>
    let* returnError := processRequest err returnError request in
    processRequests_range err returnError rest
  end.

Definition processRequestsToJoinTeam : M (option error) :=
  let* r := RequestsToJoinTeams in
  match r with
  | Err err =>
    out_Print (FormatFailure "Failed to get requests to join teams" [] (Some err)) ;;;
    ret (Some err)
  | Ok requestsToJoinTeams =>
    (* past the check above, the function's [err] is nil *)
    processRequests_range None None requestsToJoinTeams
  end.

Definition doUpdateTeam (myTeam : Team) (me : Person) : M (option error) :=
  printHeader (Name myTeam) ;;;
  let* k := loadPrivateKeyFromFingerprint (PersonFingerprint me) in
  let* (myTeam, returnError) :=
    match k with
    | Err err =>
      out_Print (FormatFailure "Failed to unlock key to check for team updates"
        [ "Checking for updates to the team requires an unlocked key";
          "as the team roster is encrypted." ] (Some err)) ;;;
      ret (myTeam, Some err)
    | Ok unlockedKey =>
      let* u := fetchAndUpdateRoster myTeam unlockedKey in
      match u with
      | Err err =>
        out_Print (FormatWarning "Failed to check team for updates" [] (Some err)) ;;;
        ret (myTeam, Some err)
      | Ok updatedTeam => ret (updatedTeam, None)
      end
    end in
  let* f := fetchTeamKeys myTeam in
  match f with
  | Some err =>
    out_Print (FormatWarning "Error fetching team keys" [] (Some err)) ;;;
    ret (Some err)
  | None =>
    out_Print (FormatSuccess successfullyFetchedKeysHeadline
      [ "You have successfully fetched everyone's key in " +:+ Name myTeam +:+ ".";
        "This means that you can now start sending and receiving secrets and";
        "using other GnuPG powered tools together." ]) ;;;
    ret returnError
  end.

(** The loop of [teamFetch] over the memberships. *)
Fixpoint teamFetch_range (myMemberships : list TeamMembership) (sawError : bool)
  : M bool :=
  match myMemberships with
  | [] => ret sawError
  | m :: rest =>
    let* err := doUpdateTeam (MembershipTeam m) (Me m) in
    teamFetch_range rest (if err is Some _ then true else sawError)
  end.

Definition teamFetch : M (outcome exitCode) :=
  let* err := processRequestsToJoinTeam in
  let sawError := if err is Some _ then true else false in
  let* r := Memberships in
  match r with
  | Err err => log_Panic err
  | Ok myMemberships =>
    let* sawError := teamFetch_range myMemberships sawError in
    if sawError then
      out_Print (Text nl) ;;;
      printFailed ("Encountered errors while syncing." +:+ nl) ;;;
      ret (Returned 1)
    else ret (Returned 0)
  end.

End Fetch.

End fk.

(** ** Concrete teams, requests and collaborators

    The team Acme, its admin Alice and its member Bob, and collaborators
    that answer as a small honest deployment would; the variants below
    change one answer each. A signature is the fingerprint of the key
    that made it, so the verifier accepts a roster when that fingerprint
    belongs to one of the candidate keys. *)

Module scenario.
Import team fk.

Definition alice : Person := mkPerson "alice@acme.example" "AAAA" true.
Definition bob : Person := mkPerson "bob@acme.example" "BBBB" false.
Definition alice_demoted : Person := mkPerson "alice@acme.example" "AAAA" false.

Definition acme : Team := mkTeam "u1" "Acme" [alice; bob] "roster v2" "AAAA".
Definition acme_renamed : Team := mkTeam "u1" "Acme2" [alice; bob] "roster v2 renamed" "AAAA".
Definition acme_moved : Team := mkTeam "u2" "Acme2" [alice; bob] "roster v2 moved" "AAAA".
Definition acme_no_admin : Team :=
  mkTeam "u1" "Acme" [alice_demoted; bob] "roster v3 without admins" "AAAA".
(** The roster that [acme] replaced, signed by Alice at the time. *)
Definition acme_superseded : Team := mkTeam "u1" "Acme" [alice] "roster v1" "AAAA".
Definition acme_next : Team := mkTeam "u1" "Acme" [alice; bob] "roster v3" "AAAA".

(** Roster versions of team [u1] that were trusted once and have been
    replaced since. *)
Definition superseded_rosters : list string := ["roster v1"].

Definition day : Z := 24 * Hour.
Definition now : Z := 1000 * day.

Definition signedBy (signature : string) (keys : list PgpKey) : bool :=
  existsb (fun k => String.eqb (KeyFingerprint k) signature) keys.

Definition honest : Collaborators := {|
  api_GetTeamRoster := fun _ _ => Ok ("roster v3", "AAAA");
  api_GetPublicKeyByFingerprint := fun fp => Ok (mkKey fp "public, from the server");
  loadPgpKey := fun fp => Ok (mkKey fp "from the keyring");
  getDecryptedPrivateKeyAndPassword :=
    fun k => Ok (mkKey (KeyFingerprint k) "unlocked", "password");
  team_VerifyRoster :=
    fun _ signature keys =>
      if signedBy signature keys then None
      else Some (Errorf "roster signature is not by a team admin");
  team_Load :=
    fun roster signature => Ok (mkTeam "u1" "Acme" [alice; bob] roster signature);
  team_Directory := fun t => Ok ("teams/" +:+ TeamUUID t);
  Save_error := fun _ _ _ => None;
  RequestsToJoinTeams_error := None;
  DeleteRequestToJoinTeam_error := fun _ _ => None;
  user_Memberships := fun _ => Ok [];
  key_Armor := fun k => Ok ("armored " +:+ KeyFingerprint k);
  gpg_ImportArmoredKey := fun _ => None;
  time_Now := now;
  humanize_RoughDuration := fun _ => "a while";
  colour_Cmd := fun s => s
|}.

Definition with_roster (X : Collaborators) (answer : result (string * string))
  : Collaborators :=
  mkCollaborators (fun _ _ => answer)
    (api_GetPublicKeyByFingerprint X) (loadPgpKey X)
    (getDecryptedPrivateKeyAndPassword X) (team_VerifyRoster X) (team_Load X)
    (team_Directory X) (Save_error X) (RequestsToJoinTeams_error X)
    (DeleteRequestToJoinTeam_error X) (user_Memberships X) (key_Armor X)
    (gpg_ImportArmoredKey X) (time_Now X) (humanize_RoughDuration X) (colour_Cmd X).

Definition with_keys (X : Collaborators) (remote local : Fingerprint -> result PgpKey)
  : Collaborators :=
  mkCollaborators (api_GetTeamRoster X) remote local
    (getDecryptedPrivateKeyAndPassword X) (team_VerifyRoster X) (team_Load X)
    (team_Directory X) (Save_error X) (RequestsToJoinTeams_error X)
    (DeleteRequestToJoinTeam_error X) (user_Memberships X) (key_Armor X)
    (gpg_ImportArmoredKey X) (time_Now X) (humanize_RoughDuration X) (colour_Cmd X).

Definition with_memberships (X : Collaborators) (ms : list TeamMembership)
  : Collaborators :=
  mkCollaborators (api_GetTeamRoster X) (api_GetPublicKeyByFingerprint X)
    (loadPgpKey X) (getDecryptedPrivateKeyAndPassword X) (team_VerifyRoster X)
    (team_Load X) (team_Directory X) (Save_error X) (RequestsToJoinTeams_error X)
    (DeleteRequestToJoinTeam_error X) (fun _ => Ok ms) (key_Armor X)
    (gpg_ImportArmoredKey X) (time_Now X) (humanize_RoughDuration X) (colour_Cmd X).

(** The server hands out a roster signed by Mallory, who is no admin. *)
Definition forged : Collaborators :=
  with_roster honest (Ok ("roster by mallory", "EEEE")).

(** The server's roster is the one already trusted. *)
Definition unchanged : Collaborators :=
  with_roster honest (Ok ("roster v2", "AAAA")).

(** The requester has not been let into the team yet. *)
Definition forbidden : Collaborators := with_roster honest (Err ErrForbidden).

(** Alice's key is neither in the keyring nor on the server. *)
Definition alice_unknown : Collaborators :=
  with_keys honest
    (fun fp => if String.eqb fp "AAAA" then Err ErrPublicKeyNotFound
               else Ok (mkKey fp "public, from the server"))
    (fun fp => if String.eqb fp "AAAA" then Err (Errorf "no such key in GnuPG")
               else Ok (mkKey fp "from the keyring")).

(** Alice's key is missing from the server; Bob's is there. The user is
    a member of Acme, whose roster is unchanged. *)
Definition alice_missing_on_server : Collaborators :=
  with_memberships
    (with_keys unchanged
       (fun fp => if String.eqb fp "AAAA" then Err ErrPublicKeyNotFound
                  else Ok (mkKey fp "public, from the server"))
       (loadPgpKey unchanged))
    [mkMembership acme bob].

(** Bob's key once unlocked. *)
Definition bob_unlocked : PgpKey := mkKey "BBBB" "unlocked".
Definition carol_unlocked : PgpKey := mkKey "CCCC" "unlocked".

Definition trusted : World :=
  mkWorld {[ "teams/u1" := ("roster v2", "AAAA") ]} [].

Definition request_of (age : Z) : RequestToJoinTeam :=
  mkRequest "r1" "u1" "Acme" "CCCC" "carol@acme.example" (now - age).

(** Carol asked to join eight days ago, and two days ago. *)
Definition stale_request : RequestToJoinTeam := request_of (8 * day).
Definition recent_request : RequestToJoinTeam := request_of (2 * day).

Definition waiting (request : RequestToJoinTeam) : World := mkWorld ∅ [request].

End scenario.

(** ** The admin floor in the words of the specification

    The specification gives each rule of the validator an error of its
    own and names the error of the admin floor [NoAdminRemaining]. The
    code has no such name, so the claim is put as a property an error
    value may have: [ValidateUpdate] answers it for every update that
    leaves no admin and is otherwise well-formed, and answers it for no
    update that leaves an admin. With no admin left the signer cannot be
    an admin of the proposed team, so a valid signer is read as an admin
    of the team in force. *)

Module admin_floor.
Import team.




End admin_floor.

(** ** Reading a record of calls *)

Module calls.
Import team fk.

(** The fingerprints the server was asked for, in the order asked. *)
Definition requestedKeys (evs : list Event) : list Fingerprint :=
  omap (fun ev => match ev with
                  | EvGetPublicKeyByFingerprint fp => Some fp
                  | _ => None
                  end) evs.

(** The key imports into GnuPG, in order. *)
Definition importedKeys (evs : list Event) : list string :=
  omap (fun ev => match ev with
                  | EvImportArmoredKey armoredKey => Some armoredKey
                  | _ => None
                  end) evs.

(** The fingerprints looked up in the keyring, in order. *)
Definition lookedUp (evs : list Event) : list Fingerprint :=
  omap (fun ev => match ev with
                  | EvLoadPgpKey fp => Some fp
                  | _ => None
                  end) evs.

Definition isKeyLoad (ev : Event) : bool :=
  match ev with EvLoadPgpKey _ | EvDecryptPrivateKey _ => true | _ => false end.

(** The armored key that importing this person's key hands GnuPG: the
    key the server returns for the fingerprint, armored; none when the
    fetch or the armoring fails. *)
Definition armoredKeyOf (X : Collaborators) (person : Person) : option string :=
  match api_GetPublicKeyByFingerprint X (PersonFingerprint person) with
  | Ok key =>
    match key_Armor X key with
    | Ok armoredKey => Some armoredKey
    | Err _ => None
    end
  | Err _ => None
  end.

(** Calls other than a roster fetch, a signature verification, a save
    and the deletion of a request. An import of a key into GnuPG is such
    a call, and it changes the keyring. *)
Definition leavesRostersAlone (ev : Event) : bool :=
  match ev with
  | EvSave _ _ _ | EvDeleteRequestToJoinTeam _ _ | EvGetTeamRoster _ _
  | EvVerifyRoster _ _ _ => false
  | _ => true
  end.

End calls.

(** ** More concrete collaborators *)

Module scenario_more.
Import team fk scenario.

Definition carol : Person := mkPerson "carol@acme.example" "CCCC" false.

(** The user's key cannot be unlocked: the password prompt fails. *)
Definition locked : Collaborators :=
  mkCollaborators (api_GetTeamRoster honest) (api_GetPublicKeyByFingerprint honest)
    (loadPgpKey honest) (fun _ => Err (Errorf "bad password"))
    (team_VerifyRoster honest) (team_Load honest) (team_Directory honest)
    (Save_error honest) (RequestsToJoinTeams_error honest)
    (DeleteRequestToJoinTeam_error honest) (fun _ => Ok [mkMembership acme bob])
    (key_Armor honest) (gpg_ImportArmoredKey honest) (time_Now honest)
    (humanize_RoughDuration honest) (colour_Cmd honest).


(** The list of memberships cannot be read. *)
Definition unreadable : Collaborators :=
  mkCollaborators (api_GetTeamRoster honest) (api_GetPublicKeyByFingerprint honest)
    (loadPgpKey honest) (getDecryptedPrivateKeyAndPassword honest)
    (team_VerifyRoster honest) (team_Load honest) (team_Directory honest)
    (Save_error honest) (RequestsToJoinTeams_error honest)
    (DeleteRequestToJoinTeam_error honest)
    (fun _ => Err (Errorf "cannot read the teams directory"))
    (key_Armor honest) (gpg_ImportArmoredKey honest) (time_Now honest)
    (humanize_RoughDuration honest) (colour_Cmd honest).

(** The server is down when the roster is asked for. *)
Definition offline : Collaborators :=
  with_roster honest (Err (Errorf "connection refused")).

(** Carol has been let in: the server hands her the roster that lists
    her, signed by Alice. *)
Definition approved : Collaborators :=
  mkCollaborators (fun _ _ => Ok ("roster v3 with carol", "AAAA"))
    (api_GetPublicKeyByFingerprint honest)
    (loadPgpKey honest) (getDecryptedPrivateKeyAndPassword honest)
    (team_VerifyRoster honest)
    (fun roster signature => Ok (mkTeam "u1" "Acme" [alice; bob; carol] roster signature))
    (team_Directory honest) (Save_error honest) (RequestsToJoinTeams_error honest)
    (DeleteRequestToJoinTeam_error honest) (user_Memberships honest)
    (key_Armor honest) (gpg_ImportArmoredKey honest) (time_Now honest)
    (humanize_RoughDuration honest) (colour_Cmd honest).

(** A team run by three admins, and a world in which the second one's
    key is nowhere to be found. *)
Definition bob_admin : Person := mkPerson "bob@acme.example" "BBBB" true.
Definition carol_admin : Person := mkPerson "carol@acme.example" "CCCC" true.
Definition trio : Team :=
  mkTeam "u3" "Trio" [alice; bob_admin; carol_admin] "roster of three" "AAAA".

Definition bob_unknown : Collaborators :=
  with_keys honest
    (fun fp => if String.eqb fp "BBBB" then Err ErrPublicKeyNotFound
               else Ok (mkKey fp "public, from the server"))
    (fun fp => if String.eqb fp "BBBB" then Err (Errorf "no such key in GnuPG")
               else Ok (mkKey fp "from the keyring")).

(** Dave's request for another team, stored next to Carol's. *)
Definition other_request : RequestToJoinTeam :=
  mkRequest "r2" "u9" "Umbrella" "DDDD" "dave@umbrella.example" (now - 1 * day).

End scenario_more.

(** ** Package [apiclient]: talking to the server

    The HTTP exchange itself, URL resolution, JSON coding and key
    parsing are library calls outside this development and are
    parameters. Their errors are foreign error values, never one of the
    three sentinels of this package, so they carry a message only. A
    response that comes back from [http.Client.Do] always has a body; what
    reading it gives is the text, or the error of the read. *)

Module apiclient.
Import team fk.

(** A call returns, or panics at run time. *)
Inductive go (A : Type) : Type :=
| Done (a : A)
| Panic (msg : string).
Arguments Done {A} a.
Arguments Panic {A} msg.

(** A response of the HTTP client. [ContentType] is what
    [Header.Get] answers for that header; [Body] is the text read from
    the body or the message of the failed read. The client hands back
    no response without a body. *)
Record Response : Type := mkResponse {
  StatusCode : Z;
  ContentType : string;
  Body : string + string
}.

Record Request : Type := mkHTTPRequest {
  Method : string;
  URL : string;
  RequestBody : option string;
  Header : gmap string (list string)
}.

Record Client : Type := mkClient {
  BaseURL : string;
  BaseURLPath : string;
  UserAgent : string
}.

(** The request structs that are sent as JSON. *)
Inductive Payload : Type :=
| RequestToJoinTeamRequest (teamEmail : string).

(** One entry of the JSON list of requests to join. *)
Record JSONRequestToJoin : Type := mkJSONRequestToJoin {
  jsonUUID : string;
  jsonFingerprint : string;
  jsonEmail : string
}.

(** A decoder for a pointer to a struct answers [None] when the JSON
    text is [null], which leaves the pointer nil. *)
Record Transport : Type := mkTransport {
  url_Parse : string -> string -> string + string;
  json_Encode : Payload -> string + string;
  http_NewRequest_error : string -> string -> option string;
  canonicalHeaderKey : string -> string;
  strconv_Quote : string -> string;
  client_Do : Request -> Response + string;
  decode_ErrorResponse : string -> string + string;
  decode_GetTeamRosterResponse : string -> option (string * string) + string;
  decode_ListRequestsToJoinTeamResponse :
    string -> option (list JSONRequestToJoin) + string;
  Hex : Fingerprint -> string;
  LoadFromArmoredPublicKey : string -> PgpKey + string;
  uuid_FromString : string -> UUID + string;
  fpr_Parse : string -> Fingerprint + string
}.

Definition StatusUnauthorized : Z := 401.
Definition StatusForbidden : Z := 403.
Definition StatusNotFound : Z := 404.
Definition StatusConflict : Z := 409.

(** [time.Time{}], in nanoseconds since the Unix epoch: the first
    instant of year 1. *)
Definition zeroTime : Z := - 62135596800 * 1000000000.

(** Go's integer division truncates towards zero. *)
Definition isSuccess (httpStatusCode : Z) : bool :=
  Z.quot httpStatusCode 100 =? 2.

Definition isJSON (response : Response) : bool :=
  String.eqb (ContentType response) "application/json".

Definition HasSuffix (s suffix : string) : bool :=
  (String.length suffix <=? String.length s)%nat &&
  String.eqb
    (substring (String.length s - String.length suffix) (String.length suffix) s)
    suffix.

Section Calls.

Context (T : Transport) (c : Client).

Definition authorization (fingerprint : Fingerprint) : string :=
  "tmpfingerprint: " +:+ ("OPENPGP4FPR:" +:+ Hex T fingerprint).

Definition Header_Set (request : Request) (key value : string) : Request :=
  mkHTTPRequest (Method request) (URL request) (RequestBody request)
    (<[canonicalHeaderKey T key := [value]]> (Header request)).

Definition Header_Add (request : Request) (key value : string) : Request :=
  mkHTTPRequest (Method request) (URL request) (RequestBody request)
    (<[canonicalHeaderKey T key :=
         default [] (Header request !! canonicalHeaderKey T key) ++ [value]]>
       (Header request)).

Definition newRequest (method relativePath : string) (requestData : option Payload)
  : result Request :=
  if negb (HasSuffix (BaseURLPath c) "/") then
    Err (Errorf ("BaseURL must have a trailing slash, but "
                 +:+ strconv_Quote T (BaseURL c) +:+ " does not"))
  else
    match url_Parse T (BaseURL c) relativePath with
    | inr msg => Err (Errorf msg)
    | inl url =>
      let encoded :=
        match requestData with
        | Some data =>
          match json_Encode T data with
          | inl text => inl (Some text)
          | inr msg => inr msg
          end
        | None => inl None
        end in
      match encoded with
      | inr msg => Err (Errorf msg)
      | inl buf =>
        match http_NewRequest_error T method url with
        | Some msg => Err (Errorf msg)
        | None =>
          let request := mkHTTPRequest method url buf ∅ in
          let request :=
            if requestData is Some _
            then Header_Set request "Content-Type" "application/json"
            else request in
          let request :=
            if negb (String.eqb (UserAgent c) "")
            then Header_Set request "User-Agent" (UserAgent c)
            else request in
          Ok request
        end
      end
    end.

Definition decodeBody {A : Type} (decode : string -> A + string)
  (response : Response) : A + string :=
  match Body response with
  | inl text => decode text
  | inr msg => inr msg
  end.

Definition decodeErrorResponse (response : Response) : string :=
  match decodeBody (decode_ErrorResponse T) response with
  | inl detail => detail
  | inr _ => ""
  end.

Definition makeErrorForAPIResponse (response : Response) : error :=
  if StatusCode response =? StatusUnauthorized then
    Errorf "Couldn't sign in to API"
  else
    let apiErrorResponseDetail := decodeErrorResponse response in
    if negb (String.eqb apiErrorResponseDetail "") then
      Errorf ("API error: " +:+ pretty (StatusCode response) +:+ " "
              +:+ apiErrorResponseDetail)
    else Errorf ("API error: " +:+ pretty (StatusCode response)).

(** [do]: [responseData] is the decoder of the value pointed to, if a
    pointer is given, and [data] that value before the call; the third
    component is the value after it. After a decoding that failed the
    callers return without reading the value, and it is given as
    [data]. *)
Definition do {A : Type} (req : Request) (responseData : option (string -> A + string))
  (data : A) : option Response * option error * A :=
  match client_Do T req with
  | inr msg => (None, Some (Errorf msg), data)
  | inl response =>
    if isSuccess (StatusCode response) then
      match responseData with
      | Some decode =>
        if isJSON response then
          match decodeBody decode response with
          | inl decoded => (Some response, None, decoded)
          | inr msg => (None, Some (Errorf msg), data)
          end
        else (Some response, None, data)
      | None => (Some response, None, data)
      end
    else (Some response, Some (makeErrorForAPIResponse response), data)
  end.

Definition GetPublicKeyByFingerprint (fingerprint : Fingerprint)
  : go (result PgpKey) :=
  let path := "key/" +:+ Hex T fingerprint +:+ ".asc" in
  match newRequest "GET" path None with
  | Err err => Done (Err err)
  | Ok request =>
    match client_Do T request with
    | inr msg => Done (Err (Errorf msg))
    | inl response =>
      if negb (isSuccess (StatusCode response)) then
        if StatusCode response =? StatusNotFound
        then Done (Err ErrPublicKeyNotFound)
        else Done (Err (makeErrorForAPIResponse response))
      else
        match Body response with
        | inr msg => Done (Err (Errorf ("error reading response body: " +:+ msg)))
        | inl bodyData =>
          if (String.length bodyData =? 0)%nat then
            Done (Err (Errorf ("got http " +:+ pretty (StatusCode response)
                               +:+ ", but with empty body")))
          else
            match LoadFromArmoredPublicKey T bodyData with
            | inr msg => Done (Err (Errorf ("failed to load armored key: " +:+ msg)))
            | inl retrievedKey =>
              if decide (KeyFingerprint retrievedKey <> fingerprint) then
                Done (Err (Errorf ("requested key " +:+ fingerprint
                                   +:+ " but got back "
                                   +:+ KeyFingerprint retrievedKey)))
              else Done (Ok retrievedKey)
            end
        end
    end
  end.

Definition GetTeamRoster (teamUUID : UUID) (me : Fingerprint)
  : go (result (string * string)) :=
  let path := "team/" +:+ teamUUID +:+ "/roster" in
  match newRequest "GET" path None with
  | Err err => Done (Err err)
  | Ok request =>
    let request := Header_Add request "authorization" (authorization me) in
    let '(response, err, decodedJSON) :=
      do request (Some (decode_GetTeamRosterResponse T)) (Some ("", "")) in
    match err with
    | Some err =>
      match response with
      | None => Done (Err err)
      | Some response =>
        if StatusCode response =? StatusNotFound then Done (Err ErrTeamNotFound)
        else if StatusCode response =? StatusForbidden then Done (Err ErrForbidden)
        else Done (Err err)
      end
    | None =>
      match decodedJSON with
      | Some (teamRoster, armoredDetachedSignature) =>
        Done (Ok (teamRoster, armoredDetachedSignature))
      | None => Panic "nil pointer dereference"
      end
    end
  end.

Definition RequestToJoinTeam (teamUUID : UUID) (fingerprint : Fingerprint)
  (email : string) : go (option error) :=
  let path := "team/" +:+ teamUUID +:+ "/requests-to-join" in
  match newRequest "POST" path (Some (RequestToJoinTeamRequest email)) with
  | Err err => Done (Some err)
  | Ok request =>
    let request := Header_Add request "authorization" (authorization fingerprint) in
    let '(response, err, _) := do (A := unit) request None tt in
    match err with
    | Some err =>
      match response with
      | None => Panic "nil pointer dereference"
      | Some response =>
        if StatusCode response =? StatusConflict
        then Done (Some (Errorf ("already got request to join team for " +:+ email)))
        else Done (Some err)
      end
    | None => Done None
    end
  end.

(** The loop of [ListRequestsToJoinTeam] over the decoded entries. *)
Fixpoint ListRequestsToJoinTeam_range (teamUUID : UUID)
  (entries : list JSONRequestToJoin) (requestsToJoinTeam : list team.RequestToJoinTeam)
  : list team.RequestToJoinTeam :=
  match entries with
  | [] => requestsToJoinTeam
  | jsonRequestToJoin :: rest =>
    match uuid_FromString T (jsonUUID jsonRequestToJoin) with
    | inr _ => ListRequestsToJoinTeam_range teamUUID rest requestsToJoinTeam
    | inl requestUUID =>
      match fpr_Parse T (jsonFingerprint jsonRequestToJoin) with
      | inr _ => ListRequestsToJoinTeam_range teamUUID rest requestsToJoinTeam
      | inl requestFingerprint =>
        ListRequestsToJoinTeam_range teamUUID rest
          (requestsToJoinTeam ++
           [mkRequest requestUUID teamUUID "" requestFingerprint
              (jsonEmail jsonRequestToJoin) zeroTime])
      end
    end
  end.

Definition ListRequestsToJoinTeam (teamUUID : UUID) (fingerprint : Fingerprint)
  : go (result (list team.RequestToJoinTeam)) :=
  let path := "team/" +:+ teamUUID +:+ "/requests-to-join" in
  match newRequest "GET" path None with
  | Err err => Done (Err err)
  | Ok request =>
    let request := Header_Add request "authorization" (authorization fingerprint) in
    let '(_, err, decodedJSON) :=
      do request (Some (decode_ListRequestsToJoinTeamResponse T)) (Some []) in
    match err with
    | Some err => Done (Err err)
    | None =>
      match decodedJSON with
      | Some requests => Done (Ok (ListRequestsToJoinTeam_range teamUUID requests []))
      | None => Panic "nil pointer dereference"
      end
    end
  end.

End Calls.

End apiclient.

(** ** Package [fk]: editing a team (teamedit.go) *)

Module teamedit.
Import team fk.

(** The calls [fk team edit] makes: terminal output, the temporary file,
    the editor process, and the upload. *)
Inductive EditEvent : Type :=
| EdPrint (o : Output)
| EdTempFile (pattern : string)
| EdWrite (name content : string)
| EdClose (name : string)
| EdRemove (name : string)
| EdLookPath (editor : string)
| EdStart (path filename : string)
| EdWait (path filename : string)
| EdReadFile (name : string)
| EdSignAndUpload (t : Team) (fingerprint : Fingerprint).

Definition isUpload (ev : EditEvent) : bool :=
  match ev with EdSignAndUpload _ _ => true | _ => false end.

Definition isRemove (ev : EditEvent) : bool :=
  match ev with EdRemove _ => true | _ => false end.

Definition isEditorCall (ev : EditEvent) : bool :=
  match ev with EdLookPath _ | EdStart _ _ | EdWait _ _ => true | _ => false end.

(** What the collaborators of [fk team edit] answer. [filterByAdmin],
    [promptAndSignAndUploadRoster] and [errUserDeclinedToSign] belong to
    other files of the package and are parameters as well. *)
Record EditCollaborators : Type := mkEditCollaborators {
  edit_Memberships : result (list TeamMembership);
  filterByAdmin : list TeamMembership -> list TeamMembership;
  ioutil_TempFile : string -> result string;
  tmpfile_Write : string -> string -> option error;
  tmpfile_Close : string -> option error;
  exec_LookPath : string -> result string;
  cmd_Start : string -> string -> option error;
  cmd_Wait : string -> string -> option error;
  ioutil_ReadFile : string -> result string;
  edit_team_Load : string -> string -> result Team;
  promptAndSignAndUploadRoster : Team -> Fingerprint -> option error;
  errUserDeclinedToSign : error
}.

(** A value together with the calls made to get it. *)
Definition E (A : Type) : Type := A * list EditEvent.

Definition pure {A : Type} (a : A) : E A := (a, []).

Definition andThen {A B : Type} (m : E A) (k : A -> E B) : E B :=
  let '(a, evs1) := m in
  let '(b, evs2) := k a in
  (b, evs1 ++ evs2).

Definition call (ev : EditEvent) : E unit := (tt, [ev]).

Notation "'let+' x ':=' m 'in' k" := (andThen m (fun x => k))
  (at level 10, x pattern, m at level 100, k at level 200).
Notation "m ';+' k" := (andThen m (fun _ => k))
  (at level 100, k at level 200, right associativity).

Section Edit.

Context (C : EditCollaborators).

Definition writeRosterToTempfile (roster : string) : E (result string) :=
  call (EdTempFile "roster.toml_") ;+
  match ioutil_TempFile C "roster.toml_" with
  | Err err => pure (Err (Errorf ("error creating temp file: " +:+ Error err)))
  | Ok tmpfile =>
    call (EdWrite tmpfile roster) ;+
    match tmpfile_Write C tmpfile roster with
    | Some err =>
      pure (Err (Errorf ("error writing " +:+ tmpfile +:+ ": " +:+ Error err)))
    | None =>
      call (EdClose tmpfile) ;+
      match tmpfile_Close C tmpfile with
      | Some err =>
        pure (Err (Errorf ("error closing " +:+ tmpfile +:+ ": " +:+ Error err)))
      | None => pure (Ok tmpfile)
      end
    end
  end.

Definition runEditor (filename : string) : E (option error) :=
  let editor := "vim" in
  call (EdLookPath editor) ;+
  match exec_LookPath C editor with
  | Err err =>
    pure (Some (Errorf ("failed to find editor `" +:+ editor +:+ "`: " +:+ Error err)))
  | Ok editorAbs =>
    call (EdPrint (Text ("Running " +:+ editorAbs +:+ " " +:+ filename +:+ nl))) ;+
    call (EdStart editorAbs filename) ;+
    match cmd_Start C editorAbs filename with
    | Some err => pure (Some (Errorf ("failed to start editor: " +:+ Error err)))
    | None =>
      call (EdWait editorAbs filename) ;+
      match cmd_Wait C editorAbs filename with
      | Some err => pure (Some (Errorf ("failed to start editor: " +:+ Error err)))
      | None => pure None
      end
    end
  end.

(** What [doEditTeam] does once the temporary file is written; the
    deferred [os.Remove] runs after it. The call site hands
    [ValidateUpdate] the two teams; the signer it is declared with is
    [me]. *)
Definition editWrittenRoster (myTeam : Team) (me : Person) (tmpfile : string)
  : E exitCode :=
  let+ err := runEditor tmpfile in
  match err with
  | Some err =>
    call (EdPrint (FormatFailure "failed to open editor for text file" []
                     (Some err))) ;+
    pure 1
  | None =>
    call (EdReadFile tmpfile) ;+
    match ioutil_ReadFile C tmpfile with
    | Err err =>
      call (EdPrint (FormatFailure "Error reading temp file" [] (Some err))) ;+
      pure 1
    | Ok newRoster =>
      match edit_team_Load C newRoster "" with
      | Err err =>
        call (EdPrint (FormatFailure "Problem with new team roster" []
                         (Some err))) ;+
        pure 1
      | Ok updatedTeam =>
        match ValidateUpdate myTeam updatedTeam me with
        | Some err =>
          call (EdPrint (FormatFailure "Problem with new team roster" []
                           (Some err))) ;+
          pure 1
        | None =>
          call (EdSignAndUpload updatedTeam (PersonFingerprint me)) ;+
          match promptAndSignAndUploadRoster C updatedTeam (PersonFingerprint me) with
          | Some err =>
            if decide (err <> errUserDeclinedToSign C) then
              call (EdPrint (FormatFailure "Failed to sign and upload roster" []
                               (Some err))) ;+
              pure 1
            else pure 1
          | None => pure 0
          end
        end
      end
    end
  end.

Definition doEditTeam (myTeam : Team) (me : Person) : E exitCode :=
  call (EdPrint (Header ("Edit team " +:+ Name myTeam))) ;+
  let existingRoster := fst (Roster myTeam) in
  let+ r := writeRosterToTempfile existingRoster in
  match r with
  | Err err =>
    call (EdPrint (FormatFailure "Error writing team roster to temporary file" []
                     (Some err))) ;+
    pure 1
  | Ok tmpfile =>
    let+ code := editWrittenRoster myTeam me tmpfile in
    call (EdRemove tmpfile) ;+
    pure code
  end.

Definition teamEdit : E exitCode :=
  match edit_Memberships C with
  | Err err =>
    call (EdPrint (FormatFailure "Failed to list teams" [] (Some err))) ;+
    pure 1
  | Ok allMemberships =>
    match filterByAdmin C allMemberships with
    | [] =>
      call (EdPrint (FormatFailure "You aren't an admin of any teams" [] None)) ;+
      pure 1
    | [adminMembership] =>
      doEditTeam (MembershipTeam adminMembership) (Me adminMembership)
    | _ =>
      call (EdPrint (FormatFailure "Choosing from multiple teams not implemented"
                       [] None)) ;+
      pure 1
    end
  end.

End Edit.

End teamedit.

(** ** A session of [fk team edit] *)

Module scenario_edit.
Import team fk teamedit scenario.

(** Alice edits Acme: the editor runs and she renames the team. *)
Definition editing : EditCollaborators := {|
  edit_Memberships := Ok [mkMembership acme alice];
  filterByAdmin := List.filter (fun m => IsAdmin (Me m));
  ioutil_TempFile := fun pattern => Ok ("/tmp/" +:+ pattern +:+ "123");
  tmpfile_Write := fun _ _ => None;
  tmpfile_Close := fun _ => None;
  exec_LookPath := fun editor => Ok ("/usr/bin/" +:+ editor);
  cmd_Start := fun _ _ => None;
  cmd_Wait := fun _ _ => None;
  ioutil_ReadFile := fun _ => Ok "roster v3";
  edit_team_Load := fun roster signature => Ok (mkTeam "u1" "Acme" [alice; bob] roster signature);
  promptAndSignAndUploadRoster := fun _ _ => None;
  errUserDeclinedToSign := Errorf "user declined to sign"
|}.

(** The disk is full: the temporary file is created but cannot be
    written. *)
Definition disk_full : EditCollaborators :=
  mkEditCollaborators (edit_Memberships editing) (filterByAdmin editing)
    (ioutil_TempFile editing) (fun _ _ => Some (Errorf "no space left on device"))
    (tmpfile_Close editing) (exec_LookPath editing) (cmd_Start editing)
    (cmd_Wait editing) (ioutil_ReadFile editing) (edit_team_Load editing)
    (promptAndSignAndUploadRoster editing) (errUserDeclinedToSign editing).

End scenario_edit.

(** ** A server to talk to *)

Module scenario_api.
Import team fk.

(** A transport whose exchange is [answer] and whose library calls
    behave plainly: URLs are joined, JSON texts stand for themselves, a
    key's armored text is its fingerprint, and identifiers that start
    with a question mark do not parse. *)
Definition parse (text : string) : string + string :=
  if String.prefix "?" text then inr ("cannot parse " +:+ text) else inl text.

Definition transport (answer : apiclient.Request -> apiclient.Response + string)
  : apiclient.Transport := {|
  apiclient.url_Parse := fun base relativePath => inl (base +:+ relativePath);
  apiclient.json_Encode := fun _ => inl "{}";
  apiclient.http_NewRequest_error := fun _ _ => None;
  apiclient.canonicalHeaderKey := fun key => key;
  apiclient.strconv_Quote := fun text => text;
  apiclient.client_Do := answer;
  apiclient.decode_ErrorResponse := fun text => inl text;
  apiclient.decode_GetTeamRosterResponse := fun text => inl (Some (text, "AAAA"));
  apiclient.decode_ListRequestsToJoinTeamResponse :=
    fun _ => inl (Some [apiclient.mkJSONRequestToJoin "r1" "CCCC" "carol@acme.example";
                        apiclient.mkJSONRequestToJoin "?" "DDDD" "dave@umbrella.example";
                        apiclient.mkJSONRequestToJoin "r3" "EEEE" "erin@acme.example"]);
  apiclient.Hex := fun fingerprint => fingerprint;
  apiclient.LoadFromArmoredPublicKey := fun text => inl (mkKey text "public");
  apiclient.uuid_FromString := parse;
  apiclient.fpr_Parse := parse
|}.

Definition client : apiclient.Client :=
  apiclient.mkClient "https://api.fluidkeys.com/v1/" "/v1/" "fluidkeys-1.0".


Definition answers (code : Z) (text : string) (_ : apiclient.Request)
  : apiclient.Response + string :=
  inl (apiclient.mkResponse code "application/json" (inl text)).

Definition unreachable (_ : apiclient.Request) : apiclient.Response + string :=
  inr "dial tcp: connection refused".

End scenario_api.

(** * Properties *)

Import team fk.

(** ** The update validator *)

Section ValidateUpdate_facts.

Implicit Types (before after : Team) (me : Person).

Lemma validateTeamUUID_None before after :
  validateTeamUUID before after = None <-> TeamUUID before = TeamUUID after.
Proof.
  unfold validateTeamUUID.
  destruct (decide (TeamUUID before <> TeamUUID after)) as [Hne | Heq].
  - split; [discriminate | contradiction].
  - split; [intros _ | reflexivity].
    destruct (decide (TeamUUID before = TeamUUID after)); [assumption | contradiction].
Qed.

Lemma validateTeamNameCantChange_None before after :
  validateTeamNameCantChange before after = None <-> Name before = Name after.
Proof.
  unfold validateTeamNameCantChange.
  destruct (decide (Name before <> Name after)) as [Hne | Heq].
  - split; [discriminate | contradiction].
  - split; [intros _ | reflexivity].
    destruct (decide (Name before = Name after)); [assumption | contradiction].
Qed.

(** The error of [ValidateUpdate], case by case. *)
Lemma ValidateUpdate_cases before after me :
  ValidateUpdate before after me =
    Some (if decide (TeamUUID before = TeamUUID after)
          then if decide (Name before = Name after)
               then Errorf "not implemented"
               else Errorf "can't change team name"
          else Errorf "can't change team UUID").
Proof.
  unfold ValidateUpdate, validateTeamUUID, validateTeamNameCantChange,
    validateIAmAdmin.
  repeat case_decide; congruence.
Qed.

(** Neither the people of the proposed team nor its roster text reach
    the result. *)
Lemma ValidateUpdate_reads_uuid_and_name before after after' me me' :
  TeamUUID after = TeamUUID after' -> Name after = Name after' ->
  ValidateUpdate before after me = ValidateUpdate before after' me'.
Proof.
  intros Hu Hn. rewrite !ValidateUpdate_cases, Hu, Hn. reflexivity.
Qed.

(** C4: [ValidateUpdate] returns an error for every [before], [after] and
    [me]: the signer check [validateIAmAdmin] always answers "not
    implemented", so an update whose UUID and name are unchanged is
    rejected with that error, and no update passes. *)
Theorem ValidateUpdate_never_passes before after me :
  validateIAmAdmin before after me = Some (Errorf "not implemented") /\
  ValidateUpdate before after me <> None /\
  (validateTeamUUID before after = None ->
   validateTeamNameCantChange before after = None ->
   ValidateUpdate before after me = Some (Errorf "not implemented")).
Proof.
  split; [reflexivity |]. split.
  - rewrite ValidateUpdate_cases. discriminate.
  - intros Hu Hn. unfold ValidateUpdate. rewrite Hu, Hn. reflexivity.
Qed.

(** C5: when the UUID or the name of [after] differs from that of
    [before], [ValidateUpdate] rejects the update. A changed UUID gives
    the UUID error, also when the name changed too; an unchanged UUID
    with a changed name gives the name error. The two errors differ from
    each other and from the error of the later signer check, and the
    result holds exactly one error. *)
Theorem ValidateUpdate_immutable_fields before after me :
  TeamUUID after <> TeamUUID before \/ Name after <> Name before ->
  (TeamUUID after <> TeamUUID before ->
   ValidateUpdate before after me = Some (Errorf "can't change team UUID")) /\
  (TeamUUID after = TeamUUID before -> Name after <> Name before ->
   ValidateUpdate before after me = Some (Errorf "can't change team name")) /\
  (exists err,
     ValidateUpdate before after me = Some err /\
     (err = Errorf "can't change team UUID" \/ err = Errorf "can't change team name") /\
     forall err', ValidateUpdate before after me = Some err' -> err' = err) /\
  Errorf "can't change team UUID" <> Errorf "can't change team name" /\
  validateIAmAdmin before after me <> Some (Errorf "can't change team UUID") /\
  validateIAmAdmin before after me <> Some (Errorf "can't change team name").
Proof.
  intros Hchanged. rewrite ValidateUpdate_cases.
  repeat split; try discriminate.
  - intros Hu. case_decide; [congruence | reflexivity].
  - intros Hu Hn. repeat case_decide; congruence.
  - repeat case_decide.
    + destruct Hchanged; congruence.
    + eexists. split; [reflexivity |]. split; [right; reflexivity | congruence].
    + eexists. split; [reflexivity |]. split; [left; reflexivity | congruence].
Qed.

(** The scenario of the specification: renaming Acme to Acme2. *)
Lemma ValidateUpdate_immutable_fields_witness :
  (TeamUUID scenario.acme_renamed <> TeamUUID scenario.acme \/
   Name scenario.acme_renamed <> Name scenario.acme) /\
  ValidateUpdate scenario.acme scenario.acme_renamed scenario.alice
    = Some (Errorf "can't change team name") /\
  ValidateUpdate scenario.acme scenario.acme_moved scenario.alice
    = Some (Errorf "can't change team UUID").
Proof.
  split; [right; discriminate |]. split.
  - apply (ValidateUpdate_immutable_fields scenario.acme scenario.acme_renamed
             scenario.alice); [right; discriminate | reflexivity | discriminate].
  - apply (ValidateUpdate_immutable_fields scenario.acme scenario.acme_moved
             scenario.alice); [left; discriminate | discriminate].
Defined.




(** C10: proposing again the roster that Acme's current roster replaced
    is turned down by the signer stub with "not implemented", the very
    error a fresh roster receives: no check compares [after] with earlier
    roster versions. *)
Theorem ValidateUpdate_no_replay_check :
  In (roster scenario.acme_superseded) scenario.superseded_rosters /\
  roster scenario.acme_superseded <> roster scenario.acme /\
  ValidateUpdate scenario.acme scenario.acme_superseded scenario.alice
    = Some (Errorf "not implemented") /\
  ~ In (roster scenario.acme_next) scenario.superseded_rosters /\
  ValidateUpdate scenario.acme scenario.acme_next scenario.alice
    = ValidateUpdate scenario.acme scenario.acme_superseded scenario.alice.
Proof.
  repeat split; try (left; reflexivity); try discriminate.
  intros [H | []]. discriminate H.
Qed.

End ValidateUpdate_facts.

(** ** Running a computation *)

Section Monad_facts.

Context {A B : Type}.
Implicit Types (m : M A) (k : A -> M B) (w : World).

Lemma returned_bind m k w :
  returned (bind m k w) = returned (k (returned (m w)) (final (m w))).
Proof.
  unfold bind, returned, final.
  destruct (m w) as [[a w1] evs1]; simpl.
  destruct (k a w1) as [[b w2] evs2]; reflexivity.
Qed.

Lemma final_bind m k w :
  final (bind m k w) = final (k (returned (m w)) (final (m w))).
Proof.
  unfold bind, returned, final.
  destruct (m w) as [[a w1] evs1]; simpl.
  destruct (k a w1) as [[b w2] evs2]; reflexivity.
Qed.

Lemma events_bind m k w :
  events (bind m k w) =
    events (m w) ++ events (k (returned (m w)) (final (m w))).
Proof.
  unfold bind, returned, final, events.
  destruct (m w) as [[a w1] evs1]; simpl.
  destruct (k a w1) as [[b w2] evs2]; reflexivity.
Qed.

End Monad_facts.

Lemma and_snoc4 (P Q R S T : Prop) : P /\ Q /\ R /\ S -> T -> P /\ Q /\ R /\ S /\ T.
Proof. tauto. Qed.

(** [Time.Sub] saturates far above seven days, so the expiry test
    compares the true age of the request. *)
Lemma Sub_gt_week now requestedAt :
  (Sub now requestedAt >? (7 * 24) * Hour) = true <->
  now - requestedAt > (7 * 24) * Hour.
Proof.
  unfold Sub, minDuration, maxDuration, Hour.
  remember (now - requestedAt) as d.
  destruct (d <? - 2 ^ 63) eqn:Hlo; [| destruct (2 ^ 63 - 1 <? d) eqn:Hhi];
    rewrite Z.gtb_ltb, Z.ltb_lt; rewrite ?Z.ltb_lt, ?Z.ltb_ge in *; lia.
Qed.

(** ** Resolving the admins' keys *)

Section Resolution_facts.

Context (X : Collaborators).
Implicit Types (w : World) (fingerprint : Fingerprint).

(** The three ways [discoverPublicKey] can go. *)
Lemma discoverPublicKey_run fingerprint w :
  discoverPublicKey X fingerprint w =
    match loadPgpKey X fingerprint with
    | Ok key => (Ok key, w, [EvLoadPgpKey fingerprint])
    | Err err =>
      match api_GetPublicKeyByFingerprint X fingerprint with
      | Ok key =>
        (Ok key, w,
         [EvLoadPgpKey fingerprint;
          EvLog ("failed to find key " +:+ fingerprint +:+ " in GnuPG: " +:+ Error err);
          EvGetPublicKeyByFingerprint fingerprint])
      | Err err' =>
        (Err (Errorf ("failed multiple attempts to find get public key for "
                      +:+ fingerprint)), w,
         [EvLoadPgpKey fingerprint;
          EvLog ("failed to find key " +:+ fingerprint +:+ " in GnuPG: " +:+ Error err);
          EvGetPublicKeyByFingerprint fingerprint;
          EvLog ("failed to find key " +:+ fingerprint +:+ " in API: " +:+ Error err')])
      end
    end.
Proof.
  unfold discoverPublicKey, gpg_loadPgpKey, client_GetPublicKeyByFingerprint,
    log_Printf, bind, emit, ret; simpl.
  destruct (loadPgpKey X fingerprint); [reflexivity |].
  destruct (api_GetPublicKeyByFingerprint X fingerprint); reflexivity.
Qed.

Lemma discoverPublicKey_final fingerprint w :
  final (discoverPublicKey X fingerprint w) = w.
Proof.
  rewrite discoverPublicKey_run.
  destruct (loadPgpKey X fingerprint); [reflexivity |].
  destruct (api_GetPublicKeyByFingerprint X fingerprint); reflexivity.
Qed.

Lemma discoverPublicKey_events fingerprint w :
  forallb isLookupOrLog (events (discoverPublicKey X fingerprint w)) = true.
Proof.
  rewrite discoverPublicKey_run.
  destruct (loadPgpKey X fingerprint); [reflexivity |].
  destruct (api_GetPublicKeyByFingerprint X fingerprint); reflexivity.
Qed.

(** A key comes back exactly when one of the two lookups finds it. *)
Lemma discoverPublicKey_returned fingerprint w :
  returned (discoverPublicKey X fingerprint w) =
    match loadPgpKey X fingerprint with
    | Ok key => Ok key
    | Err _ =>
      match api_GetPublicKeyByFingerprint X fingerprint with
      | Ok key => Ok key
      | Err _ => Err (Errorf ("failed multiple attempts to find get public key for "
                              +:+ fingerprint))
      end
    end.
Proof.
  rewrite discoverPublicKey_run.
  destruct (loadPgpKey X fingerprint); [reflexivity |].
  destruct (api_GetPublicKeyByFingerprint X fingerprint); reflexivity.
Qed.

(** In one [discoverPublicKey], the server is asked at position 2 only,
    after the keyring was asked at position 0 and failed. *)
Lemma discoverPublicKey_remote_after_local fingerprint w n fp :
  events (discoverPublicKey X fingerprint w) !! n
    = Some (EvGetPublicKeyByFingerprint fp) ->
  fp = fingerprint /\ n = 2%nat /\
  is_err (loadPgpKey X fingerprint) = true /\
  events (discoverPublicKey X fingerprint w) !! 0%nat = Some (EvLoadPgpKey fingerprint).
Proof.
  rewrite discoverPublicKey_run.
  destruct (loadPgpKey X fingerprint) as [key | err].
  - destruct n as [| n]; simpl; [discriminate | destruct n; discriminate].
  - destruct (api_GetPublicKeyByFingerprint X fingerprint);
      destruct n as [| [| [| [| n]]]]; simpl; try discriminate;
      intros [= <-]; auto.
Qed.

Lemma fetchAdminPublicKeys_range_step p rest adminKeys w :
  fetchAdminPublicKeys_range X (p :: rest) adminKeys w =
    bind (discoverPublicKey X (PersonFingerprint p))
      (fun r => match r with
                | Err err => ret (Err err)
                | Ok key => fetchAdminPublicKeys_range X rest (adminKeys ++ [key])
                end) w.
Proof. reflexivity. Qed.

Lemma fetchAdminPublicKeys_range_final admins : forall adminKeys w,
  final (fetchAdminPublicKeys_range X admins adminKeys w) = w.
Proof.
  induction admins as [| p rest IH]; intros adminKeys w; [reflexivity |].
  rewrite fetchAdminPublicKeys_range_step, final_bind, discoverPublicKey_final.
  destruct (returned (discoverPublicKey X (PersonFingerprint p) w));
    [apply IH | reflexivity].
Qed.

Lemma fetchAdminPublicKeys_range_events admins : forall adminKeys w,
  forallb isLookupOrLog (events (fetchAdminPublicKeys_range X admins adminKeys w))
    = true.
Proof.
  induction admins as [| p rest IH]; intros adminKeys w; [reflexivity |].
  rewrite fetchAdminPublicKeys_range_step, events_bind, forallb_app,
    discoverPublicKey_events, discoverPublicKey_final.
  destruct (returned (discoverPublicKey X (PersonFingerprint p) w));
    [apply IH | reflexivity].
Qed.

(** The result does not depend on the local state. *)
Lemma fetchAdminPublicKeys_range_returned admins : forall adminKeys w w',
  returned (fetchAdminPublicKeys_range X admins adminKeys w)
    = returned (fetchAdminPublicKeys_range X admins adminKeys w').
Proof.
  induction admins as [| p rest IH]; intros adminKeys w w'; [reflexivity |].
  rewrite !fetchAdminPublicKeys_range_step, !returned_bind,
    !discoverPublicKey_final, !discoverPublicKey_returned.
  destruct (loadPgpKey X (PersonFingerprint p)); [apply IH |].
  destruct (api_GetPublicKeyByFingerprint X (PersonFingerprint p));
    [apply IH | reflexivity].
Qed.

(** One admin without a key anywhere fails the whole loop. *)
Lemma fetchAdminPublicKeys_range_fails admins p : forall adminKeys w,
  In p admins ->
  is_err (loadPgpKey X (PersonFingerprint p)) = true ->
  is_err (api_GetPublicKeyByFingerprint X (PersonFingerprint p)) = true ->
  is_err (returned (fetchAdminPublicKeys_range X admins adminKeys w)) = true.
Proof.
  induction admins as [| q rest IH]; intros adminKeys w Hin Hlocal Hremote;
    [destruct Hin |].
  rewrite fetchAdminPublicKeys_range_step, returned_bind,
    discoverPublicKey_final, discoverPublicKey_returned.
  destruct Hin as [-> | Hin].
  - destruct (loadPgpKey X (PersonFingerprint p)); [discriminate |].
    destruct (api_GetPublicKeyByFingerprint X (PersonFingerprint p));
      [discriminate | reflexivity].
  - destruct (loadPgpKey X (PersonFingerprint q)); [now apply IH |].
    destruct (api_GetPublicKeyByFingerprint X (PersonFingerprint q));
      [now apply IH | reflexivity].
Qed.

(** A key list that comes back holds the keys collected before, then one
    key per admin, in order, each found in the keyring or else on the
    server. *)
Lemma fetchAdminPublicKeys_range_complete admins : forall adminKeys w keys,
  returned (fetchAdminPublicKeys_range X admins adminKeys w) = Ok keys ->
  exists found,
    keys = adminKeys ++ found /\
    Forall2 (fun p key =>
               loadPgpKey X (PersonFingerprint p) = Ok key \/
               (is_err (loadPgpKey X (PersonFingerprint p)) = true /\
                api_GetPublicKeyByFingerprint X (PersonFingerprint p) = Ok key))
      admins found.
Proof.
  induction admins as [| p rest IH]; intros adminKeys w keys.
  - intros [= <-]. exists []. split; [now rewrite app_nil_r | constructor].
  - rewrite fetchAdminPublicKeys_range_step, returned_bind,
      discoverPublicKey_final, discoverPublicKey_returned.
    destruct (loadPgpKey X (PersonFingerprint p)) as [key | err] eqn:Hlocal.
    + intros H. destruct (IH _ _ _ H) as (found & -> & Hall).
      exists (key :: found). split; [now rewrite <- app_assoc |].
      constructor; [left; exact Hlocal | exact Hall].
    + destruct (api_GetPublicKeyByFingerprint X (PersonFingerprint p))
        as [key | err'] eqn:Hremote; [| discriminate].
      intros H. destruct (IH _ _ _ H) as (found & -> & Hall).
      exists (key :: found). split; [now rewrite <- app_assoc |].
      constructor; [right; rewrite Hlocal; split; [reflexivity | exact Hremote]
                   | exact Hall].
Qed.

(** Throughout the loop, a request to the server for a key comes after a
    failed keyring lookup of the same fingerprint. *)
Lemma fetchAdminPublicKeys_range_local_first admins : forall adminKeys w n fp,
  events (fetchAdminPublicKeys_range X admins adminKeys w) !! n
    = Some (EvGetPublicKeyByFingerprint fp) ->
  is_err (loadPgpKey X fp) = true /\
  exists m, (m < n)%nat /\
    events (fetchAdminPublicKeys_range X admins adminKeys w) !! m
      = Some (EvLoadPgpKey fp).
Proof.
  induction admins as [| p rest IH]; intros adminKeys w n fp.
  - destruct n; discriminate.
  - rewrite fetchAdminPublicKeys_range_step, events_bind, discoverPublicKey_final.
    set (here := events (discoverPublicKey X (PersonFingerprint p) w)).
    set (later := events _).
    rewrite lookup_app_Some. intros [Hhere | [Hlen Hlater]].
    + apply discoverPublicKey_remote_after_local in Hhere
        as (-> & -> & Hlocal & Hfirst).
      split; [exact Hlocal |]. exists 0%nat. split; [lia |].
      apply lookup_app_l_Some. exact Hfirst.
    + assert (Hrest : is_err (loadPgpKey X fp) = true /\
                exists m, (m < n - length here)%nat /\
                          later !! m = Some (EvLoadPgpKey fp)).
      { subst later.
        destruct (returned (discoverPublicKey X (PersonFingerprint p) w)).
        - eapply IH, Hlater.
        - destruct (n - length here)%nat; discriminate. }
      destruct Hrest as (Hlocal & m & Hm & Hfound).
      split; [exact Hlocal |]. exists (length here + m)%nat. split; [lia |].
      rewrite lookup_app_r by lia.
      replace (length here + m - length here)%nat with m by lia. exact Hfound.
Qed.

(** When the key of every admin is discovered, the loop returns the keys
    collected before followed by these keys, in order, and its calls are
    the calls of [discoverPublicKey] for one admin after the other. *)
Lemma fetchAdminPublicKeys_range_all admins : forall keys adminKeys w,
  Forall2 (fun p key =>
             returned (discoverPublicKey X (PersonFingerprint p) w) = Ok key)
    admins keys ->
  returned (fetchAdminPublicKeys_range X admins adminKeys w) = Ok (adminKeys ++ keys) /\
  events (fetchAdminPublicKeys_range X admins adminKeys w) =
    concat (map (fun p => events (discoverPublicKey X (PersonFingerprint p) w)) admins).
Proof.
  induction admins as [| p rest IH]; intros keys adminKeys w Hall.
  - inversion Hall; subst. now rewrite app_nil_r.
  - inversion Hall as [| p' key rest' keys' Hp Hrest]; subst.
    rewrite fetchAdminPublicKeys_range_step, returned_bind, events_bind,
      discoverPublicKey_final, Hp.
    destruct (IH keys' (adminKeys ++ [key]) w Hrest) as [-> ->].
    split; [now rewrite <- app_assoc | reflexivity].
Qed.

(** The loop stops at the first admin whose key is not discovered: it
    returns the error of that discovery, and its calls are the calls of
    [discoverPublicKey] for the admins up to that one. *)
Lemma fetchAdminPublicKeys_range_first_failure pre p post err :
  forall adminKeys w,
  Forall (fun q =>
            is_err (returned (discoverPublicKey X (PersonFingerprint q) w)) = false)
    pre ->
  returned (discoverPublicKey X (PersonFingerprint p) w) = Err err ->
  returned (fetchAdminPublicKeys_range X (pre ++ p :: post) adminKeys w) = Err err /\
  events (fetchAdminPublicKeys_range X (pre ++ p :: post) adminKeys w) =
    concat (map (fun q => events (discoverPublicKey X (PersonFingerprint q) w))
              (pre ++ [p])).
Proof.
  induction pre as [| q pre IH]; intros adminKeys w Hpre Hp.
  - cbn [app]. rewrite fetchAdminPublicKeys_range_step, returned_bind, events_bind,
      discoverPublicKey_final, Hp.
    split; [reflexivity |]. cbn. now rewrite !app_nil_r.
  - inversion Hpre as [| q' pre' Hq Hrest]; subst.
    cbn [app]. rewrite fetchAdminPublicKeys_range_step, returned_bind, events_bind,
      discoverPublicKey_final.
    destruct (returned (discoverPublicKey X (PersonFingerprint q) w))
      as [key | err']; [| discriminate Hq].
    destruct (IH (adminKeys ++ [key]) w Hrest Hp) as [-> ->].
    split; reflexivity.
Qed.

End Resolution_facts.

(** C7: admin-key resolution runs [discoverPublicKey] for the admins of
    the team, one after the other in roster order, and leaves the local
    state alone. For each admin, [discoverPublicKey] asks the keyring
    first and the server only when the keyring failed, and fails exactly
    when both did; over the whole resolution every request to the server
    comes after a failed keyring lookup of the same fingerprint. When the
    key of every admin is discovered, the resolution returns these keys,
    one per admin and in order. It stops at the first admin whose key is
    discovered in neither place and returns the error of that discovery
    and no key list, so one such admin anywhere makes it fail; a key
    list that is returned holds one key per admin, each from the keyring
    or else from the server. *)
Theorem fetchAdminPublicKeys_local_first_all_or_nothing
  (X : Collaborators) (t : Team) (w : World) :
  final (fetchAdminPublicKeys X t w) = w /\
  (forall keys,
     Forall2 (fun p key =>
                returned (discoverPublicKey X (PersonFingerprint p) w) = Ok key)
       (Admins t) keys ->
     returned (fetchAdminPublicKeys X t w) = Ok keys /\
     events (fetchAdminPublicKeys X t w) =
       concat (map (fun p => events (discoverPublicKey X (PersonFingerprint p) w))
                 (Admins t))) /\
  (forall pre p post err,
     Admins t = pre ++ p :: post ->
     Forall (fun q =>
               is_err (returned (discoverPublicKey X (PersonFingerprint q) w)) = false)
       pre ->
     returned (discoverPublicKey X (PersonFingerprint p) w) = Err err ->
     returned (fetchAdminPublicKeys X t w) = Err err /\
     events (fetchAdminPublicKeys X t w) =
       concat (map (fun q => events (discoverPublicKey X (PersonFingerprint q) w))
                 (pre ++ [p]))) /\
  (forall p, In p (Admins t) ->
     events (discoverPublicKey X (PersonFingerprint p) w) !! 0%nat
       = Some (EvLoadPgpKey (PersonFingerprint p)) /\
     (In (EvGetPublicKeyByFingerprint (PersonFingerprint p))
         (events (discoverPublicKey X (PersonFingerprint p) w)) <->
      is_err (loadPgpKey X (PersonFingerprint p)) = true) /\
     (is_err (returned (discoverPublicKey X (PersonFingerprint p) w)) = true <->
      is_err (loadPgpKey X (PersonFingerprint p)) = true /\
      is_err (api_GetPublicKeyByFingerprint X (PersonFingerprint p)) = true)) /\
  (forall n fp,
     events (fetchAdminPublicKeys X t w) !! n = Some (EvGetPublicKeyByFingerprint fp) ->
     is_err (loadPgpKey X fp) = true /\
     exists m, (m < n)%nat /\
       events (fetchAdminPublicKeys X t w) !! m = Some (EvLoadPgpKey fp)) /\
  (forall p, In p (Admins t) ->
     is_err (loadPgpKey X (PersonFingerprint p)) = true ->
     is_err (api_GetPublicKeyByFingerprint X (PersonFingerprint p)) = true ->
     exists err, returned (fetchAdminPublicKeys X t w) = Err err) /\
  (forall keys, returned (fetchAdminPublicKeys X t w) = Ok keys ->
     Forall2 (fun p key =>
                loadPgpKey X (PersonFingerprint p) = Ok key \/
                (is_err (loadPgpKey X (PersonFingerprint p)) = true /\
                 api_GetPublicKeyByFingerprint X (PersonFingerprint p) = Ok key))
       (Admins t) keys).
Proof.
  unfold fetchAdminPublicKeys.
  split; [apply fetchAdminPublicKeys_range_final |].
  split; [| split; [| split; [| split; [| split]]]].
  - intros keys Hall.
    apply (fetchAdminPublicKeys_range_all X (Admins t) keys [] w Hall).
  - intros pre p post err -> Hpre Hp.
    now apply fetchAdminPublicKeys_range_first_failure.
  - intros p _. rewrite discoverPublicKey_run.
    destruct (loadPgpKey X (PersonFingerprint p)) as [key | err].
    + repeat split; try discriminate.
      * intros [H | []]; discriminate H.
      * intros [H _]; discriminate H.
    + destruct (api_GetPublicKeyByFingerprint X (PersonFingerprint p));
        simpl; repeat split; auto; try discriminate.
      intros [_ H]; discriminate H.
  - intros n fp. apply fetchAdminPublicKeys_range_local_first.
  - intros p Hin Hlocal Hremote.
    pose proof (fetchAdminPublicKeys_range_fails X (Admins t) p [] w
                  Hin Hlocal Hremote) as Hfail.
    destruct (returned (fetchAdminPublicKeys_range X (Admins t) [] w)) as [keys | err];
      [discriminate | eauto].
  - intros keys Hkeys.
    destruct (fetchAdminPublicKeys_range_complete X _ _ _ _ Hkeys)
      as (found & -> & Hall). exact Hall.
Qed.

(** Alice is Acme's admin. When her key is nowhere to be found the
    resolution fails; in the honest deployment her key is discovered and
    returned. *)
Lemma fetchAdminPublicKeys_local_first_all_or_nothing_witness :
  In scenario.alice (Admins scenario.acme) /\
  is_err (loadPgpKey scenario.alice_unknown (PersonFingerprint scenario.alice)) = true /\
  is_err (api_GetPublicKeyByFingerprint scenario.alice_unknown
            (PersonFingerprint scenario.alice)) = true /\
  (exists err,
     returned (fetchAdminPublicKeys scenario.alice_unknown scenario.acme scenario.trusted)
       = Err err) /\
  (exists key,
     returned (discoverPublicKey scenario.honest (PersonFingerprint scenario.alice)
                 scenario.trusted) = Ok key /\
     returned (fetchAdminPublicKeys scenario.honest scenario.acme scenario.trusted)
       = Ok [key] /\
     events (fetchAdminPublicKeys scenario.honest scenario.acme scenario.trusted)
       = [EvLoadPgpKey (PersonFingerprint scenario.alice)]).
Proof.
  assert (Hin : In scenario.alice (Admins scenario.acme)) by (left; reflexivity).
  split; [exact Hin |]. split; [reflexivity |]. split; [reflexivity |].
  split.
  - destruct (fetchAdminPublicKeys_local_first_all_or_nothing
                scenario.alice_unknown scenario.acme scenario.trusted)
      as (_ & _ & _ & _ & _ & Hnothing & _).
    exact (Hnothing scenario.alice Hin eq_refl eq_refl).
  - eexists. split; [reflexivity |].
    destruct (fetchAdminPublicKeys_local_first_all_or_nothing
                scenario.honest scenario.acme scenario.trusted)
      as (_ & Hall & _).
    refine (Hall [_] _).
    constructor; [reflexivity | constructor].
Defined.

(** ** Updating the roster of one membership *)

Section Roster_update_facts.

Context (X : Collaborators) (t : Team) (unlockedKey : PgpKey) (w : World).

Local Abbreviation run := (fetchAndUpdateRoster X t unlockedKey w).
Local Abbreviation resolution := (fetchAdminPublicKeys X t w).
Local Abbreviation fetch := (EvGetTeamRoster unlockedKey (TeamUUID t)).

(** Every way [fetchAndUpdateRoster] can go, with the state it leaves and
    the calls it makes. *)
Lemma fetchAndUpdateRoster_run :
  run =
    match api_GetTeamRoster X unlockedKey (TeamUUID t) with
    | Err err =>
      (Err (Errorf ("error downloading team roster: " +:+ Error err)), w, [fetch])
    | Ok (roster, signature) =>
      if decide (fst (Roster t) = roster) then
        (Ok t, w, [fetch; EvLog "no change to roster, nothing to do."])
      else
        match returned resolution with
        | Err err =>
          (Err (Errorf ("error getting team admin public keys: " +:+ Error err)),
           w, fetch :: events resolution)
        | Ok adminKeys =>
          match team_VerifyRoster X roster signature adminKeys with
          | Some err =>
            (Err (Errorf ("couldn't validate signature on updated roster: "
                          +:+ Error err)),
             w, fetch :: events resolution
                  ++ [EvVerifyRoster roster signature adminKeys])
          | None =>
            match team_Directory X t with
            | Err err =>
              (Err err, w,
               fetch :: events resolution
                 ++ [EvVerifyRoster roster signature adminKeys;
                     EvLog "new roster verified OK"])
            | Ok teamSubdir =>
              match Save_error X teamSubdir roster signature with
              | Some err =>
                (Err err, w,
                 fetch :: events resolution
                   ++ [EvVerifyRoster roster signature adminKeys;
                       EvLog "new roster verified OK";
                       EvSave teamSubdir roster signature])
              | None =>
                (team_Load X roster signature,
                 mkWorld (<[teamSubdir := (roster, signature)]> (store w)) (db w),
                 fetch :: events resolution
                   ++ [EvVerifyRoster roster signature adminKeys;
                       EvLog "new roster verified OK";
                       EvSave teamSubdir roster signature])
              end
            end
          end
        end
    end.
Proof.
  unfold fetchAndUpdateRoster, client_GetTeamRoster, VerifyRoster, Save,
    log_Printf, bind, emit, ret; simpl.
  destruct (api_GetTeamRoster X unlockedKey (TeamUUID t)) as [[roster signature] | err];
    [| reflexivity].
  case_decide; [reflexivity |].
  pose proof (fetchAdminPublicKeys_range_final X (Admins t) [] w) as Hfinal.
  fold (fetchAdminPublicKeys X t) in Hfinal.
  destruct resolution as [[r w1] evs]; unfold final, returned, events in *;
    simpl in *; subst w1.
  destruct r as [adminKeys | err]; [| now rewrite app_nil_r].
  destruct (team_VerifyRoster X roster signature adminKeys); [reflexivity |].
  destruct (team_Directory X t) as [teamSubdir | err]; [| reflexivity].
  destruct (Save_error X teamSubdir roster signature); [reflexivity |].
  destruct (team_Load X roster signature); reflexivity.
Qed.

Lemma resolution_is_quiet ev :
  In ev (events resolution) -> isStoreWrite ev = false /\ isVerification ev = false.
Proof.
  intros Hin.
  pose proof (fetchAdminPublicKeys_range_events X (Admins t) [] w) as Hall.
  rewrite forallb_forall in Hall. specialize (Hall ev Hin).
  destruct ev; simpl in *; try discriminate; auto.
Qed.

Lemma resolution_writes_nothing :
  forallb (fun ev => negb (isStoreWrite ev)) (events resolution) = true.
Proof.
  apply forallb_forall. intros ev Hin.
  destruct (resolution_is_quiet ev Hin) as [-> _]. reflexivity.
Qed.

(** The signature is verified exactly when a roster was fetched, it
    differs from the trusted one, and the admin keys were resolved; it is
    then verified against those keys. *)
Lemma fetchAndUpdateRoster_verifies_iff roster signature adminKeys :
  In (EvVerifyRoster roster signature adminKeys) (events run) <->
  api_GetTeamRoster X unlockedKey (TeamUUID t) = Ok (roster, signature) /\
  fst (Roster t) <> roster /\
  returned resolution = Ok adminKeys.
Proof.
  rewrite fetchAndUpdateRoster_run.
  destruct (api_GetTeamRoster X unlockedKey (TeamUUID t)) as [[r s] | err0].
  2: { split; [intros [H | []]; discriminate H | intros [H _]; discriminate H]. }
  case_decide as Hsame.
  { split; [intros [H | [H | []]]; discriminate H |].
    intros ([= <- <-] & Hdiff & _). contradiction. }
  destruct (returned resolution) as [ks | err0].
  2: { split; [| intros (_ & _ & H); discriminate H].
       intros [H | H]; [discriminate H |].
       apply resolution_is_quiet in H as [_ H]; discriminate H. }
  assert (Hhere : forall tail,
            (forall ev, In ev tail -> isVerification ev = false) ->
            In (EvVerifyRoster roster signature adminKeys)
               (fetch :: events resolution ++ EvVerifyRoster r s ks :: tail) <->
            Ok (r, s) = Ok (roster, signature) /\ fst (Roster t) <> roster /\
            Ok ks = Ok adminKeys).
  { intros tail Htail. split.
    - intros [H | H]; [discriminate H |].
      apply in_app_or in H as [H | [H | H]].
      + apply resolution_is_quiet in H as [_ H]; discriminate H.
      + injection H as <- <- <-. auto.
      + apply Htail in H. discriminate H.
    - intros ([= <- <-] & _ & [= <-]). right. apply in_or_app. right. left.
      reflexivity. }
  destruct (team_VerifyRoster X r s ks).
  { apply Hhere. intros ev []. }
  destruct (team_Directory X t) as [teamSubdir | err0].
  2: { apply Hhere. intros ev [<- | []]; reflexivity. }
  destruct (Save_error X teamSubdir r s);
    apply Hhere; intros ev [<- | [<- | []]]; reflexivity.
Qed.

(** C1: [fetchAndUpdateRoster] touches nothing but the trusted roster
    store, and changes the store only by a call to [Save]. A call to
    [Save] is for the roster and signature just fetched and comes after
    they were verified, with success, against the admin keys resolved
    from the team trusted so far; nothing was saved before that. When the
    verification that was run fails, the function returns an error,
    leaves the state as it was, and makes no call to [Save]. The
    verification is run on every fetched roster that differs from the
    trusted one and whose admin keys resolve. *)
Theorem fetchAndUpdateRoster_saves_only_verified :
  db (final run) = db w /\
  (store (final run) <> store w ->
   exists directory roster signature,
     In (EvSave directory roster signature) (events run)) /\
  (forall directory roster signature,
     In (EvSave directory roster signature) (events run) ->
     exists adminKeys pre post,
       api_GetTeamRoster X unlockedKey (TeamUUID t) = Ok (roster, signature) /\
       returned resolution = Ok adminKeys /\
       team_VerifyRoster X roster signature adminKeys = None /\
       events run = pre ++ EvVerifyRoster roster signature adminKeys :: post /\
       forallb (fun ev => negb (isStoreWrite ev)) pre = true) /\
  (forall roster signature adminKeys err,
     In (EvVerifyRoster roster signature adminKeys) (events run) ->
     team_VerifyRoster X roster signature adminKeys = Some err ->
     is_err (returned run) = true /\
     final run = w /\
     forallb (fun ev => negb (isStoreWrite ev)) (events run) = true) /\
  (forall roster signature adminKeys,
     In (EvVerifyRoster roster signature adminKeys) (events run) <->
     api_GetTeamRoster X unlockedKey (TeamUUID t) = Ok (roster, signature) /\
     fst (Roster t) <> roster /\
     returned resolution = Ok adminKeys).
Proof.
  apply and_snoc4; [| apply fetchAndUpdateRoster_verifies_iff].
  rewrite fetchAndUpdateRoster_run.
  destruct (api_GetTeamRoster X unlockedKey (TeamUUID t))
    as [[roster signature] | err0].
  2: { split; [reflexivity |]. split; [intros H; now contradiction H |].
       split; [intros ? ? ? [H | []]; discriminate H |].
       intros ? ? ? ? [H | []]; discriminate H. }
  case_decide.
  { split; [reflexivity |]. split; [intros H'; now contradiction H' |].
    split; [intros ? ? ? [H' | [H' | []]]; discriminate H' |].
    intros ? ? ? ? [H' | [H' | []]]; discriminate H'. }
  destruct (returned resolution) as [adminKeys | err0] eqn:Hkeys.
  2: { split; [reflexivity |]. split; [intros H'; now contradiction H' |].
       split.
       - intros d r s [H' | H']; [discriminate H' |].
         apply resolution_is_quiet in H' as [H' _]; discriminate H'.
       - intros r s ks e [H' | H']; [discriminate H' |].
         apply resolution_is_quiet in H' as [_ H']; discriminate H'. }
  destruct (team_VerifyRoster X roster signature adminKeys) as [err0 |] eqn:Hverify.
  { split; [reflexivity |]. split; [intros H'; now contradiction H' |].
    split.
    - intros d r s [H' | H']; [discriminate H' |].
      apply in_app_or in H' as [H' | [H' | []]]; [| discriminate H'].
      apply resolution_is_quiet in H' as [H' _]; discriminate H'.
    - intros r s ks e _ _. split; [reflexivity |]. split; [reflexivity |].
      simpl. rewrite forallb_app, resolution_writes_nothing. reflexivity. }
  assert (Hsaved : forall teamSubdir d r s tail,
            In (EvSave d r s)
               (fetch :: events resolution
                  ++ EvVerifyRoster roster signature adminKeys
                     :: EvLog "new roster verified OK" :: tail) ->
            tail = [EvSave teamSubdir roster signature] \/ tail = [] ->
            exists adminKeys0 pre post,
              Ok (roster, signature) = Ok (r, s) /\
              Ok adminKeys = Ok adminKeys0 /\
              team_VerifyRoster X r s adminKeys0 = None /\
              fetch :: events resolution
                ++ EvVerifyRoster roster signature adminKeys
                   :: EvLog "new roster verified OK" :: tail
              = pre ++ EvVerifyRoster r s adminKeys0 :: post /\
              forallb (fun ev => negb (isStoreWrite ev)) pre = true).
  { intros teamSubdir d r s tail [H' | H'] Htail; [discriminate H' |].
    apply in_app_or in H' as [H' | [H' | [H' | H']]]; try discriminate H'.
    - apply resolution_is_quiet in H' as [H' _]; discriminate H'.
    - destruct Htail as [-> | ->]; [| destruct H'].
      destruct H' as [[= <- <- <-] | []].
      exists adminKeys, (fetch :: events resolution),
        [EvLog "new roster verified OK"; EvSave teamSubdir roster signature].
      repeat split; auto.
      simpl. apply resolution_writes_nothing. }
  assert (Hverified : forall r s ks e tail,
            In (EvVerifyRoster r s ks)
               (fetch :: events resolution
                  ++ EvVerifyRoster roster signature adminKeys
                     :: EvLog "new roster verified OK" :: tail) ->
            (forall ev, In ev tail -> isVerification ev = false) ->
            team_VerifyRoster X r s ks = Some e -> False).
  { intros r s ks e tail [H' | H'] Htail Hfails; [discriminate H' |].
    apply in_app_or in H' as [H' | [H' | [H' | H']]]; try discriminate H'.
    - apply resolution_is_quiet in H' as [_ H']; discriminate H'.
    - injection H' as <- <- <-. congruence.
    - apply Htail in H'. discriminate H'. }
  destruct (team_Directory X t) as [teamSubdir | err0].
  2: { split; [reflexivity |]. split; [intros H'; now contradiction H' |].
       split.
       - intros d r s Hin.
         destruct (Hsaved "" d r s [] Hin (or_intror eq_refl))
           as (ks & pre & post & [= <- <-] & [= <-] & ? & ? & ?).
         exists adminKeys, pre, post. auto.
       - intros r s ks e Hin Hfails. exfalso.
         apply (Hverified r s ks e [] Hin); [intros ev [] | exact Hfails]. }
  destruct (Save_error X teamSubdir roster signature) as [err0 |].
  - split; [reflexivity |]. split; [intros H'; now contradiction H' |].
    split.
    + intros d r s Hin.
      destruct (Hsaved teamSubdir d r s _ Hin (or_introl eq_refl))
        as (ks & pre & post & [= <- <-] & [= <-] & ? & ? & ?).
      exists adminKeys, pre, post. auto.
    + intros r s ks e Hin Hfails. exfalso.
      apply (Hverified r s ks e _ Hin); [| exact Hfails].
      intros ev [<- | []]; reflexivity.
  - split; [reflexivity |]. split.
    + intros _. exists teamSubdir, roster, signature.
      right. apply in_or_app. right. right. right. left. reflexivity.
    + split.
      * intros d r s Hin.
        destruct (Hsaved teamSubdir d r s _ Hin (or_introl eq_refl))
          as (ks & pre & post & [= <- <-] & [= <-] & ? & ? & ?).
        exists adminKeys, pre, post. auto.
      * intros r s ks e Hin Hfails. exfalso.
        apply (Hverified r s ks e _ Hin); [| exact Hfails].
        intros ev [<- | []]; reflexivity.
Qed.

(** C6: when the roster the server returns equals the roster already
    trusted for the team, [fetchAndUpdateRoster] returns that team and no
    error, leaves the state as it was, and makes two calls only, the
    fetch and a log line: it resolves no key, verifies nothing and saves
    nothing. *)
Theorem fetchAndUpdateRoster_unchanged_is_noop (roster signature : string) :
  api_GetTeamRoster X unlockedKey (TeamUUID t) = Ok (roster, signature) ->
  roster = fst (Roster t) ->
  returned run = Ok t /\
  final run = w /\
  events run = [fetch; EvLog "no change to roster, nothing to do."] /\
  forallb (fun ev => negb (isKeyResolution ev || isVerification ev || isStoreWrite ev))
    (events run) = true.
Proof.
  intros Hfetched ->. rewrite fetchAndUpdateRoster_run, Hfetched.
  case_decide; [| contradiction]. repeat split.
Qed.

End Roster_update_facts.

(** Mallory's roster fails verification and nothing is saved; the
    honest server's roster is saved after Alice's signature checked
    out. *)
Lemma fetchAndUpdateRoster_saves_only_verified_witness :
  (In (EvVerifyRoster "roster by mallory" "EEEE" [mkKey "AAAA" "from the keyring"])
      (events (fetchAndUpdateRoster scenario.forged scenario.acme
                 scenario.bob_unlocked scenario.trusted)) /\
   team_VerifyRoster scenario.forged "roster by mallory" "EEEE"
       [mkKey "AAAA" "from the keyring"]
     = Some (Errorf "roster signature is not by a team admin") /\
   is_err (returned (fetchAndUpdateRoster scenario.forged scenario.acme
                       scenario.bob_unlocked scenario.trusted)) = true /\
   final (fetchAndUpdateRoster scenario.forged scenario.acme
            scenario.bob_unlocked scenario.trusted) = scenario.trusted /\
   forallb (fun ev => negb (isStoreWrite ev))
     (events (fetchAndUpdateRoster scenario.forged scenario.acme
                scenario.bob_unlocked scenario.trusted)) = true) /\
  (In (EvSave "teams/u1" "roster v3" "AAAA")
      (events (fetchAndUpdateRoster scenario.honest scenario.acme
                 scenario.bob_unlocked scenario.trusted)) /\
   exists adminKeys pre post,
     api_GetTeamRoster scenario.honest scenario.bob_unlocked (TeamUUID scenario.acme)
       = Ok ("roster v3", "AAAA") /\
     returned (fetchAdminPublicKeys scenario.honest scenario.acme scenario.trusted)
       = Ok adminKeys /\
     team_VerifyRoster scenario.honest "roster v3" "AAAA" adminKeys = None /\
     events (fetchAndUpdateRoster scenario.honest scenario.acme
               scenario.bob_unlocked scenario.trusted)
       = pre ++ EvVerifyRoster "roster v3" "AAAA" adminKeys :: post /\
     forallb (fun ev => negb (isStoreWrite ev)) pre = true).
Proof.
  assert (Hrun : In (EvVerifyRoster "roster by mallory" "EEEE"
                       [mkKey "AAAA" "from the keyring"])
                   (events (fetchAndUpdateRoster scenario.forged scenario.acme
                              scenario.bob_unlocked scenario.trusted)))
    by (vm_compute; auto 10).
  assert (Hsave : In (EvSave "teams/u1" "roster v3" "AAAA")
                    (events (fetchAndUpdateRoster scenario.honest scenario.acme
                               scenario.bob_unlocked scenario.trusted)))
    by (vm_compute; auto 10).
  destruct (fetchAndUpdateRoster_saves_only_verified scenario.forged scenario.acme
              scenario.bob_unlocked scenario.trusted) as (_ & _ & _ & Hfailed & _).
  destruct (fetchAndUpdateRoster_saves_only_verified scenario.honest scenario.acme
              scenario.bob_unlocked scenario.trusted) as (_ & _ & Hsaved & _).
  split.
  - split; [exact Hrun |]. split; [reflexivity |].
    exact (Hfailed _ _ _ _ Hrun eq_refl).
  - split; [exact Hsave |]. exact (Hsaved _ _ _ Hsave).
Defined.

(** The server still has the roster that is trusted locally. *)
Lemma fetchAndUpdateRoster_unchanged_is_noop_witness :
  api_GetTeamRoster scenario.unchanged scenario.bob_unlocked (TeamUUID scenario.acme)
    = Ok ("roster v2", "AAAA") /\
  "roster v2" = fst (Roster scenario.acme) /\
  returned (fetchAndUpdateRoster scenario.unchanged scenario.acme
              scenario.bob_unlocked scenario.trusted) = Ok scenario.acme /\
  final (fetchAndUpdateRoster scenario.unchanged scenario.acme
           scenario.bob_unlocked scenario.trusted) = scenario.trusted /\
  events (fetchAndUpdateRoster scenario.unchanged scenario.acme
            scenario.bob_unlocked scenario.trusted)
    = [EvGetTeamRoster scenario.bob_unlocked (TeamUUID scenario.acme);
       EvLog "no change to roster, nothing to do."] /\
  forallb (fun ev => negb (isKeyResolution ev || isVerification ev || isStoreWrite ev))
    (events (fetchAndUpdateRoster scenario.unchanged scenario.acme
               scenario.bob_unlocked scenario.trusted)) = true.
Proof.
  split; [reflexivity |]. split; [reflexivity |].
  exact (fetchAndUpdateRoster_unchanged_is_noop scenario.unchanged scenario.acme
           scenario.bob_unlocked scenario.trusted "roster v2" "AAAA" eq_refl eq_refl).
Defined.

(** ** Requests to join a team *)

Section Monad_laws.

Context {A B C : Type}.

Lemma bind_assoc (m : M A) (k : A -> M B) (k' : B -> M C) (w : World) :
  bind (bind m k) k' w = bind m (fun a => bind (k a) k') w.
Proof.
  unfold bind.
  destruct (m w) as [[a w1] evs1].
  destruct (k a w1) as [[b w2] evs2].
  destruct (k' b w2) as [[c w3] evs3].
  now rewrite app_assoc.
Qed.

Lemma bind_ext (m : M A) (k k' : A -> M B) (w : World) :
  (forall a w1, k a w1 = k' a w1) -> bind m k w = bind m k' w.
Proof.
  intros Hk. unfold bind. destruct (m w) as [[a w1] evs1]. now rewrite Hk.
Qed.

Lemma bind_ret_l (a : A) (k : A -> M B) (w : World) :
  bind (ret a) k w = k a w.
Proof.
  unfold bind, ret. destruct (k a w) as [[b w1] evs]. reflexivity.
Qed.

End Monad_laws.

Section Join_request_facts.

Context (X : Collaborators).
Implicit Types (w : World) (request : RequestToJoinTeam)
  (err returnError : option error).

Lemma loadPrivateKeyFromFingerprint_run fingerprint w :
  loadPrivateKeyFromFingerprint X fingerprint w =
    match loadPgpKey X fingerprint with
    | Err err => (Err err, w, [EvLoadPgpKey fingerprint])
    | Ok key =>
      (match getDecryptedPrivateKeyAndPassword X key with
       | Err err => Err err
       | Ok (unlockedKey, _) => Ok unlockedKey
       end,
       w, [EvLoadPgpKey fingerprint; EvDecryptPrivateKey key])
    end.
Proof.
  unfold loadPrivateKeyFromFingerprint, gpg_loadPgpKey, decryptPrivateKey,
    bind, emit, ret; simpl.
  destruct (loadPgpKey X fingerprint) as [key | e]; [| reflexivity].
  destruct (getDecryptedPrivateKeyAndPassword X key) as [[unlockedKey pw] | e];
    reflexivity.
Qed.

(** An expired request: a warning, a delete, and the function's outer
    [err] as the new [returnError]. No key is loaded and no roster is
    fetched. *)
Lemma processRequest_expired err returnError request w :
  time_Now X - RequestedAt request > (7 * 24) * Hour ->
  exists lines,
    processRequest X err returnError request w =
      (err,
       final (DeleteRequestToJoinTeam X (RequestTeamUUID request)
                (RequestFingerprint request) w),
       [EvPrint (FormatWarning
                   ("Your request to join " +:+ RequestTeamName request
                    +:+ " has expired") lines None);
        EvDeleteRequestToJoinTeam (RequestTeamUUID request)
          (RequestFingerprint request)]).
Proof.
  intros Hold. apply Sub_gt_week in Hold.
  unfold processRequest. rewrite Hold.
  unfold out_Print, DeleteRequestToJoinTeam, bind, emit, ret, final; simpl.
  destruct (DeleteRequestToJoinTeam_error X _ _); eexists; reflexivity.
Qed.

(** When the delete goes through, the expired request is gone from the
    database. *)
Lemma DeleteRequestToJoinTeam_removes request w :
  DeleteRequestToJoinTeam_error X (RequestTeamUUID request)
    (RequestFingerprint request) = None ->
  ~ In request (db (final (DeleteRequestToJoinTeam X (RequestTeamUUID request)
                             (RequestFingerprint request) w))).
Proof.
  intros Hok. unfold DeleteRequestToJoinTeam, final. rewrite Hok. simpl.
  rewrite filter_In. intros [_ Hkept].
  unfold sameRequest in Hkept.
  rewrite !bool_decide_eq_true_2 in Hkept by reflexivity. discriminate.
Qed.

(** A request the server still forbids: the key is loaded, the roster is
    asked for, an information box is printed, and nothing else happens. *)
Lemma processRequest_forbidden err returnError request w key unlockedKey password :
  time_Now X - RequestedAt request <= (7 * 24) * Hour ->
  loadPgpKey X (RequestFingerprint request) = Ok key ->
  getDecryptedPrivateKeyAndPassword X key = Ok (unlockedKey, password) ->
  api_GetTeamRoster X unlockedKey (RequestTeamUUID request) = Err ErrForbidden ->
  exists lines,
    processRequest X err returnError request w =
      (returnError, w,
       [EvLoadPgpKey (RequestFingerprint request);
        EvDecryptPrivateKey key;
        EvGetTeamRoster unlockedKey (RequestTeamUUID request);
        EvPrint (FormatInfo
                   ("Your request to join " +:+ RequestTeamName request
                    +:+ " hasn't been approved") lines)]).
Proof.
  intros Hfresh Hkey Hunlock Hforbidden.
  assert (Hnot : (Sub (time_Now X) (RequestedAt request) >? 7 * 24 * Hour) = false).
  { destruct (Sub _ _ >? _) eqn:E; [| reflexivity].
    apply Sub_gt_week in E. lia. }
  unfold processRequest. rewrite Hnot.
  unfold bind at 1. rewrite loadPrivateKeyFromFingerprint_run, Hkey, Hunlock.
  unfold client_GetTeamRoster, out_Print, bind, emit, ret; simpl.
  rewrite Hforbidden. eexists. reflexivity.
Qed.

Lemma processRequests_range_app err pre : forall returnError post w,
  processRequests_range X err returnError (pre ++ post) w =
    bind (processRequests_range X err returnError pre)
      (fun r => processRequests_range X err r post) w.
Proof.
  induction pre as [| request pre IH]; intros returnError post w.
  - cbn [app processRequests_range]. now rewrite bind_ret_l.
  - cbn [app processRequests_range]. rewrite bind_assoc.
    apply bind_ext. intros r w1. apply IH.
Qed.

End Join_request_facts.

(** C8: a request that has not expired when its iteration tests the
    clock, whose key loads and unlocks, and for which the server answers
    Forbidden, costs one iteration of the loop that hands on
    [returnError] as it found it, whatever it was, and leaves the state
    as it was, so the request stays in the database for the next run.
    The only calls are the key load, the unlock, the roster fetch and
    one information box that says the request has not been approved: no
    failure is printed, nothing is deleted and nothing is saved. *)
Theorem processRequest_forbidden_stays_pending
  (X : Collaborators) (request : RequestToJoinTeam)
  (key unlockedKey : PgpKey) (password : string)
  (err returnError : option error) (w : World) :
  time_Now X - RequestedAt request <= (7 * 24) * Hour ->
  loadPgpKey X (RequestFingerprint request) = Ok key ->
  getDecryptedPrivateKeyAndPassword X key = Ok (unlockedKey, password) ->
  api_GetTeamRoster X unlockedKey (RequestTeamUUID request) = Err ErrForbidden ->
  returned (processRequest X err returnError request w) = returnError /\
  final (processRequest X err returnError request w) = w /\
  (In request (db w) ->
   In request (db (final (processRequest X err returnError request w)))) /\
  (exists lines,
     events (processRequest X err returnError request w) =
       [EvLoadPgpKey (RequestFingerprint request);
        EvDecryptPrivateKey key;
        EvGetTeamRoster unlockedKey (RequestTeamUUID request);
        EvPrint (FormatInfo
                   ("Your request to join " +:+ RequestTeamName request
                    +:+ " hasn't been approved") lines)]) /\
  forallb (fun ev => negb (isRequestDeletion ev || isStoreWrite ev))
    (events (processRequest X err returnError request w)) = true.
Proof.
  intros Hfresh Hkey Hunlock Hforbidden.
  destruct (processRequest_forbidden X err returnError request w key unlockedKey
              password Hfresh Hkey Hunlock Hforbidden) as [lines ->].
  split; [reflexivity |]. split; [reflexivity |]. split; [auto |].
  split; [exists lines; reflexivity | reflexivity].
Qed.

(** Carol asked two days ago and the admin has not answered yet. *)
Lemma processRequest_forbidden_stays_pending_witness :
  time_Now scenario.forbidden - RequestedAt scenario.recent_request <= (7 * 24) * Hour /\
  loadPgpKey scenario.forbidden (RequestFingerprint scenario.recent_request)
    = Ok (mkKey "CCCC" "from the keyring") /\
  getDecryptedPrivateKeyAndPassword scenario.forbidden (mkKey "CCCC" "from the keyring")
    = Ok (scenario.carol_unlocked, "password") /\
  api_GetTeamRoster scenario.forbidden scenario.carol_unlocked
      (RequestTeamUUID scenario.recent_request) = Err ErrForbidden /\
  returned (processRequest scenario.forbidden None None scenario.recent_request
              (scenario.waiting scenario.recent_request)) = None /\
  final (processRequest scenario.forbidden None None scenario.recent_request
           (scenario.waiting scenario.recent_request))
    = scenario.waiting scenario.recent_request /\
  returned (processRequestsToJoinTeam scenario.forbidden
              (scenario.waiting scenario.recent_request)) = None /\
  db (final (processRequestsToJoinTeam scenario.forbidden
               (scenario.waiting scenario.recent_request)))
    = [scenario.recent_request].
Proof.
  assert (Hfresh : time_Now scenario.forbidden - RequestedAt scenario.recent_request
                   <= (7 * 24) * Hour) by (vm_compute; discriminate).
  destruct (processRequest_forbidden_stays_pending scenario.forbidden
              scenario.recent_request (mkKey "CCCC" "from the keyring")
              scenario.carol_unlocked "password" None None
              (scenario.waiting scenario.recent_request)
              Hfresh eq_refl eq_refl eq_refl)
    as (Hreturned & Hfinal & _).
  split; [exact Hfresh |]. do 3 (split; [reflexivity |]).
  split; [exact Hreturned |]. split; [exact Hfinal |].
  split; reflexivity.
Defined.

(** When the last stored request has expired, the pass reports no error,
    whatever went wrong with the requests before it. *)
Lemma processRequests_range_expired_last
  (X : Collaborators) (pre : list RequestToJoinTeam) (request : RequestToJoinTeam)
  (w : World) :
  time_Now X - RequestedAt request > (7 * 24) * Hour ->
  returned (processRequests_range X None None (pre ++ [request]) w) = None.
Proof.
  intros Hold. rewrite processRequests_range_app, returned_bind.
  set (r := returned (processRequests_range X None None pre w)).
  set (w1 := final (processRequests_range X None None pre w)).
  change (processRequests_range X None r [request] w1)
    with (bind (processRequest X None r request)
            (fun r' => processRequests_range X None r' []) w1).
  rewrite returned_bind.
  destruct (processRequest_expired X None r request w1 Hold) as [lines ->].
  reflexivity.
Qed.

(** C3: Carol's request is eight days old. The pass prints the expiry
    warning, deletes the request and fetches no roster, but it returns no
    error, so [teamFetch] exits with 0; the expiry branch assigns the nil
    [err] of the function to [returnError], which also wipes an error
    recorded for an earlier request. *)
Theorem processRequestsToJoinTeam_expiry_not_reported :
  time_Now scenario.honest - RequestedAt scenario.stale_request > (7 * 24) * Hour /\
  (exists lines,
     events (processRequestsToJoinTeam scenario.honest
               (scenario.waiting scenario.stale_request))
       = [EvRequestsToJoinTeams;
          EvPrint (FormatWarning "Your request to join Acme has expired" lines None);
          EvDeleteRequestToJoinTeam "u1" "CCCC"]) /\
  db (final (processRequestsToJoinTeam scenario.honest
               (scenario.waiting scenario.stale_request))) = [] /\
  returned (processRequestsToJoinTeam scenario.honest
              (scenario.waiting scenario.stale_request)) = None /\
  returned (teamFetch scenario.honest (scenario.waiting scenario.stale_request))
    = Returned 0 /\
  returned (processRequest scenario.honest None (Some (Errorf "earlier failure"))
              scenario.stale_request (scenario.waiting scenario.stale_request))
    = None.
Proof.
  split; [vm_compute; reflexivity |].
  split; [eexists; vm_compute; reflexivity |].
  repeat split; vm_compute; reflexivity.
Qed.

(** ** Fetching the keys of a team and the whole run *)

Section Team_keys_facts.

Context (X : Collaborators).
Implicit Types (w : World) (fingerprint : Fingerprint).

(** What [getAndImportKeyToGpg] answers, which depends on the
    collaborators alone. *)
Lemma getAndImportKeyToGpg_returned fingerprint w :
  returned (getAndImportKeyToGpg X fingerprint w) =
    match api_GetPublicKeyByFingerprint X fingerprint with
    | Err err =>
      if decide (err = ErrPublicKeyNotFound)
      then Some (Errorf "Couldn't find key")
      else Some (Errorf "Got error from Fluidkeys server")
    | Ok key =>
      match key_Armor X key with
      | Err _ => Some (Errorf "failed to ASCII armor key")
      | Ok armoredKey =>
        match gpg_ImportArmoredKey X armoredKey with
        | Some _ => Some (Errorf "Failed to import key into gpg")
        | None => None
        end
      end
    end.
Proof.
  unfold getAndImportKeyToGpg, client_GetPublicKeyByFingerprint, ImportArmoredKey,
    log_Printf, bind, emit, ret, returned; simpl.
  destruct (api_GetPublicKeyByFingerprint X fingerprint) as [key | err].
  - destruct (key_Armor X key) as [armoredKey | err]; [| reflexivity].
    destruct (gpg_ImportArmoredKey X armoredKey); reflexivity.
  - case_decide; reflexivity.
Qed.

Lemma getAndImportKeyToGpg_final fingerprint w :
  final (getAndImportKeyToGpg X fingerprint w) = w.
Proof.
  unfold getAndImportKeyToGpg, client_GetPublicKeyByFingerprint, ImportArmoredKey,
    log_Printf, bind, emit, ret, final; simpl.
  destruct (api_GetPublicKeyByFingerprint X fingerprint) as [key | err].
  - destruct (key_Armor X key) as [armoredKey | err]; [| reflexivity].
    destruct (gpg_ImportArmoredKey X armoredKey); reflexivity.
  - case_decide; reflexivity.
Qed.

Lemma getAndImportKeyToGpg_asks_server fingerprint w :
  events (getAndImportKeyToGpg X fingerprint w) !! 0%nat
    = Some (EvGetPublicKeyByFingerprint fingerprint).
Proof.
  unfold getAndImportKeyToGpg, client_GetPublicKeyByFingerprint, ImportArmoredKey,
    log_Printf, bind, emit, ret, events; simpl.
  destruct (api_GetPublicKeyByFingerprint X fingerprint) as [key | err].
  - destruct (key_Armor X key) as [armoredKey | err]; [| reflexivity].
    destruct (gpg_ImportArmoredKey X armoredKey); reflexivity.
  - case_decide; reflexivity.
Qed.

Lemma RunWithCheckboxes_returned label (fn : M (option error)) w :
  returned (RunWithCheckboxes label fn w) = returned (fn w).
Proof.
  unfold RunWithCheckboxes, out_Print, bind, emit, ret, returned.
  destruct (fn w) as [[r w1] evs]. reflexivity.
Qed.

Lemma RunWithCheckboxes_final label (fn : M (option error)) w :
  final (RunWithCheckboxes label fn w) = final (fn w).
Proof.
  unfold RunWithCheckboxes, out_Print, bind, emit, ret, final.
  destruct (fn w) as [[r w1] evs]. reflexivity.
Qed.

Lemma RunWithCheckboxes_events label (fn : M (option error)) w :
  events (RunWithCheckboxes label fn w)
    = events (fn w) ++ [EvPrint (Checkbox label (returned (fn w)))].
Proof.
  unfold RunWithCheckboxes, out_Print, bind, emit, ret, events, returned.
  destruct (fn w) as [[r w1] evs]. reflexivity.
Qed.

Lemma fetchTeamKeys_range_step person rest err w :
  fetchTeamKeys_range X (person :: rest) err w =
    bind (RunWithCheckboxes (Email person)
            (getAndImportKeyToGpg X (PersonFingerprint person)))
      (fun err' => fetchTeamKeys_range X rest err') w.
Proof. reflexivity. Qed.

Lemma fetchTeamKeys_range_final people : forall err w,
  final (fetchTeamKeys_range X people err w) = w.
Proof.
  induction people as [| person rest IH]; intros err w; [reflexivity |].
  rewrite fetchTeamKeys_range_step, final_bind, IH, RunWithCheckboxes_final.
  apply getAndImportKeyToGpg_final.
Qed.

(** The loop hands back what the last person's import answered: the
    errors of the people before are overwritten. *)
Lemma fetchTeamKeys_range_last people person : forall err w,
  returned (fetchTeamKeys_range X (people ++ [person]) err w)
    = returned (getAndImportKeyToGpg X (PersonFingerprint person) w).
Proof.
  induction people as [| q rest IH]; intros err w.
  - cbn [app]. rewrite fetchTeamKeys_range_step, returned_bind.
    cbn [fetchTeamKeys_range]. unfold ret at 1. unfold returned at 1. simpl.
    rewrite RunWithCheckboxes_returned. reflexivity.
  - cbn [app]. rewrite fetchTeamKeys_range_step, returned_bind, IH,
      RunWithCheckboxes_final, getAndImportKeyToGpg_final. reflexivity.
Qed.

(** Every person of the team has the server asked for their key, whether
    or not an earlier import failed. *)
Lemma fetchTeamKeys_range_tries_everyone people : forall err w person,
  In person people ->
  In (EvGetPublicKeyByFingerprint (PersonFingerprint person))
     (events (fetchTeamKeys_range X people err w)).
Proof.
  induction people as [| q rest IH]; intros err w person Hin; [destruct Hin |].
  rewrite fetchTeamKeys_range_step, events_bind. apply in_or_app.
  destruct Hin as [-> | Hin].
  - left. rewrite RunWithCheckboxes_events. apply in_or_app. left.
    apply list_elem_of_In. eapply list_elem_of_lookup_2.
    apply getAndImportKeyToGpg_asks_server.
  - right. now apply IH.
Qed.

End Team_keys_facts.

(** C2: the user is a member of Acme, whose people are Alice and Bob; the
    roster is unchanged, Alice's key is missing from the server and Bob's
    is there. Alice's import fails and is shown as failed, Bob's import
    still runs and succeeds, and because the loop keeps only the last
    answer, [fetchTeamKeys] and [doUpdateTeam] return no error and
    [teamFetch] exits with 0. *)
Theorem teamFetch_drops_key_failure :
  returned (getAndImportKeyToGpg scenario.alice_missing_on_server
              (PersonFingerprint scenario.alice) scenario.trusted)
    = Some (Errorf "Couldn't find key") /\
  In (EvPrint (Checkbox "alice@acme.example" (Some (Errorf "Couldn't find key"))))
     (events (teamFetch scenario.alice_missing_on_server scenario.trusted)) /\
  In (EvPrint (Checkbox "bob@acme.example" None))
     (events (teamFetch scenario.alice_missing_on_server scenario.trusted)) /\
  returned (fetchTeamKeys scenario.alice_missing_on_server scenario.acme
              scenario.trusted) = None /\
  returned (doUpdateTeam scenario.alice_missing_on_server scenario.acme scenario.bob
              scenario.trusted) = None /\
  returned (teamFetch scenario.alice_missing_on_server scenario.trusted) = Returned 0.
Proof.
  split; [reflexivity |].
  split; [vm_compute; auto 20 |].
  split; [vm_compute; auto 20 |].
  repeat split; vm_compute; reflexivity.
Qed.

(** * Further properties of the code *)

Import calls.

(** ** Keys of a team *)

Section Team_keys_more.

Context (X : Collaborators).
Implicit Types (w : World) (t : Team).

Lemma getAndImportKeyToGpg_requested fingerprint w :
  requestedKeys (events (getAndImportKeyToGpg X fingerprint w)) = [fingerprint].
Proof.
  unfold getAndImportKeyToGpg, client_GetPublicKeyByFingerprint, ImportArmoredKey,
    log_Printf, bind, emit, ret, events; simpl.
  destruct (api_GetPublicKeyByFingerprint X fingerprint) as [key | err].
  - destruct (key_Armor X key) as [armoredKey | err]; [| reflexivity].
    destruct (gpg_ImportArmoredKey X armoredKey); reflexivity.
  - case_decide; reflexivity.
Qed.

Lemma requestedKeys_app evs evs' :
  requestedKeys (evs ++ evs') = requestedKeys evs ++ requestedKeys evs'.
Proof. apply omap_app. Qed.

Lemma fetchTeamKeys_range_requested people : forall err w,
  requestedKeys (events (fetchTeamKeys_range X people err w))
    = map PersonFingerprint people.
Proof.
  induction people as [| person rest IH]; intros err w; [reflexivity |].
  rewrite fetchTeamKeys_range_step, events_bind, requestedKeys_app, IH,
    RunWithCheckboxes_events, requestedKeys_app, getAndImportKeyToGpg_requested.
  reflexivity.
Qed.

Lemma fetchTeamKeys_range_last_option people : forall err w,
  returned (fetchTeamKeys_range X people err w) =
    match last people with
    | None => err
    | Some person => returned (getAndImportKeyToGpg X (PersonFingerprint person) w)
    end.
Proof.
  induction people as [| person rest IH]; intros err w; [reflexivity |].
  rewrite fetchTeamKeys_range_step, returned_bind, IH, RunWithCheckboxes_final,
    getAndImportKeyToGpg_final, RunWithCheckboxes_returned.
  destruct rest as [| q rest]; [reflexivity |].
  change (last (person :: q :: rest)) with (last (q :: rest)).
  destruct (last (q :: rest)) eqn:Hlast; [reflexivity |].
  apply last_None in Hlast. discriminate.
Qed.

Lemma fetchTeamKeys_requested t w :
  requestedKeys (events (fetchTeamKeys X t w)) = map PersonFingerprint (People t).
Proof.
  unfold fetchTeamKeys, out_Print.
  rewrite !events_bind, !requestedKeys_app, fetchTeamKeys_range_requested.
  simpl. now rewrite app_nil_r.
Qed.

Lemma fetchTeamKeys_final t w : final (fetchTeamKeys X t w) = w.
Proof.
  unfold fetchTeamKeys, out_Print.
  rewrite !final_bind, fetchTeamKeys_range_final. reflexivity.
Qed.

Lemma getAndImportKeyToGpg_imported person w :
  importedKeys (events (getAndImportKeyToGpg X (PersonFingerprint person) w))
    = option_list (armoredKeyOf X person).
Proof.
  unfold armoredKeyOf, getAndImportKeyToGpg, client_GetPublicKeyByFingerprint,
    ImportArmoredKey, log_Printf, bind, emit, ret, events; simpl.
  destruct (api_GetPublicKeyByFingerprint X (PersonFingerprint person)) as [key | err].
  - destruct (key_Armor X key) as [armoredKey | err]; [| reflexivity].
    destruct (gpg_ImportArmoredKey X armoredKey); reflexivity.
  - case_decide; reflexivity.
Qed.

Lemma importedKeys_app evs evs' :
  importedKeys (evs ++ evs') = importedKeys evs ++ importedKeys evs'.
Proof. apply omap_app. Qed.

Lemma fetchTeamKeys_range_imported people : forall err w,
  importedKeys (events (fetchTeamKeys_range X people err w))
    = omap (armoredKeyOf X) people.
Proof.
  induction people as [| person rest IH]; intros err w; [reflexivity |].
  rewrite fetchTeamKeys_range_step, events_bind, importedKeys_app, IH,
    RunWithCheckboxes_events, importedKeys_app, getAndImportKeyToGpg_imported.
  change (omap (armoredKeyOf X) (person :: rest))
    with (match armoredKeyOf X person with
          | Some armoredKey => armoredKey :: omap (armoredKeyOf X) rest
          | None => omap (armoredKeyOf X) rest
          end).
  destruct (armoredKeyOf X person); reflexivity.
Qed.

Lemma fetchTeamKeys_imported t w :
  importedKeys (events (fetchTeamKeys X t w)) = omap (armoredKeyOf X) (People t).
Proof.
  unfold fetchTeamKeys, out_Print.
  rewrite !events_bind, !importedKeys_app, fetchTeamKeys_range_imported.
  simpl. now rewrite app_nil_r.
Qed.

(** X1: [fetchTeamKeys] asks the server for the key of every person of
    the team, once each and in roster order, whatever the earlier
    imports answered. What it changes locally is the GnuPG keyring: it
    hands GnuPG, in roster order, the armored key of each person whose
    key was fetched and armored. The roster store and the stored
    requests to join are as they were. *)
Theorem fetchTeamKeys_asks_for_every_person t w :
  requestedKeys (events (fetchTeamKeys X t w)) = map PersonFingerprint (People t) /\
  importedKeys (events (fetchTeamKeys X t w)) = omap (armoredKeyOf X) (People t) /\
  store (final (fetchTeamKeys X t w)) = store w /\
  db (final (fetchTeamKeys X t w)) = db w.
Proof.
  split; [apply fetchTeamKeys_requested |].
  split; [apply fetchTeamKeys_imported |].
  now rewrite fetchTeamKeys_final.
Qed.

(** X2: the error [fetchTeamKeys] returns is what the checkbox run of
    the import answered for the last person of the roster, and nil for a
    team without people: what the runs for the people before answered
    does not reach the result. *)
Theorem fetchTeamKeys_returns_last_import t w :
  returned (fetchTeamKeys X t w) =
    match last (People t) with
    | None => None
    | Some person =>
      returned (RunWithCheckboxes (Email person)
                  (getAndImportKeyToGpg X (PersonFingerprint person)) w)
    end.
Proof.
  unfold fetchTeamKeys, out_Print.
  rewrite !returned_bind, ?final_bind, fetchTeamKeys_range_last_option.
  destruct (last (People t)); [| reflexivity].
  now rewrite RunWithCheckboxes_returned.
Qed.

(** X3: [getAndImportKeyToGpg] hands GnuPG at most one key, the armored
    form of the key the server returned for the fingerprint; it returns
    nil exactly when the fetch, the armoring and the import all
    succeeded, and a missing key is told apart from other server
    errors. *)
Theorem getAndImportKeyToGpg_imports_fetched_key fingerprint w :
  (forall armoredKey,
     In armoredKey (importedKeys (events (getAndImportKeyToGpg X fingerprint w))) <->
     exists key, api_GetPublicKeyByFingerprint X fingerprint = Ok key /\
                 key_Armor X key = Ok armoredKey) /\
  (length (importedKeys (events (getAndImportKeyToGpg X fingerprint w))) <= 1)%nat /\
  (returned (getAndImportKeyToGpg X fingerprint w) = None <->
   exists key armoredKey,
     api_GetPublicKeyByFingerprint X fingerprint = Ok key /\
     key_Armor X key = Ok armoredKey /\
     gpg_ImportArmoredKey X armoredKey = None) /\
  (returned (getAndImportKeyToGpg X fingerprint w) = Some (Errorf "Couldn't find key") <->
   api_GetPublicKeyByFingerprint X fingerprint = Err ErrPublicKeyNotFound).
Proof.
  rewrite getAndImportKeyToGpg_returned.
  unfold getAndImportKeyToGpg, client_GetPublicKeyByFingerprint, ImportArmoredKey,
    log_Printf, bind, emit, ret, events; simpl.
  destruct (api_GetPublicKeyByFingerprint X fingerprint) as [key | err].
  - destruct (key_Armor X key) as [armoredKey | err] eqn:Harmor.
    + destruct (gpg_ImportArmoredKey X armoredKey) eqn:Himport; simpl;
        (split; [intros a; split;
                 [intros [<- | []]; eauto | intros (k & [= <-] & Hk); left; congruence] |]);
        (split; [lia |]); split; split; try discriminate; eauto.
      * intros (k & a & [= <-] & Ha & Hi). congruence.
    + simpl. split; [intros a; split; [intros [] |
                       intros (k & [= <-] & Hk); congruence] |].
      split; [lia |]. split; split; try discriminate.
      intros (k & a & [= <-] & Ha & _). congruence.
  - split; [intros a; split; [case_decide; intros [] |
                    intros (k & Hk & _); discriminate] |].
    split; [case_decide; simpl; lia |].
    split; [split; [case_decide; discriminate |
                    intros (k & a & Hk & _); discriminate] |].
    case_decide; split; try discriminate; congruence.
Qed.

End Team_keys_more.

(** ** One membership, and the whole run *)

(** Push the three projections of a run through the binds. *)
Ltac run_steps :=
  repeat (rewrite ?returned_bind, ?final_bind, ?events_bind;
          cbn [emit ret returned final events fst snd]).

Section Membership_facts.

Context (X : Collaborators).
Implicit Types (w : World) (myTeam : Team) (me : Person).

Lemma loadPrivateKeyFromFingerprint_final fingerprint w :
  final (loadPrivateKeyFromFingerprint X fingerprint w) = w.
Proof.
  rewrite loadPrivateKeyFromFingerprint_run.
  destruct (loadPgpKey X fingerprint); reflexivity.
Qed.




(** The team [doUpdateTeam] goes on with after the roster step, the
    error it has noted, and the state and calls so far. *)
Lemma doUpdateTeam_unlock_failed myTeam me w e :
  returned (loadPrivateKeyFromFingerprint X (PersonFingerprint me) w) = Err e ->
  returned (doUpdateTeam X myTeam me w) =
    Some (match returned (fetchTeamKeys X myTeam w) with
          | Some err => err
          | None => e
          end) /\
  final (doUpdateTeam X myTeam me w) = w /\
  exists boxes boxes',
    events (doUpdateTeam X myTeam me w) =
      EvPrint (Header (Name myTeam))
        :: events (loadPrivateKeyFromFingerprint X (PersonFingerprint me) w)
        ++ EvPrint boxes :: events (fetchTeamKeys X myTeam w) ++ [EvPrint boxes'].
Proof.
  intros Hlocked. unfold doUpdateTeam, printHeader, out_Print.
  run_steps. rewrite !loadPrivateKeyFromFingerprint_final, Hlocked. run_steps.
  pose proof (fetchTeamKeys_final X myTeam w) as Hfinal.
  destruct (returned (fetchTeamKeys X myTeam w)) as [err |] eqn:Hkeys;
    run_steps; (split; [reflexivity |]); (split; [exact Hfinal |]);
    do 2 eexists; cbn [app]; rewrite ?app_nil_r; reflexivity.
Qed.

Lemma doUpdateTeam_unlocked myTeam me w unlockedKey :
  returned (loadPrivateKeyFromFingerprint X (PersonFingerprint me) w) = Ok unlockedKey ->
  exists team' noted boxes boxes',
    (team', noted) =
      match returned (fetchAndUpdateRoster X myTeam unlockedKey w) with
      | Ok updatedTeam => (updatedTeam, None)
      | Err err => (myTeam, Some err)
      end /\
    returned (doUpdateTeam X myTeam me w) =
      match returned (fetchTeamKeys X team'
                        (final (fetchAndUpdateRoster X myTeam unlockedKey w))) with
      | Some err => Some err
      | None => noted
      end /\
    final (doUpdateTeam X myTeam me w)
      = final (fetchAndUpdateRoster X myTeam unlockedKey w) /\
    events (doUpdateTeam X myTeam me w) =
      EvPrint (Header (Name myTeam))
        :: events (loadPrivateKeyFromFingerprint X (PersonFingerprint me) w)
        ++ events (fetchAndUpdateRoster X myTeam unlockedKey w)
        ++ boxes
        ++ events (fetchTeamKeys X team'
                     (final (fetchAndUpdateRoster X myTeam unlockedKey w)))
        ++ [EvPrint boxes'] /\
    forallb leavesRostersAlone boxes = true /\ requestedKeys boxes = [].
Proof.
  intros Hunlocked. unfold doUpdateTeam, printHeader, out_Print.
  run_steps. rewrite !loadPrivateKeyFromFingerprint_final, Hunlocked. run_steps.
  set (u := fetchAndUpdateRoster X myTeam unlockedKey w).
  destruct (returned u) as [updatedTeam | err] eqn:Hu; run_steps.
  - pose proof (fetchTeamKeys_final X updatedTeam (final u)) as Hfinal.
    exists updatedTeam, None, [].
    destruct (returned (fetchTeamKeys X updatedTeam (final u))) eqn:Hkeys;
      run_steps; eexists; repeat split; try exact Hfinal;
      cbn [app]; rewrite ?app_nil_r; reflexivity.
  - pose proof (fetchTeamKeys_final X myTeam (final u)) as Hfinal.
    exists myTeam, (Some err),
      [EvPrint (FormatWarning "Failed to check team for updates" [] (Some err))].
    destruct (returned (fetchTeamKeys X myTeam (final u))) eqn:Hkeys;
      run_steps; eexists; repeat split; try exact Hfinal;
      rewrite <- ?app_assoc; cbn [app]; rewrite ?app_nil_r; reflexivity.
Qed.

End Membership_facts.

(** X4: [doUpdateTeam] returns nil exactly when the key was unlocked,
    the roster update returned a team, and fetching the keys of that team
    returned nil: a failed unlock or a failed roster update is never
    lost, whatever the key fetch answers afterwards. *)
Theorem doUpdateTeam_nil_iff_all_succeeded
  (X : Collaborators) (myTeam : Team) (me : Person) (w : World) :
  returned (doUpdateTeam X myTeam me w) = None <->
  exists unlockedKey updatedTeam,
    returned (loadPrivateKeyFromFingerprint X (PersonFingerprint me) w)
      = Ok unlockedKey /\
    returned (fetchAndUpdateRoster X myTeam unlockedKey w) = Ok updatedTeam /\
    returned (fetchTeamKeys X updatedTeam
                (final (fetchAndUpdateRoster X myTeam unlockedKey w))) = None.
Proof.
  destruct (returned (loadPrivateKeyFromFingerprint X (PersonFingerprint me) w))
    as [unlockedKey | e] eqn:Hkey.
  - destruct (doUpdateTeam_unlocked X myTeam me w unlockedKey Hkey)
      as (team' & noted & boxes & boxes' & Hstage & -> & _).
    destruct (returned (fetchAndUpdateRoster X myTeam unlockedKey w))
      as [updatedTeam | err] eqn:Hupdate; injection Hstage as -> ->.
    + split.
      * intros Hnil. exists unlockedKey, updatedTeam.
        split; [reflexivity |]. split; [exact Hupdate |].
        destruct (returned (fetchTeamKeys _ _ _)); congruence.
      * intros (k & t' & [= <-] & Hupdate' & Hkeys).
        rewrite Hupdate in Hupdate'. injection Hupdate' as <-.
        now rewrite Hkeys.
    + split.
      * destruct (returned (fetchTeamKeys _ _ _)); discriminate.
      * intros (k & t' & [= <-] & Hupdate' & _). congruence.
  - destruct (doUpdateTeam_unlock_failed X myTeam me w e Hkey) as (-> & _).
    split; [discriminate | intros (k & t' & Hk & _); discriminate Hk].
Qed.





Section Run_facts.

Context (X : Collaborators).
Implicit Types (w : World) (sawError : bool).

Lemma teamFetch_range_step m rest sawError w :
  teamFetch_range X (m :: rest) sawError w =
    bind (doUpdateTeam X (MembershipTeam m) (Me m))
      (fun err => teamFetch_range X rest (if err is Some _ then true else sawError)) w.
Proof. reflexivity. Qed.

(** Once an error has been seen it stays seen. *)
Lemma teamFetch_range_sticky ms : forall w,
  returned (teamFetch_range X ms true w) = true.
Proof.
  induction ms as [| m rest IH]; intros w; [reflexivity |].
  rewrite teamFetch_range_step, returned_bind.
  destruct (returned (doUpdateTeam X (MembershipTeam m) (Me m) w)); apply IH.
Qed.

(** The flag is raised only by a membership whose update returned an
    error. *)
Lemma teamFetch_range_raised ms : forall w,
  returned (teamFetch_range X ms false w) = true ->
  exists m w', In m ms /\
    returned (doUpdateTeam X (MembershipTeam m) (Me m) w') <> None.
Proof.
  induction ms as [| m rest IH]; intros w; [discriminate |].
  rewrite teamFetch_range_step, returned_bind.
  destruct (returned (doUpdateTeam X (MembershipTeam m) (Me m) w)) eqn:Hm.
  - intros _. exists m, w. split; [left; reflexivity | rewrite Hm; discriminate].
  - intros Hrest. destruct (IH _ Hrest) as (m' & w' & Hin & Hfails).
    exists m', w'. split; [right; exact Hin | exact Hfails].
Qed.

(** A membership whose update returns an error raises the flag, wherever
    it stands in the list. *)
Lemma teamFetch_range_raises pre : forall m post sawError w,
  returned (doUpdateTeam X (MembershipTeam m) (Me m)
              (final (teamFetch_range X pre sawError w))) <> None ->
  returned (teamFetch_range X (pre ++ m :: post) sawError w) = true.
Proof.
  induction pre as [| m0 pre IH]; intros m post sawError w Hfails.
  - cbn [app]. rewrite teamFetch_range_step, returned_bind.
    cbn [teamFetch_range ret final fst snd] in Hfails.
    destruct (returned (doUpdateTeam X (MembershipTeam m) (Me m) w));
      [apply teamFetch_range_sticky | contradiction].
  - cbn [app]. rewrite teamFetch_range_step, returned_bind.
    apply IH. rewrite teamFetch_range_step, final_bind in Hfails. exact Hfails.
Qed.

Lemma teamFetch_range_final_flag ms : forall sawError sawError' w,
  final (teamFetch_range X ms sawError w) = final (teamFetch_range X ms sawError' w).
Proof.
  induction ms as [| m rest IH]; intros sawError sawError' w; [reflexivity |].
  rewrite !teamFetch_range_step, !final_bind. apply IH.
Qed.

End Run_facts.

(** X7: the exit of [teamFetch]. When the memberships cannot be read
    after the join requests were processed, it writes the text of that
    error to the log as its one call after the join-request pass, panics
    with that text and updates no team. Otherwise it returns 0 or 1: 1
    whenever the join-request pass returned an error, 1 whenever the
    update of some membership returned an error in the state that
    membership was reached in, and 1 only for one of these two reasons;
    on 1 the last thing printed is the failure line. *)
Theorem teamFetch_exit_code (X : Collaborators) (w : World) :
  (forall e,
     user_Memberships X (store (final (processRequestsToJoinTeam X w))) = Err e ->
     returned (teamFetch X w) = Panicked (Error e) /\
     final (teamFetch X w) = final (processRequestsToJoinTeam X w) /\
     events (teamFetch X w)
       = events (processRequestsToJoinTeam X w) ++ [EvLog (Error e)]) /\
  (forall ms,
     user_Memberships X (store (final (processRequestsToJoinTeam X w))) = Ok ms ->
     (returned (teamFetch X w) = Returned 0 \/ returned (teamFetch X w) = Returned 1) /\
     (returned (processRequestsToJoinTeam X w) <> None ->
      returned (teamFetch X w) = Returned 1) /\
     (forall pre m post,
        ms = pre ++ m :: post ->
        returned (doUpdateTeam X (MembershipTeam m) (Me m)
                    (final (teamFetch_range X pre false
                              (final (processRequestsToJoinTeam X w))))) <> None ->
        returned (teamFetch X w) = Returned 1) /\
     (returned (teamFetch X w) = Returned 1 ->
      (returned (processRequestsToJoinTeam X w) <> None \/
       exists m w', In m ms /\
         returned (doUpdateTeam X (MembershipTeam m) (Me m) w') <> None) /\
      last (events (teamFetch X w))
        = Some (EvPrint (Failed ("Encountered errors while syncing." +:+ nl))))).
Proof.
  unfold teamFetch, Memberships, log_Panic, printFailed, out_Print.
  split.
  - intros e Hunreadable. run_steps. rewrite Hunreadable. run_steps.
    cbn [app]. auto.
  - intros ms Hms. run_steps. rewrite Hms. run_steps.
    set (join := processRequestsToJoinTeam X w).
    set (saw := if returned join is Some _ then true else false).
    set (loop := teamFetch_range X ms saw (final join)).
    assert (Hsticky : returned join <> None -> returned loop = true).
    { intros Hjoin. subst loop saw.
      destruct (returned join); [apply teamFetch_range_sticky | contradiction]. }
    assert (Hraises : forall pre m post,
              ms = pre ++ m :: post ->
              returned (doUpdateTeam X (MembershipTeam m) (Me m)
                          (final (teamFetch_range X pre false (final join)))) <> None ->
              returned loop = true).
    { intros pre m post -> Hfails. subst loop.
      apply teamFetch_range_raises.
      now rewrite (teamFetch_range_final_flag X pre saw false). }
    assert (Hraised : returned loop = true ->
              returned join <> None \/
              exists m w', In m ms /\
                returned (doUpdateTeam X (MembershipTeam m) (Me m) w') <> None).
    { intros Htrue. subst loop saw.
      destruct (returned join); [left; discriminate |].
      right. eapply teamFetch_range_raised, Htrue. }
    destruct (returned loop) eqn:Hloop; run_steps.
    + split; [right; reflexivity |]. split; [reflexivity |].
      split; [reflexivity |]. intros _. split; [auto |].
      rewrite !app_nil_r, !app_assoc. apply last_snoc.
    + split; [left; reflexivity |].
      split; [intros Hjoin; specialize (Hsticky Hjoin); discriminate |].
      split; [intros pre m post Hsplit Hfails;
              specialize (Hraises pre m post Hsplit Hfails); discriminate |].
      discriminate.
Qed.

(** With the teams directory unreadable the run panics; with Bob's key
    locked the update of his one membership fails and the run exits
    with 1. *)
Lemma teamFetch_exit_code_witness :
  (user_Memberships scenario_more.unreadable
     (store (final (processRequestsToJoinTeam scenario_more.unreadable
                      scenario.trusted)))
     = Err (Errorf "cannot read the teams directory") /\
   returned (teamFetch scenario_more.unreadable scenario.trusted)
     = Panicked "cannot read the teams directory") /\
  (user_Memberships scenario_more.locked
     (store (final (processRequestsToJoinTeam scenario_more.locked scenario.trusted)))
     = Ok ([] ++ mkMembership scenario.acme scenario.bob :: []) /\
   returned (doUpdateTeam scenario_more.locked scenario.acme scenario.bob
               (final (teamFetch_range scenario_more.locked [] false
                         (final (processRequestsToJoinTeam scenario_more.locked
                                   scenario.trusted))))) <> None /\
   returned (teamFetch scenario_more.locked scenario.trusted) = Returned 1).
Proof.
  destruct (teamFetch_exit_code scenario_more.unreadable scenario.trusted)
    as [Hpanic _].
  destruct (teamFetch_exit_code scenario_more.locked scenario.trusted)
    as [_ Hexit].
  split.
  - split; [reflexivity |]. exact (proj1 (Hpanic _ eq_refl)).
  - assert (Hfails : returned (doUpdateTeam scenario_more.locked scenario.acme
                                 scenario.bob
                                 (final (teamFetch_range scenario_more.locked [] false
                                           (final (processRequestsToJoinTeam
                                                     scenario_more.locked
                                                     scenario.trusted))))) <> None)
      by (vm_compute; discriminate).
    split; [reflexivity |]. split; [exact Hfails |].
    destruct (Hexit _ eq_refl) as (_ & _ & Hraises & _).
    exact (Hraises [] (mkMembership scenario.acme scenario.bob) [] eq_refl Hfails).
Defined.

(** ** A request that is answered *)

(** Lay one pass of the loop body open, down to the collaborators'
    answers; the admin-key resolution stays as one run. *)
Ltac open_processRequest :=
  unfold processRequest, loadPrivateKeyFromFingerprint, gpg_loadPgpKey,
    decryptPrivateKey, client_GetTeamRoster, verifyBrandNewRoster, VerifyRoster,
    Save, DeleteRequestToJoinTeam, out_Print, bind, emit, ret.

Section Answered_request_facts.

Context (X : Collaborators).
Implicit Types (w : World) (request : RequestToJoinTeam)
  (err returnError : option error).

Lemma fresh_or_expired request :
  {time_Now X - RequestedAt request > (7 * 24) * Hour /\
   (Sub (time_Now X) (RequestedAt request) >? (7 * 24) * Hour) = true} +
  {time_Now X - RequestedAt request <= (7 * 24) * Hour /\
   (Sub (time_Now X) (RequestedAt request) >? (7 * 24) * Hour) = false}.
Proof.
  destruct (Sub (time_Now X) (RequestedAt request) >? (7 * 24) * Hour) eqn:E.
  - left. split; [now apply Sub_gt_week | reflexivity].
  - right. split; [| reflexivity].
    destruct (Z_le_gt_dec (time_Now X - RequestedAt request) ((7 * 24) * Hour))
      as [Hle | Hgt]; [exact Hle |].
    apply Sub_gt_week in Hgt. congruence.
Qed.

(** The admin-key resolution inside a pass, taken apart. *)
Lemma resolution_cases t w :
  exists r evs,
    fetchAdminPublicKeys X t w = (r, w, evs) /\
    forall ev, In ev evs ->
      isStoreWrite ev = false /\ isRequestDeletion ev = false /\
      isVerification ev = false /\ isRosterFetch ev = false.
Proof.
  pose proof (fetchAdminPublicKeys_range_final X (Admins t) [] w) as Hfinal.
  pose proof (fetchAdminPublicKeys_range_events X (Admins t) [] w) as Hevents.
  fold (fetchAdminPublicKeys X t) in Hfinal, Hevents.
  destruct (fetchAdminPublicKeys X t w) as [[r w1] evs].
  unfold final, events in *; simpl in *; subst w1.
  exists r, evs. split; [reflexivity |].
  intros ev Hin. rewrite forallb_forall in Hevents. specialize (Hevents ev Hin).
  destruct ev; simpl in *; try discriminate; auto.
Qed.

End Answered_request_facts.

(** Take a membership in a laid-open record of calls apart; [Hquiet]
    says what the calls of the admin-key resolution are not. *)
Ltac settle_member H Hquiet :=
  lazymatch type of H with
  | False => destruct H
  | In _ [] => destruct H
  | _ \/ _ =>
    let H1 := fresh in
    destruct H as [H1 | H1]; [settle_member H1 Hquiet | settle_member H1 Hquiet]
  | In _ (_ :: _) =>
    let H1 := fresh in
    destruct H as [H1 | H1]; [settle_member H1 Hquiet | settle_member H1 Hquiet]
  | In _ (_ ++ _) =>
    let H1 := fresh in
    apply in_app_or in H; destruct H as [H1 | H1];
    [settle_member H1 Hquiet | settle_member H1 Hquiet]
  | In _ _ =>
    try (apply Hquiet in H; destruct H as (? & ? & ? & ?); discriminate)
  | _ = _ => try discriminate H
  | _ => idtac
  end.

(** X8: in one pass of the join-request loop, a roster is saved only
    when the request has not expired, the requester's key was loaded and
    unlocked, the server returned that roster and signature, they load as
    a team, the keys of that team's admins were all resolved and the
    signature verified against them, and the team's directory was found;
    the store changes only through such a save. A request is deleted
    only when it has expired or after its roster was saved, it is the
    request of this pass that is deleted, and the database changes only
    through that delete. *)
Theorem processRequest_saves_only_verified
  (X : Collaborators) (err returnError : option error)
  (request : RequestToJoinTeam) (w : World) :
  (forall d r s,
     In (EvSave d r s) (events (processRequest X err returnError request w)) ->
     time_Now X - RequestedAt request <= (7 * 24) * Hour /\
     exists key unlockedKey password t adminKeys,
       loadPgpKey X (RequestFingerprint request) = Ok key /\
       getDecryptedPrivateKeyAndPassword X key = Ok (unlockedKey, password) /\
       api_GetTeamRoster X unlockedKey (RequestTeamUUID request) = Ok (r, s) /\
       team_Load X r s = Ok t /\
       returned (fetchAdminPublicKeys X t w) = Ok adminKeys /\
       team_VerifyRoster X r s adminKeys = None /\
       team_Directory X t = Ok d) /\
  (store (final (processRequest X err returnError request w)) <> store w ->
   exists d r s,
     In (EvSave d r s) (events (processRequest X err returnError request w))) /\
  (forall u f,
     In (EvDeleteRequestToJoinTeam u f)
        (events (processRequest X err returnError request w)) ->
     u = RequestTeamUUID request /\ f = RequestFingerprint request /\
     (time_Now X - RequestedAt request > (7 * 24) * Hour \/
      exists d r s,
        In (EvSave d r s) (events (processRequest X err returnError request w)) /\
        Save_error X d r s = None)) /\
  (db (final (processRequest X err returnError request w)) <> db w ->
   In (EvDeleteRequestToJoinTeam (RequestTeamUUID request) (RequestFingerprint request))
      (events (processRequest X err returnError request w))).
Proof.
  open_processRequest.
  destruct (fresh_or_expired X request) as [[Hold ->] | [Hfresh ->]].
  { unfold returned, final, events; simpl.
    destruct (DeleteRequestToJoinTeam_error X _ _); simpl;
      (split; [intros d r s [H | [H | []]]; discriminate H |]);
      (split; [try (intros H; now contradiction H) |]);
      (split; [intros u f [H | [H | []]]; [discriminate H |];
               injection H as <- <-; auto |]); auto. }
  simpl.
  destruct (loadPgpKey X (RequestFingerprint request)) as [key | e] eqn:Hkey; simpl.
  2: { unfold returned, final, events; simpl.
       split; [intros d r s H; settle_member H I |].
       split; [intros H; now contradiction H |].
       split; [intros u f H; settle_member H I |].
       intros H; now contradiction H. }
  destruct (getDecryptedPrivateKeyAndPassword X key) as [[unlockedKey password] | e]
    eqn:Hunlock; simpl.
  2: { unfold returned, final, events; simpl.
       split; [intros d r s H; settle_member H I |].
       split; [intros H; now contradiction H |].
       split; [intros u f H; settle_member H I |].
       intros H; now contradiction H. }
  destruct (api_GetTeamRoster X unlockedKey (RequestTeamUUID request))
    as [[roster signature] | e] eqn:Hfetched; simpl.
  2: { destruct (decide (e = ErrForbidden)) as [_ | _];
         unfold returned, final, events; simpl;
         (split; [intros d r s H; settle_member H I |]);
         (split; [intros H; now contradiction H |]);
         (split; [intros u f H; settle_member H I |]);
         intros H; now contradiction H. }
  destruct (team_Load X roster signature) as [t | e] eqn:Hloaded; simpl.
  2: { unfold returned, final, events; simpl.
       split; [intros d r s H; settle_member H I |].
       split; [intros H; now contradiction H |].
       split; [intros u f H; settle_member H I |].
       intros H; now contradiction H. }
  destruct (resolution_cases X t w) as (resolved & evs & Hresolution & Hquiet).
  rewrite Hresolution.
  destruct resolved as [adminKeys | e]; simpl.
  2: { unfold returned, final, events; simpl.
       split; [intros d r s H; settle_member H Hquiet |].
       split; [intros H; now contradiction H |].
       split; [intros u f H; settle_member H Hquiet |].
       intros H; now contradiction H. }
  destruct (team_VerifyRoster X roster signature adminKeys) as [e |] eqn:Hverified;
    simpl.
  { unfold returned, final, events; simpl.
    split; [intros d r s H; settle_member H Hquiet |].
    split; [intros H; now contradiction H |].
    split; [intros u f H; settle_member H Hquiet |].
    intros H; now contradiction H. }
  destruct (team_Directory X t) as [teamSubdirectory | e] eqn:Hdirectory; simpl.
  2: { unfold returned, final, events; simpl.
       split; [intros d r s H; settle_member H Hquiet |].
       split; [intros H; now contradiction H |].
       split; [intros u f H; settle_member H Hquiet |].
       intros H; now contradiction H. }
  assert (Hsaved : forall d r s,
            EvSave teamSubdirectory roster signature = EvSave d r s ->
            time_Now X - RequestedAt request <= (7 * 24) * Hour /\
            exists key0 unlockedKey0 password0 t0 adminKeys0,
              Ok key = Ok key0 /\
              getDecryptedPrivateKeyAndPassword X key0 = Ok (unlockedKey0, password0) /\
              api_GetTeamRoster X unlockedKey0 (RequestTeamUUID request) = Ok (r, s) /\
              team_Load X r s = Ok t0 /\
              returned (fetchAdminPublicKeys X t0 w) = Ok adminKeys0 /\
              team_VerifyRoster X r s adminKeys0 = None /\
              team_Directory X t0 = Ok d).
  { intros d r s [= <- <- <-]. split; [exact Hfresh |].
    exists key, unlockedKey, password, t, adminKeys.
    rewrite Hresolution. auto 10. }
  destruct (Save_error X teamSubdirectory roster signature) as [e |] eqn:Hsave; simpl.
  { unfold returned, final, events; simpl.
    split; [intros d r s H; settle_member H Hquiet; now apply Hsaved |].
    split; [intros H; now contradiction H |].
    split; [intros u f H; settle_member H Hquiet |].
    intros H; now contradiction H. }
  assert (Hin : forall tail,
            In (EvSave teamSubdirectory roster signature)
               (EvLoadPgpKey (RequestFingerprint request)
                :: EvDecryptPrivateKey key
                :: EvGetTeamRoster unlockedKey (RequestTeamUUID request)
                :: (evs ++ [EvVerifyRoster roster signature adminKeys])
                   ++ EvSave teamSubdirectory roster signature :: tail)).
  { intros tail. do 3 right. apply in_or_app. right. left. reflexivity. }
  destruct (DeleteRequestToJoinTeam_error X _ _) as [e |]; simpl;
    unfold returned, final, events; simpl;
    (split; [intros d r s H; settle_member H Hquiet; now apply Hsaved |]);
    (split; [intros _; exists teamSubdirectory, roster, signature; apply Hin |]);
    (split; [intros u f H; settle_member H Hquiet;
             match goal with
             | Heq : EvDeleteRequestToJoinTeam _ _ = _ |- _ => injection Heq as <- <-
             end; split; [reflexivity |];
             split; [reflexivity |]; right;
             exists teamSubdirectory, roster, signature;
             split; [apply Hin | exact Hsave] |]).
  - intros H; now contradiction H.
  - intros _. do 3 right. apply in_or_app. right. do 2 right. left. reflexivity.
Qed.


(** Carol's approved request: the roster that lists her is saved after
    Alice's signature on it was verified. *)
Lemma processRequest_saves_only_verified_witness :
  In (EvSave "teams/u1" "roster v3 with carol" "AAAA")
     (events (processRequest scenario_more.approved None None scenario.recent_request
                (scenario.waiting scenario.recent_request))) /\
  exists key unlockedKey password t adminKeys,
    loadPgpKey scenario_more.approved (RequestFingerprint scenario.recent_request)
      = Ok key /\
    getDecryptedPrivateKeyAndPassword scenario_more.approved key
      = Ok (unlockedKey, password) /\
    api_GetTeamRoster scenario_more.approved unlockedKey
        (RequestTeamUUID scenario.recent_request)
      = Ok ("roster v3 with carol", "AAAA") /\
    team_Load scenario_more.approved "roster v3 with carol" "AAAA" = Ok t /\
    returned (fetchAdminPublicKeys scenario_more.approved t
                (scenario.waiting scenario.recent_request)) = Ok adminKeys /\
    team_VerifyRoster scenario_more.approved "roster v3 with carol" "AAAA" adminKeys
      = None /\
    team_Directory scenario_more.approved t = Ok "teams/u1".
Proof.
  assert (Hsaved : In (EvSave "teams/u1" "roster v3 with carol" "AAAA")
                     (events (processRequest scenario_more.approved None None
                                scenario.recent_request
                                (scenario.waiting scenario.recent_request))))
    by (vm_compute; auto 20).
  split; [exact Hsaved |].
  destruct (processRequest_saves_only_verified scenario_more.approved None None
              scenario.recent_request (scenario.waiting scenario.recent_request))
    as [Honly _].
  exact (proj2 (Honly _ _ _ Hsaved)).
Defined.



(** X10: for a request older than seven days the pass makes two calls
    only, the expiry warning and the delete of this requester's request
    for this team: no key is loaded, nothing is fetched, verified or
    saved, and the store is as it was. When the delete goes through,
    exactly the requests of this requester for this team leave the
    database; when it fails the database is as it was, and the failure
    shows nowhere. The pass ends with the function-level [err] as
    [returnError], whatever [returnError] was. *)
Theorem processRequest_expired_is_deleted
  (X : Collaborators) (err returnError : option error)
  (request : RequestToJoinTeam) (w : World) :
  time_Now X - RequestedAt request > (7 * 24) * Hour ->
  returned (processRequest X err returnError request w) = err /\
  store (final (processRequest X err returnError request w)) = store w /\
  (exists lines,
     events (processRequest X err returnError request w) =
       [EvPrint (FormatWarning
                   ("Your request to join " +:+ RequestTeamName request
                    +:+ " has expired") lines None);
        EvDeleteRequestToJoinTeam (RequestTeamUUID request)
          (RequestFingerprint request)]) /\
  (DeleteRequestToJoinTeam_error X (RequestTeamUUID request)
     (RequestFingerprint request) = None ->
   forall other,
     In other (db (final (processRequest X err returnError request w))) <->
     In other (db w) /\
     ~ (RequestTeamUUID other = RequestTeamUUID request /\
        RequestFingerprint other = RequestFingerprint request)) /\
  (DeleteRequestToJoinTeam_error X (RequestTeamUUID request)
     (RequestFingerprint request) <> None ->
   final (processRequest X err returnError request w) = w).
Proof.
  intros Hold.
  destruct (processRequest_expired X err returnError request w Hold) as [lines ->].
  unfold returned, final, events, DeleteRequestToJoinTeam; simpl.
  split; [reflexivity |].
  destruct (DeleteRequestToJoinTeam_error X _ _) as [e |]; simpl.
  - split; [reflexivity |]. split; [eauto |]. split; [discriminate | reflexivity].
  - split; [reflexivity |]. split; [eauto |]. split; [| intros H; now contradiction H].
    intros _ other. rewrite filter_In. unfold sameRequest.
    repeat case_bool_decide; simpl; intuition (discriminate || congruence).
Qed.

(** Carol's stale request goes, Dave's stays. *)
Lemma processRequest_expired_is_deleted_witness :
  time_Now scenario.honest - RequestedAt scenario.stale_request > (7 * 24) * Hour /\
  returned (processRequest scenario.honest None (Some (Errorf "earlier failure"))
              scenario.stale_request
              (mkWorld ∅ [scenario.stale_request; scenario_more.other_request]))
    = None /\
  db (final (processRequest scenario.honest None (Some (Errorf "earlier failure"))
               scenario.stale_request
               (mkWorld ∅ [scenario.stale_request; scenario_more.other_request])))
    = [scenario_more.other_request].
Proof.
  assert (Hold : time_Now scenario.honest - RequestedAt scenario.stale_request
                 > (7 * 24) * Hour) by (vm_compute; reflexivity).
  split; [exact Hold |].
  split.
  - exact (proj1 (processRequest_expired_is_deleted scenario.honest None
                    (Some (Errorf "earlier failure")) scenario.stale_request
                    (mkWorld ∅ [scenario.stale_request; scenario_more.other_request])
                    Hold)).
  - vm_compute. reflexivity.
Defined.

(** X11: when a request that has not expired fails before anything is
    saved (the key cannot be loaded or unlocked, the roster fetch fails
    with an error other than Forbidden, the roster does not load as a
    team, or the admin keys do not resolve or the signature does not
    verify), the pass ends with that error as [returnError], prints it in
    a failure box, and leaves the store and the database as they were. *)
Theorem processRequest_failure_is_reported
  (X : Collaborators) (err returnError : option error)
  (request : RequestToJoinTeam) (w : World) (e : error) :
  time_Now X - RequestedAt request <= (7 * 24) * Hour ->
  returned (loadPrivateKeyFromFingerprint X (RequestFingerprint request) w) = Err e \/
  (exists unlockedKey,
     returned (loadPrivateKeyFromFingerprint X (RequestFingerprint request) w)
       = Ok unlockedKey /\
     (api_GetTeamRoster X unlockedKey (RequestTeamUUID request) = Err e /\
      e <> ErrForbidden \/
      exists roster signature,
        api_GetTeamRoster X unlockedKey (RequestTeamUUID request)
          = Ok (roster, signature) /\
        (team_Load X roster signature = Err e \/
         exists t,
           team_Load X roster signature = Ok t /\
           returned (verifyBrandNewRoster X t roster signature w) = Some e))) ->
  returned (processRequest X err returnError request w) = Some e /\
  final (processRequest X err returnError request w) = w /\
  exists headline,
    last (events (processRequest X err returnError request w))
      = Some (EvPrint (FormatFailure headline [] (Some e))).
Proof.
  intros Hfresh Hfailure.
  destruct (fresh_or_expired X request) as [[Hold _] | [_ Hnot]]; [lia |].
  unfold processRequest. rewrite Hnot. unfold out_Print. run_steps.
  rewrite !loadPrivateKeyFromFingerprint_final.
  destruct Hfailure as [Hkey | (unlockedKey & Hkey & Hlater)]; rewrite Hkey; run_steps.
  { split; [reflexivity |]. split; [reflexivity |].
    eexists. repeat rewrite ?app_nil_r, ?app_assoc. apply last_snoc. }
  unfold client_GetTeamRoster. run_steps.
  destruct Hlater as [[Hfetch Hnot_forbidden] | (roster & signature & Hfetch & Hlater)];
    rewrite Hfetch.
  { destruct (decide (e = ErrForbidden)); [contradiction |]. run_steps.
    split; [reflexivity |]. split; [reflexivity |].
    eexists. repeat rewrite ?app_nil_r, ?app_assoc. apply last_snoc. }
  destruct Hlater as [Hload | (t & Hload & Hverify)]; rewrite Hload; run_steps.
  { split; [reflexivity |]. split; [reflexivity |].
    eexists. repeat rewrite ?app_nil_r, ?app_assoc. apply last_snoc. }
  assert (Hsame : final (verifyBrandNewRoster X t roster signature w) = w).
  { unfold verifyBrandNewRoster, VerifyRoster. run_steps.
    destruct (resolution_cases X t w) as (resolved & evs & -> & _).
    cbn [returned final fst snd]. destruct resolved; reflexivity. }
  rewrite Hverify. run_steps. rewrite Hsame.
  split; [reflexivity |]. split; [reflexivity |].
  eexists. repeat rewrite ?app_nil_r, ?app_assoc. apply last_snoc.
Qed.

(** The server cannot be reached: Carol's request stays and the error is
    reported. *)
Lemma processRequest_failure_is_reported_witness :
  time_Now scenario_more.offline - RequestedAt scenario.recent_request
    <= (7 * 24) * Hour /\
  returned (processRequest scenario_more.offline None None scenario.recent_request
              (scenario.waiting scenario.recent_request))
    = Some (Errorf "connection refused") /\
  final (processRequest scenario_more.offline None None scenario.recent_request
           (scenario.waiting scenario.recent_request))
    = scenario.waiting scenario.recent_request.
Proof.
  assert (Hfresh : time_Now scenario_more.offline - RequestedAt scenario.recent_request
                   <= (7 * 24) * Hour) by (vm_compute; discriminate).
  split; [exact Hfresh |].
  destruct (processRequest_failure_is_reported scenario_more.offline None None
              scenario.recent_request (scenario.waiting scenario.recent_request)
              (Errorf "connection refused") Hfresh) as (Hreturned & Hfinal & _).
  - right. exists scenario.carol_unlocked. split; [reflexivity |].
    left. split; [reflexivity | discriminate].
  - split; [exact Hreturned | exact Hfinal].
Defined.

(** ** Editing a team *)

Import teamedit.

(** Lay a session of [fk team edit] open. *)
Ltac open_edit :=
  unfold teamEdit, doEditTeam, editWrittenRoster, runEditor, writeRosterToTempfile,
    andThen, call, pure.

(** X12: [doEditTeam] and [teamEdit] exit with 1 on every path and never
    reach [promptAndSignAndUploadRoster]: an edited roster that loads is
    always turned down by [ValidateUpdate], and every other path is a
    failure of its own. *)
Theorem teamEdit_never_uploads (C : EditCollaborators) :
  (forall myTeam me,
     fst (doEditTeam C myTeam me) = 1 /\
     forallb (fun ev => negb (isUpload ev)) (snd (doEditTeam C myTeam me)) = true) /\
  fst (teamEdit C) = 1 /\
  forallb (fun ev => negb (isUpload ev)) (snd (teamEdit C)) = true.
Proof.
  assert (Hedit : forall myTeam me,
            fst (doEditTeam C myTeam me) = 1 /\
            forallb (fun ev => negb (isUpload ev)) (snd (doEditTeam C myTeam me))
              = true).
  { intros myTeam me. open_edit.
    destruct (ioutil_TempFile C "roster.toml_") as [tmpfile | e]; [| split; reflexivity].
    destruct (tmpfile_Write C tmpfile (Roster myTeam).1); [split; reflexivity |].
    destruct (tmpfile_Close C tmpfile); [split; reflexivity |].
    destruct (exec_LookPath C "vim") as [editorAbs | e]; [| split; reflexivity].
    destruct (cmd_Start C editorAbs tmpfile); [split; reflexivity |].
    destruct (cmd_Wait C editorAbs tmpfile); [split; reflexivity |].
    destruct (ioutil_ReadFile C tmpfile) as [newRoster | e]; [| split; reflexivity].
    destruct (edit_team_Load C newRoster "") as [updatedTeam | e];
      [| split; reflexivity].
    rewrite ValidateUpdate_cases. split; reflexivity. }
  split; [exact Hedit |].
  unfold teamEdit.
  destruct (edit_Memberships C) as [allMemberships | e]; [| split; reflexivity].
  destruct (filterByAdmin C allMemberships) as [| m [| m' rest]];
    [split; reflexivity | apply Hedit | split; reflexivity].
Qed.

(** X13: once the temporary file has been created, written and closed,
    [doEditTeam] offers the editor the team's current roster text in
    that file and removes the file exactly once, as its very last call,
    however the session ends. When creating, writing or closing fails,
    no file is removed and the editor is not looked for: a file that was
    created but could not be written or closed is left behind. *)
Theorem doEditTeam_removes_written_tempfile
  (C : EditCollaborators) (myTeam : Team) (me : Person) :
  (forall tmpfile,
     ioutil_TempFile C "roster.toml_" = Ok tmpfile ->
     tmpfile_Write C tmpfile (fst (Roster myTeam)) = None ->
     tmpfile_Close C tmpfile = None ->
     last (snd (doEditTeam C myTeam me)) = Some (EdRemove tmpfile) /\
     List.filter isRemove (snd (doEditTeam C myTeam me)) = [EdRemove tmpfile] /\
     In (EdWrite tmpfile (fst (Roster myTeam))) (snd (doEditTeam C myTeam me)) /\
     forall path filename,
       In (EdStart path filename) (snd (doEditTeam C myTeam me)) ->
       filename = tmpfile) /\
  (is_err (fst (writeRosterToTempfile C (fst (Roster myTeam)))) = true ->
   List.filter isRemove (snd (doEditTeam C myTeam me)) = [] /\
   List.filter isEditorCall (snd (doEditTeam C myTeam me)) = []).
Proof.
  split.
  - intros tmpfile Hcreated Hwritten Hclosed. open_edit.
    rewrite Hcreated, Hwritten, Hclosed.
    destruct (exec_LookPath C "vim") as [editorAbs | e]; simpl.
    2: { repeat split; auto. intros ? ? H. settle_member H I. }
    destruct (cmd_Start C editorAbs tmpfile); simpl.
    { repeat split; auto. intros ? ? H. settle_member H I. congruence. }
    destruct (cmd_Wait C editorAbs tmpfile); simpl.
    { repeat split; auto. intros ? ? H. settle_member H I. congruence. }
    destruct (ioutil_ReadFile C tmpfile) as [newRoster | e]; simpl.
    2: { repeat split; auto. intros ? ? H. settle_member H I. congruence. }
    destruct (edit_team_Load C newRoster "") as [updatedTeam | e]; simpl.
    2: { repeat split; auto. intros ? ? H. settle_member H I. congruence. }
    rewrite ValidateUpdate_cases; simpl.
    repeat split; auto. intros ? ? H. settle_member H I. congruence.
  - open_edit.
    destruct (ioutil_TempFile C "roster.toml_") as [tmpfile | e]; [| simpl; auto].
    destruct (tmpfile_Write C tmpfile (fst (Roster myTeam))); [simpl; auto |].
    destruct (tmpfile_Close C tmpfile); simpl; [auto | intros H; discriminate H].
Qed.

(** Alice's session removes its temporary file; with the disk full the
    file that was created is left behind. *)
Lemma doEditTeam_removes_written_tempfile_witness :
  (ioutil_TempFile scenario_edit.editing "roster.toml_" = Ok "/tmp/roster.toml_123" /\
   last (snd (doEditTeam scenario_edit.editing scenario.acme scenario.alice))
     = Some (EdRemove "/tmp/roster.toml_123")) /\
  (is_err (fst (writeRosterToTempfile scenario_edit.disk_full
                  (fst (Roster scenario.acme)))) = true /\
   In (EdWrite "/tmp/roster.toml_123" "roster v2")
      (snd (doEditTeam scenario_edit.disk_full scenario.acme scenario.alice)) /\
   List.filter isRemove
     (snd (doEditTeam scenario_edit.disk_full scenario.acme scenario.alice)) = []).
Proof.
  destruct (doEditTeam_removes_written_tempfile scenario_edit.editing scenario.acme
              scenario.alice) as [Hwritten _].
  destruct (doEditTeam_removes_written_tempfile scenario_edit.disk_full scenario.acme
              scenario.alice) as [_ Hfailed].
  split.
  - split; [reflexivity |].
    exact (proj1 (Hwritten "/tmp/roster.toml_123" eq_refl eq_refl eq_refl)).
  - split; [reflexivity |]. split; [vm_compute; auto 10 |].
    exact (proj1 (Hfailed eq_refl)).
Defined.

(** ** The API client *)

Section Client_facts.

Import apiclient.

Context (T : Transport) (c : Client).

Lemma isSuccess_true (httpStatusCode : Z) :
  isSuccess httpStatusCode = true <-> 200 <= httpStatusCode <= 299.
Proof.
  unfold isSuccess. rewrite Z.eqb_eq.
  pose proof (Z.quot_rem' httpStatusCode 100) as Hsplit.
  destruct (Z_lt_le_dec httpStatusCode 0) as [Hneg | Hpos].
  - pose proof (Z.rem_nonpos httpStatusCode 100 ltac:(lia) ltac:(lia)).
    pose proof (Z.rem_bound_abs httpStatusCode 100 ltac:(lia)).
    lia.
  - pose proof (Z.rem_bound_pos httpStatusCode 100 Hpos ltac:(lia)).
    lia.
Qed.

Lemma makeErrorForAPIResponse_foreign (response : Response) :
  exists msg, makeErrorForAPIResponse T response = Errorf msg.
Proof.
  unfold makeErrorForAPIResponse.
  destruct (StatusCode response =? StatusUnauthorized); [eauto |].
  destruct (negb _); eauto.
Qed.

(** X14: what [do] hands back. Without an error there is a response
    with a status from 200 to 299 that the exchange produced. An error
    is never one of the package's sentinels, and it comes either with no
    response (the exchange or the decoding failed) or with a response
    whose status is outside 200 to 299, for which it is the API error
    made from that response. The value pointed to changes only when a
    pointer was given and the response was successful and labelled
    [application/json]; a successful response with any other content
    type gives no error and leaves the value untouched. *)
Theorem do_contract {A : Type} (req : Request)
  (responseData : option (string -> A + string)) (data : A)
  (response : option Response) (err : option error) (out : A) :
  do T req responseData data = (response, err, out) ->
  (err = None ->
   exists resp, response = Some resp /\ client_Do T req = inl resp /\
                200 <= StatusCode resp <= 299) /\
  (forall e, err = Some e ->
     (exists msg, e = Errorf msg) /\
     (response = None \/
      exists resp, response = Some resp /\ client_Do T req = inl resp /\
                   ~ 200 <= StatusCode resp <= 299 /\
                   e = makeErrorForAPIResponse T resp)) /\
  (out <> data ->
   exists resp decode,
     client_Do T req = inl resp /\ responseData = Some decode /\
     200 <= StatusCode resp <= 299 /\ isJSON resp = true) /\
  (forall resp,
     client_Do T req = inl resp -> 200 <= StatusCode resp <= 299 ->
     isJSON resp = false -> err = None /\ out = data).
Proof.
  unfold do.
  destruct (client_Do T req) as [resp | msg] eqn:Hexchange.
  2: { intros [= <- <- <-]. split; [discriminate |]. split; [| split].
       - intros e [= <-]. split; [eauto | left; reflexivity].
       - intros H; now contradiction H.
       - intros resp [=]. }
  destruct (isSuccess (StatusCode resp)) eqn:Hstatus.
  2: { assert (Hnot : ~ 200 <= StatusCode resp <= 299).
       { rewrite <- isSuccess_true, Hstatus. discriminate. }
       intros [= <- <- <-]. split; [discriminate |]. split; [| split].
       - intros e [= <-]. split; [apply makeErrorForAPIResponse_foreign |].
         right. exists resp. auto.
       - intros H; now contradiction H.
       - intros resp' [= <-] Hok. contradiction. }
  apply isSuccess_true in Hstatus.
  destruct responseData as [decode |].
  2: { intros [= <- <- <-]. split; [eauto |]. split; [discriminate |].
       split; [intros H; now contradiction H | auto]. }
  destruct (isJSON resp) eqn:Hjson.
  2: { intros [= <- <- <-]. split; [eauto |]. split; [discriminate |].
       split; [intros H; now contradiction H | auto]. }
  unfold decodeBody.
  destruct (Body resp) as [text | msg] eqn:Hbody.
  - destruct (decode text) as [decoded | msg] eqn:Hdecoded.
    + intros [= <- <- <-]. split; [eauto |]. split; [discriminate |]. split.
      * intros _. exists resp, decode. auto.
      * intros resp' [= <-] _ Hnot. congruence.
    + intros [= <- <- <-]. split; [discriminate |]. split; [| split].
      * intros e [= <-]. split; [eauto | left; reflexivity].
      * intros H; now contradiction H.
      * intros resp' [= <-] _ Hnot. congruence.
  - intros [= <- <- <-]. split; [discriminate |]. split; [| split].
    + intros e [= <-]. split; [eauto | left; reflexivity].
    + intros H; now contradiction H.
    + intros resp' [= <-] _ Hnot. congruence.
Qed.

End Client_facts.

(** A page served as [text/html] with status 200: no error, and the
    value is left as it was. *)
Lemma do_contract_witness :
  apiclient.do
    (scenario_api.transport
       (fun _ => inl (apiclient.mkResponse 200 "text/html" (inl "<html>"))))
    (apiclient.mkHTTPRequest "GET" "https://api.fluidkeys.com/v1/team/u1" None ∅)
    (Some (fun text : string => inl text : string + string)) "untouched"
  = (Some (apiclient.mkResponse 200 "text/html" (inl "<html>")), None, "untouched") /\
  exists resp,
    Some (apiclient.mkResponse 200 "text/html" (inl "<html>")) = Some resp /\
    apiclient.client_Do
      (scenario_api.transport
         (fun _ => inl (apiclient.mkResponse 200 "text/html" (inl "<html>"))))
      (apiclient.mkHTTPRequest "GET" "https://api.fluidkeys.com/v1/team/u1" None ∅)
      = inl resp /\
    200 <= apiclient.StatusCode resp <= 299.
Proof.
  split; [reflexivity |].
  exact (proj1 (do_contract
                  (scenario_api.transport
                     (fun _ => inl (apiclient.mkResponse 200 "text/html" (inl "<html>"))))
                  (apiclient.mkHTTPRequest "GET" "https://api.fluidkeys.com/v1/team/u1"
                     None ∅)
                  (Some (fun text : string => inl text : string + string))
                  "untouched" _ _ _ eq_refl) eq_refl).
Defined.

Section Endpoint_facts.

Import apiclient.

Context (T : Transport) (c : Client).

Lemma newRequest_foreign method relativePath requestData err :
  newRequest T c method relativePath requestData = Err err ->
  exists msg, err = Errorf msg.
Proof.
  unfold newRequest.
  destruct (negb (HasSuffix (BaseURLPath c) "/")); [intros [= <-]; eauto |].
  destruct (url_Parse T (BaseURL c) relativePath) as [url | msg];
    [| intros [= <-]; eauto].
  destruct requestData as [data |].
  - destruct (json_Encode T data) as [text | msg]; [| intros [= <-]; eauto].
    destruct (http_NewRequest_error T method url); [intros [= <-]; eauto |].
    discriminate.
  - destruct (http_NewRequest_error T method url); [intros [= <-]; eauto |].
    discriminate.
Qed.

(** X15: [GetTeamRoster] answers [ErrForbidden] exactly when the
    request could be built and the server answered it with status 403,
    and [ErrTeamNotFound] exactly when the server answered with 404. The
    request it sends is the one [newRequest] built with the caller's
    authorization added as the last value of the authorization header. *)
Theorem GetTeamRoster_forbidden_iff_403 (teamUUID : UUID) (me : Fingerprint) :
  (GetTeamRoster T c teamUUID me = Done (Err ErrForbidden) <->
   exists request response,
     newRequest T c "GET" ("team/" +:+ teamUUID +:+ "/roster") None = Ok request /\
     client_Do T (Header_Add T request "authorization" (authorization T me))
       = inl response /\
     StatusCode response = 403) /\
  (GetTeamRoster T c teamUUID me = Done (Err ErrTeamNotFound) <->
   exists request response,
     newRequest T c "GET" ("team/" +:+ teamUUID +:+ "/roster") None = Ok request /\
     client_Do T (Header_Add T request "authorization" (authorization T me))
       = inl response /\
     StatusCode response = 404) /\
  (forall request,
     exists earlier,
       Header (Header_Add T request "authorization" (authorization T me))
         !! canonicalHeaderKey T "authorization"
       = Some (earlier ++ ["tmpfingerprint: OPENPGP4FPR:" +:+ Hex T me])).
Proof.
  split; [| split].
  3: { intros request. eexists. unfold Header_Add, authorization. simpl.
       rewrite lookup_insert_eq. reflexivity. }
  all: unfold GetTeamRoster, do.
  all: destruct (newRequest T c "GET" ("team/" +:+ teamUUID +:+ "/roster") None)
         as [request | err] eqn:Hbuilt;
       [| split; [intros [= ->]; apply newRequest_foreign in Hbuilt as [msg [=]]
                 | intros (request & response & [=] & _)]].
  all: destruct (client_Do T (Header_Add T request "authorization"
                                (authorization T me)))
         as [response | msg] eqn:Hexchange;
       [| split; [discriminate | intros (r & response & [= <-] & Hr & _); congruence]].
  all: destruct (isSuccess (StatusCode response)) eqn:Hstatus.
  all: try (destruct (makeErrorForAPIResponse_foreign T response) as [msg Hmsg];
            rewrite Hmsg;
            destruct (StatusCode response =? StatusNotFound) eqn:H404;
            [apply Z.eqb_eq in H404 |
             destruct (StatusCode response =? StatusForbidden) eqn:H403;
             [apply Z.eqb_eq in H403 | apply Z.eqb_neq in H403];
             apply Z.eqb_neq in H404];
            unfold StatusNotFound, StatusForbidden in *;
            (split; [try discriminate; intros _; exists request, response; auto
                    | intros (r & resp & [= <-] & Hr & Hcode);
                      rewrite Hexchange in Hr; injection Hr as <-;
                      first [reflexivity | lia]])).
  all: apply isSuccess_true in Hstatus.
  all: split;
       [| intros (r & resp & [= <-] & Hr & Hcode);
          rewrite Hexchange in Hr; injection Hr as <-; lia].
  all: destruct (isJSON response);
       [unfold decodeBody; destruct (Body response) as [text | msg];
        [destruct (decode_GetTeamRosterResponse T text) as [[[r s] |] | msg] |] |];
       discriminate.
Qed.

End Endpoint_facts.

(** The server answers 403 to Carol, who has not been let in yet. *)
Lemma GetTeamRoster_forbidden_iff_403_witness :
  apiclient.GetTeamRoster
    (scenario_api.transport (scenario_api.answers 403 "not a member"))
    scenario_api.client "u1" "CCCC" = apiclient.Done (Err ErrForbidden).
Proof.
  apply (proj1 (GetTeamRoster_forbidden_iff_403
                  (scenario_api.transport (scenario_api.answers 403 "not a member"))
                  scenario_api.client "u1" "CCCC")).
  do 2 eexists. split; [reflexivity |]. split; reflexivity.
Defined.

Section Key_endpoint_facts.

Import apiclient.

Context (T : Transport) (c : Client).

(** X16: a key that [GetPublicKeyByFingerprint] returns has the
    fingerprint that was asked for, and it was parsed from the non-empty
    body of a response with a status from 200 to 299; the call answers
    [ErrPublicKeyNotFound] exactly when the server answered 404; and it
    never panics. *)
Theorem GetPublicKeyByFingerprint_returns_requested_key (fingerprint : Fingerprint) :
  (forall key,
     GetPublicKeyByFingerprint T c fingerprint = Done (Ok key) ->
     KeyFingerprint key = fingerprint /\
     exists request response bodyData,
       newRequest T c "GET" ("key/" +:+ Hex T fingerprint +:+ ".asc") None
         = Ok request /\
       client_Do T request = inl response /\
       200 <= StatusCode response <= 299 /\
       Body response = inl bodyData /\ bodyData <> "" /\
       LoadFromArmoredPublicKey T bodyData = inl key) /\
  (GetPublicKeyByFingerprint T c fingerprint = Done (Err ErrPublicKeyNotFound) <->
   exists request response,
     newRequest T c "GET" ("key/" +:+ Hex T fingerprint +:+ ".asc") None
       = Ok request /\
     client_Do T request = inl response /\ StatusCode response = 404) /\
  (exists answer, GetPublicKeyByFingerprint T c fingerprint = Done answer).
Proof.
  unfold GetPublicKeyByFingerprint.
  destruct (newRequest T c "GET" ("key/" +:+ Hex T fingerprint +:+ ".asc") None)
    as [request | err] eqn:Hbuilt.
  2: { split; [discriminate |]. split; [| eauto].
       split; [intros [= ->]; apply newRequest_foreign in Hbuilt as [msg [=]]
              | intros (r & resp & [=] & _)]. }
  destruct (client_Do T request) as [response | msg] eqn:Hexchange.
  2: { split; [discriminate |]. split; [| eauto].
       split; [discriminate | intros (r & resp & [= <-] & Hr & _); congruence]. }
  destruct (isSuccess (StatusCode response)) eqn:Hstatus; cbn [negb].
  2: { assert (Hnot : ~ 200 <= StatusCode response <= 299).
       { rewrite <- isSuccess_true, Hstatus. discriminate. }
       destruct (StatusCode response =? StatusNotFound) eqn:H404.
       - apply Z.eqb_eq in H404. split; [discriminate |]. split; [| eauto].
         split; [intros _; exists request, response; auto |reflexivity].
       - apply Z.eqb_neq in H404. split; [discriminate |]. split; [| eauto].
         destruct (makeErrorForAPIResponse_foreign T response) as [msg ->].
         split; [discriminate |].
         intros (r & resp & [= <-] & Hr & Hcode).
         rewrite Hexchange in Hr; injection Hr as <-. contradiction. }
  apply isSuccess_true in Hstatus.
  assert (Hnot404 : ~ exists r resp,
            Ok request = Ok r /\ client_Do T r = inl resp /\ StatusCode resp = 404).
  { intros (r & resp & [= <-] & Hr & Hcode).
    rewrite Hexchange in Hr; injection Hr as <-. lia. }
  destruct (Body response) as [bodyData | msg] eqn:Hbody.
  2: { split; [discriminate |]. split; [| eauto].
       split; [discriminate | intros H; now contradiction Hnot404]. }
  destruct (String.length bodyData =? 0)%nat eqn:Hempty.
  { split; [discriminate |]. split; [| eauto].
    split; [discriminate | intros H; now contradiction Hnot404]. }
  destruct (LoadFromArmoredPublicKey T bodyData) as [retrievedKey | msg] eqn:Hparsed.
  2: { split; [discriminate |]. split; [| eauto].
       split; [discriminate | intros H; now contradiction Hnot404]. }
  destruct (decide (KeyFingerprint retrievedKey <> fingerprint)) as [Hother | Hsame].
  { split; [discriminate |]. split; [| eauto].
    split; [discriminate | intros H; now contradiction Hnot404]. }
  split; [| split; [| eauto]].
  - intros key [= <-]. split.
    + destruct (decide (KeyFingerprint retrievedKey = fingerprint)); [assumption |].
      contradiction.
    + exists request, response, bodyData. repeat split; auto; try lia.
      intros ->. discriminate Hempty.
  - split; [discriminate | intros H; now contradiction Hnot404].
Qed.

(** X17: [RequestToJoinTeam] returns nil exactly when the request could
    be built and the server answered it with a status from 200 to 299;
    a 409 is reported as a request that already exists for that email;
    and when the exchange itself fails the call panics, reading the
    status of a response that is not there. *)
Theorem RequestToJoinTeam_outcomes
  (teamUUID : UUID) (fingerprint : Fingerprint) (email : string) (request : Request) :
  newRequest T c "POST" ("team/" +:+ teamUUID +:+ "/requests-to-join")
    (Some (RequestToJoinTeamRequest email)) = Ok request ->
  (RequestToJoinTeam T c teamUUID fingerprint email = Done None <->
   exists response,
     client_Do T (Header_Add T request "authorization" (authorization T fingerprint))
       = inl response /\
     200 <= StatusCode response <= 299) /\
  (forall response,
     client_Do T (Header_Add T request "authorization" (authorization T fingerprint))
       = inl response ->
     StatusCode response = 409 ->
     RequestToJoinTeam T c teamUUID fingerprint email
       = Done (Some (Errorf ("already got request to join team for " +:+ email)))) /\
  (forall msg,
     client_Do T (Header_Add T request "authorization" (authorization T fingerprint))
       = inr msg ->
     RequestToJoinTeam T c teamUUID fingerprint email
       = Panic "nil pointer dereference").
Proof.
  intros Hbuilt. unfold RequestToJoinTeam, do. rewrite Hbuilt.
  destruct (client_Do T (Header_Add T request "authorization"
                           (authorization T fingerprint)))
    as [response | msg] eqn:Hexchange.
  2: { split; [split; [discriminate | intros (resp & [=] & _)] |].
       split; [intros resp [=] | reflexivity]. }
  destruct (isSuccess (StatusCode response)) eqn:Hstatus.
  - apply isSuccess_true in Hstatus. split; [| split].
    + split; [eauto | reflexivity].
    + intros resp [= <-] Hcode. lia.
    + intros msg [=].
  - assert (Hnot : ~ 200 <= StatusCode response <= 299).
    { rewrite <- isSuccess_true, Hstatus. discriminate. }
    split; [| split].
    + split.
      * destruct (StatusCode response =? StatusConflict); discriminate.
      * intros (resp & [= <-] & Hok). contradiction.
    + intros resp [= <-] Hcode. rewrite Hcode. reflexivity.
    + intros msg [=].
Qed.

End Key_endpoint_facts.

(** With the server unreachable, asking to join a team panics. *)
Lemma RequestToJoinTeam_outcomes_witness :
  apiclient.newRequest (scenario_api.transport scenario_api.unreachable)
    scenario_api.client "POST" "team/u1/requests-to-join"
    (Some (apiclient.RequestToJoinTeamRequest "carol@acme.example"))
    = Ok (apiclient.mkHTTPRequest "POST"
            "https://api.fluidkeys.com/v1/team/u1/requests-to-join" (Some "{}")
            (<["User-Agent" := ["fluidkeys-1.0"]]>
               (<["Content-Type" := ["application/json"]]> ∅))) /\
  apiclient.RequestToJoinTeam (scenario_api.transport scenario_api.unreachable)
    scenario_api.client "u1" "CCCC" "carol@acme.example"
    = apiclient.Panic "nil pointer dereference".
Proof.
  assert (Hbuilt :
            apiclient.newRequest (scenario_api.transport scenario_api.unreachable)
              scenario_api.client "POST" "team/u1/requests-to-join"
              (Some (apiclient.RequestToJoinTeamRequest "carol@acme.example"))
            = Ok (apiclient.mkHTTPRequest "POST"
                    "https://api.fluidkeys.com/v1/team/u1/requests-to-join" (Some "{}")
                    (<["User-Agent" := ["fluidkeys-1.0"]]>
                       (<["Content-Type" := ["application/json"]]> ∅))))
    by reflexivity.
  split; [exact Hbuilt |].
  destruct (RequestToJoinTeam_outcomes
              (scenario_api.transport scenario_api.unreachable) scenario_api.client
              "u1" "CCCC" "carol@acme.example" _ Hbuilt) as (_ & _ & Hpanics).
  exact (Hpanics "dial tcp: connection refused" eq_refl).
Defined.

Section Request_facts.

Import apiclient.

Context (T : Transport) (c : Client).



Lemma ListRequestsToJoinTeam_range_omap teamUUID entries : forall requestsToJoinTeam,
  ListRequestsToJoinTeam_range T teamUUID entries requestsToJoinTeam =
    requestsToJoinTeam ++
    omap (fun entry =>
            match uuid_FromString T (jsonUUID entry),
                  fpr_Parse T (jsonFingerprint entry) with
            | inl requestUUID, inl requestFingerprint =>
              Some (mkRequest requestUUID teamUUID "" requestFingerprint
                      (jsonEmail entry) zeroTime)
            | _, _ => None
            end) entries.
Proof.
  induction entries as [| entry rest IH]; intros requestsToJoinTeam.
  - cbn. now rewrite app_nil_r.
  - cbn [ListRequestsToJoinTeam_range].
    change (omap ?f (entry :: rest))
      with (match f entry with Some r => r :: omap f rest | None => omap f rest end).
    cbv beta.
    destruct (uuid_FromString T (jsonUUID entry)) as [requestUUID | msg];
      [| rewrite IH; reflexivity].
    destruct (fpr_Parse T (jsonFingerprint entry)) as [requestFingerprint | msg];
      [| rewrite IH; reflexivity].
    rewrite IH, <- app_assoc. reflexivity.
Qed.

(** X19: the requests [ListRequestsToJoinTeam] returns are, in the
    order the server listed them, the entries whose UUID and fingerprint
    both parse; the others are dropped without a word. Every returned
    request is for the team asked about, keeps the entry's email, has no
    team name, and has the zero time as [RequestedAt]. When the response
    is not labelled as JSON the list is empty. *)
Theorem ListRequestsToJoinTeam_keeps_parseable
  (teamUUID : UUID) (fingerprint : Fingerprint) (requests : list team.RequestToJoinTeam) :
  ListRequestsToJoinTeam T c teamUUID fingerprint = Done (Ok requests) ->
  Forall (fun r => RequestTeamUUID r = teamUUID /\ RequestedAt r = zeroTime /\
                   RequestTeamName r = "") requests /\
  exists request response entries,
    newRequest T c "GET" ("team/" +:+ teamUUID +:+ "/requests-to-join") None
      = Ok request /\
    client_Do T (Header_Add T request "authorization" (authorization T fingerprint))
      = inl response /\
    (if isJSON response
     then exists text, Body response = inl text /\
            decode_ListRequestsToJoinTeamResponse T text = inl (Some entries)
     else entries = []) /\
    (length requests <= length entries)%nat /\
    requests =
      omap (fun entry =>
              match uuid_FromString T (jsonUUID entry),
                    fpr_Parse T (jsonFingerprint entry) with
              | inl requestUUID, inl requestFingerprint =>
                Some (mkRequest requestUUID teamUUID "" requestFingerprint
                        (jsonEmail entry) zeroTime)
              | _, _ => None
              end) entries.
Proof.
  unfold ListRequestsToJoinTeam, do.
  destruct (newRequest T c "GET" ("team/" +:+ teamUUID +:+ "/requests-to-join") None)
    as [request | err]; [| discriminate].
  destruct (client_Do T (Header_Add T request "authorization"
                           (authorization T fingerprint)))
    as [response | msg] eqn:Hexchange; [| discriminate].
  destruct (isSuccess (StatusCode response)); [| discriminate].
  assert (Hshape : forall entries,
            Forall (fun r => RequestTeamUUID r = teamUUID /\ RequestedAt r = zeroTime /\
                             RequestTeamName r = "")
              (ListRequestsToJoinTeam_range T teamUUID entries []) /\
            (length (ListRequestsToJoinTeam_range T teamUUID entries [])
             <= length entries)%nat).
  { intros entries. rewrite ListRequestsToJoinTeam_range_omap. cbn [app].
    match goal with |- context [omap ?g entries] => remember g as f eqn:Hf end.
    induction entries as [| entry rest [IHall IHlen]];
      [split; [constructor | reflexivity] |].
    simpl. destruct (f entry) as [r |] eqn:Hentry; simpl.
    - split; [constructor; [| exact IHall] | apply le_n_S, IHlen].
      subst f. cbv beta in Hentry.
      destruct (uuid_FromString T (jsonUUID entry)); [| discriminate].
      destruct (fpr_Parse T (jsonFingerprint entry)); [| discriminate].
      injection Hentry as <-. auto.
    - split; [exact IHall | apply le_S, IHlen]. }
  destruct (isJSON response) eqn:Hjson.
  - unfold decodeBody.
    destruct (Body response) as [text | msg] eqn:Hbody; [| discriminate].
    destruct (decode_ListRequestsToJoinTeamResponse T text) as [[entries |] | msg]
      eqn:Hdecoded; try discriminate.
    intros [= <-]. destruct (Hshape entries) as [Hall Hlen].
    split; [exact Hall |].
    exists request, response, entries. rewrite Hjson.
    split; [reflexivity |]. split; [exact Hexchange |]. split; [eauto |].
    split; [exact Hlen |]. now rewrite ListRequestsToJoinTeam_range_omap.
  - intros [= <-]. split; [constructor |].
    exists request, response, []. rewrite Hjson. auto.
Qed.

End Request_facts.


(** Three entries are listed; the one whose UUID does not parse is
    dropped. *)
Lemma ListRequestsToJoinTeam_keeps_parseable_witness :
  apiclient.ListRequestsToJoinTeam
    (scenario_api.transport (scenario_api.answers 200 "[...]"))
    scenario_api.client "u1" "AAAA"
  = apiclient.Done
      (Ok [mkRequest "r1" "u1" "" "CCCC" "carol@acme.example" apiclient.zeroTime;
           mkRequest "r3" "u1" "" "EEEE" "erin@acme.example" apiclient.zeroTime]) /\
  Forall (fun r => RequestTeamUUID r = "u1" /\ RequestedAt r = apiclient.zeroTime /\
                   RequestTeamName r = "")
    [mkRequest "r1" "u1" "" "CCCC" "carol@acme.example" apiclient.zeroTime;
     mkRequest "r3" "u1" "" "EEEE" "erin@acme.example" apiclient.zeroTime].
Proof.
  split; [reflexivity |].
  exact (proj1 (ListRequestsToJoinTeam_keeps_parseable
                  (scenario_api.transport (scenario_api.answers 200 "[...]"))
                  scenario_api.client "u1" "AAAA" _ eq_refl)).
Defined.

(** ** More on the admins' keys and on the validator *)

Section Resolution_more.

Context (X : Collaborators).
Implicit Types (w : World) (p : Person).

Lemma lookedUp_app evs evs' : lookedUp (evs ++ evs') = lookedUp evs ++ lookedUp evs'.
Proof. apply omap_app. Qed.

Lemma discoverPublicKey_lookedUp fingerprint w :
  lookedUp (events (discoverPublicKey X fingerprint w)) = [fingerprint].
Proof.
  rewrite discoverPublicKey_run.
  destruct (loadPgpKey X fingerprint); [reflexivity |].
  destruct (api_GetPublicKeyByFingerprint X fingerprint); reflexivity.
Qed.

Lemma fetchAdminPublicKeys_range_stops pre : forall p post adminKeys w,
  Forall (fun q => is_err (returned (discoverPublicKey X (PersonFingerprint q) w))
                   = false) pre ->
  is_err (returned (discoverPublicKey X (PersonFingerprint p) w)) = true ->
  returned (fetchAdminPublicKeys_range X (pre ++ p :: post) adminKeys w)
    = Err (Errorf ("failed multiple attempts to find get public key for "
                   +:+ PersonFingerprint p)) /\
  lookedUp (events (fetchAdminPublicKeys_range X (pre ++ p :: post) adminKeys w))
    = map PersonFingerprint (pre ++ [p]).
Proof.
  induction pre as [| q pre IH]; intros p post adminKeys w Hpre Hp.
  - cbn [app]. rewrite fetchAdminPublicKeys_range_step, returned_bind, events_bind,
      lookedUp_app, discoverPublicKey_lookedUp, discoverPublicKey_final.
    rewrite discoverPublicKey_returned in *.
    destruct (loadPgpKey X (PersonFingerprint p)); [discriminate |].
    destruct (api_GetPublicKeyByFingerprint X (PersonFingerprint p));
      [discriminate |].
    split; reflexivity.
  - inversion Hpre as [| ? ? Hq Hrest]; subst.
    cbn [app]. rewrite fetchAdminPublicKeys_range_step, returned_bind, events_bind,
      lookedUp_app, discoverPublicKey_lookedUp, discoverPublicKey_final.
    destruct (returned (discoverPublicKey X (PersonFingerprint q) w));
      [| discriminate].
    destruct (IH p post (adminKeys ++ [a]) w Hrest Hp) as [-> ->].
    split; reflexivity.
Qed.

(** X20: admin-key resolution stops at the first admin whose key is
    found neither in the keyring nor on the server: the keyring is asked
    for that admin and the admins before, in roster order, and for no
    admin after; the error names the fingerprint of that admin. *)
Theorem fetchAdminPublicKeys_stops_at_first_missing_key
  (t : Team) (w : World) (pre post : list Person) (p : Person) :
  Admins t = pre ++ p :: post ->
  Forall (fun q => is_err (loadPgpKey X (PersonFingerprint q)) = false \/
                   is_err (api_GetPublicKeyByFingerprint X (PersonFingerprint q))
                   = false) pre ->
  is_err (loadPgpKey X (PersonFingerprint p)) = true ->
  is_err (api_GetPublicKeyByFingerprint X (PersonFingerprint p)) = true ->
  returned (fetchAdminPublicKeys X t w)
    = Err (Errorf ("failed multiple attempts to find get public key for "
                   +:+ PersonFingerprint p)) /\
  lookedUp (events (fetchAdminPublicKeys X t w)) = map PersonFingerprint (pre ++ [p]).
Proof.
  intros Hadmins Hpre Hlocal Hremote. unfold fetchAdminPublicKeys. rewrite Hadmins.
  apply fetchAdminPublicKeys_range_stops.
  - eapply Forall_impl; [exact Hpre |]. intros q Hq. cbv beta in Hq.
    rewrite discoverPublicKey_returned.
    destruct (loadPgpKey X (PersonFingerprint q)); [reflexivity |].
    destruct (api_GetPublicKeyByFingerprint X (PersonFingerprint q));
      [reflexivity | destruct Hq; discriminate].
  - rewrite discoverPublicKey_returned.
    destruct (loadPgpKey X (PersonFingerprint p)); [discriminate |].
    destruct (api_GetPublicKeyByFingerprint X (PersonFingerprint p));
      [discriminate | reflexivity].
Qed.

(** X21: what [ValidateUpdate] answers depends on the UUIDs and the
    names of the two teams and on nothing else: the people, the roster
    text, the signature and the signer are never read. In particular it
    does not tell a changed team from an unchanged one when UUID and
    name agree. *)
Theorem ValidateUpdate_reads_only_uuid_and_name
  (before before' after after' : Team) (me me' : Person) :
  TeamUUID before = TeamUUID before' -> Name before = Name before' ->
  TeamUUID after = TeamUUID after' -> Name after = Name after' ->
  ValidateUpdate before after me = ValidateUpdate before' after' me'.
Proof.
  intros Hu Hn Hu' Hn'. rewrite !ValidateUpdate_cases, Hu, Hn, Hu', Hn'. reflexivity.
Qed.


End Resolution_more.

(** Bob is the second of three admins and his key is missing: Carol's
    key is never looked up. *)
Lemma fetchAdminPublicKeys_stops_at_first_missing_key_witness :
  Admins scenario_more.trio
    = [scenario.alice] ++ scenario_more.bob_admin :: [scenario_more.carol_admin] /\
  returned (fetchAdminPublicKeys scenario_more.bob_unknown scenario_more.trio
              scenario.trusted)
    = Err (Errorf "failed multiple attempts to find get public key for BBBB") /\
  lookedUp (events (fetchAdminPublicKeys scenario_more.bob_unknown scenario_more.trio
                      scenario.trusted)) = ["AAAA"; "BBBB"].
Proof.
  split; [reflexivity |].
  apply (fetchAdminPublicKeys_stops_at_first_missing_key scenario_more.bob_unknown
           scenario_more.trio scenario.trusted [scenario.alice]
           [scenario_more.carol_admin] scenario_more.bob_admin eq_refl).
  - constructor; [left; reflexivity | constructor].
  - reflexivity.
  - reflexivity.
Defined.

(** Demoting Alice and rewriting the roster gets the answer an untouched
    Acme gets. *)
Lemma ValidateUpdate_reads_only_uuid_and_name_witness :
  ValidateUpdate scenario.acme scenario.acme_no_admin scenario.alice
    = ValidateUpdate scenario.acme scenario.acme scenario.bob.
Proof.
  apply (ValidateUpdate_reads_only_uuid_and_name scenario.acme scenario.acme
           scenario.acme_no_admin scenario.acme scenario.alice scenario.bob);
    reflexivity.
Defined.
